(** * OKTE time-window price analytics: a shallow embedding

    This development embeds the analytic core of the OKTE Home Assistant
    integration:

    - [custom_components/okte/okte.py]: [calculate_price_statistics],
      [find_cheapest_time_window], [find_most_expensive_time_window],
      [find_multiple_expensive_windows], [find_multiple_cheap_windows];
    - [custom_components/okte/base.py]: [OkteBaseSensor._filter_data_by_date];
    - [custom_components/okte/sensors_detectors_today.py]:
      [_update_detector_state] of both detector sensors.

    Modelling conventions.
    - Python [int] is [Z].  A price is kept as the decimal number of the
      response, a rational [Q].  The functions of [okte.py] are embedded
      twice: first with exact rational arithmetic, for the properties that
      do not depend on how a sum or a quotient is rounded (which records
      are valid, their order, the shape of a result, the errors raised);
      then, in the module [Binary64], with the IEEE 754 binary64 arithmetic
      the interpreter performs, for every property about a computed
      average, minimum, maximum or rounded value.
    - A [datetime] lies between [datetime.min] and [datetime.max]; adding
      a [timedelta] that leaves this range raises [OverflowError].
    - [None] is [option]'s [None]; a dict with a fixed key set is a record.
    - Exceptions are explicit: effectful code lives in the monad [py], and
      [try/except] is a match on the outcome.
    - Python's [list.sort] is stable; it is modelled by a stable insertion
      sort.
    - [datetime.fromisoformat], the zone database and the system zone
      belong to the Python library and are parameters of the model.

    Logging, and the two result entries that are always [None]
    ([savings_vs_daily_avg], [extra_cost_vs_daily_avg]), are left out. *)

From Stdlib Require Import String Ascii DecimalString.
From Stdlib Require Import ZArith QArith Qround Qabs List Bool Lia Lqa.
From Stdlib Require Import SpecFloat.
From Stdlib Require Import Permutation Sorted OrderedTypeEx.
Import ListNotations.

Set Implicit Arguments.

(** ** Python runtime: exceptions *)

Inductive exn : Set :=
| ZeroDivisionError
| IndexError
| TypeError
| ValueError
| StopIteration
| ImportError
| ZoneInfoNotFoundError
| OverflowError.

Inductive py (A : Type) : Type :=
| Ret (a : A)
| Raise (e : exn).

Arguments Ret {A} a.
Arguments Raise {A} e.

Definition bind {A B : Type} (m : py A) (k : A -> py B) : py B :=
  match m with
  | Ret a => k a
  | Raise e => Raise e
  end.

Declare Scope py_scope.
Delimit Scope py_scope with py.
Notation "x <- m ;; k" := (bind m (fun x => k))
  (at level 61, m at next level, right associativity) : py_scope.
Notation "' pat <- m ;; k" := (bind m (fun x => match x with pat => k end))
  (at level 61, pat pattern, m at next level, right associativity) : py_scope.
Open Scope py_scope.

(** [try: m except: h] *)
Definition try_except {A : Type} (m : py A) (h : exn -> py A) : py A :=
  match m with
  | Ret a => Ret a
  | Raise e => h e
  end.

(** [for x in xs: s = body(s, x)] *)
Fixpoint py_for {S X : Type} (xs : list X) (body : S -> X -> py S) (s : S)
  : py S :=
  match xs with
  | [] => Ret s
  | x :: xs' => s' <- body s x ;; py_for xs' body s'
  end.

(** [[f(x) for x in xs]] where [f] may raise *)
Fixpoint py_map {X Y : Type} (f : X -> py Y) (xs : list X) : py (list Y) :=
  match xs with
  | [] => Ret []
  | x :: xs' => y <- f x ;; ys <- py_map f xs' ;; Ret (y :: ys)
  end.

(** ** Python runtime: sequences *)

Definition len {A : Type} (l : list A) : Z := Z.of_nat (List.length l).

(** [range(n)] *)
Definition py_range (n : Z) : list Z := map Z.of_nat (seq 0 (Z.to_nat n)).

(** Slice-index normalisation: a negative index counts from the end, and the
    result is clamped to [0 .. len]. *)
Definition slice_index (n k : Z) : Z :=
  if (k <? 0)%Z then Z.max 0 (k + n) else Z.min k n.

(** [l[i:j]] *)
Definition py_slice {A : Type} (l : list A) (i j : Z) : list A :=
  let lo := slice_index (len l) i in
  let hi := slice_index (len l) j in
  firstn (Z.to_nat (hi - lo)) (skipn (Z.to_nat lo) l).

(** [l[:k]] *)
Definition py_prefix {A : Type} (l : list A) (k : Z) : list A :=
  py_slice l 0 k.

(** [l[0]] *)
Definition py_first {A : Type} (l : list A) : py A :=
  match l with
  | [] => Raise IndexError
  | x :: _ => Ret x
  end.

(** [l[-1]] *)
Definition py_last {A : Type} (l : list A) : py A :=
  match rev l with
  | [] => Raise IndexError
  | x :: _ => Ret x
  end.

(** [next(x for x in l if p(x))] *)
Definition py_next {A : Type} (p : A -> bool) (l : list A) : py A :=
  match find p l with
  | Some x => Ret x
  | None => Raise StopIteration
  end.

(** A stable insertion sort.  [lt y x] says that [y] sorts strictly before
    [x]; an element is never moved in front of one it does not strictly
    precede, so equal keys keep their input order, as in [list.sort]. *)
Fixpoint insert_by {A : Type} (lt : A -> A -> bool) (x : A) (l : list A)
  : list A :=
  match l with
  | [] => [x]
  | y :: ys => if lt y x then y :: insert_by lt x ys else x :: y :: ys
  end.

Definition stable_sort {A : Type} (lt : A -> A -> bool) (l : list A) : list A :=
  fold_right (insert_by lt) [] l.

(** ** Python runtime: numbers, with exact arithmetic

    The operations of this section compute in [Q] without rounding; the
    operations on floats are those of the module [Binary64] below. *)

(** [sum(xs)]: left to right, starting from [0]. *)
Definition py_sum (xs : list Q) : Q := fold_left Qplus xs 0%Q.

(** [a / n] for an integer divisor [n] *)
Definition py_div (a : Q) (n : Z) : py Q :=
  if (n =? 0)%Z then Raise ZeroDivisionError else Ret (a / inject_Z n)%Q.

Definition Qltb (a b : Q) : bool := negb (Qle_bool b a).

(** [min(xs)] and [max(xs)]: the first extremal element; [ValueError] on an
    empty sequence. *)
Definition py_min (xs : list Q) : py Q :=
  match xs with
  | [] => Raise ValueError
  | x :: xs' => Ret (fold_left (fun m y => if Qltb y m then y else m) xs' x)
  end.

Definition py_max (xs : list Q) : py Q :=
  match xs with
  | [] => Raise ValueError
  | x :: xs' => Ret (fold_left (fun m y => if Qltb m y then y else m) xs' x)
  end.

(** Rounding to the nearest integer, ties to even. *)
Definition round_half_even (q : Q) : Z :=
  let f := Qfloor q in
  match Qcompare (q - inject_Z f) (1 # 2) with
  | Lt => f
  | Gt => (f + 1)%Z
  | Eq => if Z.even f then f else (f + 1)%Z
  end.

(** [round(x, 2)] *)
Definition py_round2 (x : Q) : Q := Qmake (round_half_even (x * 100)) 100.

(** [float('inf')], [float('-inf')] and finite values *)
Inductive ext : Set :=
| NegInf
| Fin (q : Q)
| PosInf.

(** [a < b] for a finite [a] and an extended [b] *)
Definition fin_lt_ext (a : Q) (b : ext) : bool :=
  match b with
  | NegInf => false
  | Fin q => Qltb a q
  | PosInf => true
  end.

(** [a > b] for a finite [a] and an extended [b] *)
Definition fin_gt_ext (a : Q) (b : ext) : bool :=
  match b with
  | NegInf => true
  | Fin q => Qltb q a
  | PosInf => false
  end.

(** ** Data model *)

(** A record as built by [fetch_okte_data]. *)
Record PriceRecord : Type := mkRecord {
  deliveryStart : option string;
  deliveryEnd : option string;
  deliveryDayCET : option string;
  HourStartCET : option string;
  HourEndCET : option string;
  period : option Z;
  price : option Q
}.

(** [record['price']] used as a number: [None] in arithmetic is a
    [TypeError]. *)
Definition get_price (r : PriceRecord) : py Q :=
  match price r with
  | Some q => Ret q
  | None => Raise TypeError
  end.

Definition price_is (q : Q) (r : PriceRecord) : bool :=
  match price r with
  | Some p => Qeq_bool p q
  | None => false
  end.

Definition is_some {A : Type} (o : option A) : bool :=
  match o with
  | Some _ => true
  | None => false
  end.

(** ** [calculate_price_statistics] *)

Record Statistics : Type := mkStatistics {
  stat_min_price : option Q;
  stat_max_price : option Q;
  stat_avg_price : option Q;
  stat_count : Z;
  stat_min_record : option PriceRecord;
  stat_max_record : option PriceRecord
}.

Definition empty_statistics : Statistics :=
  mkStatistics None None None 0 None None.

Definition calculate_price_statistics (data : list PriceRecord)
  : py Statistics :=
  match data with
  | [] => Ret empty_statistics
  | _ =>
    let valid_prices := filter (fun record => is_some (price record)) data in
    match valid_prices with
    | [] => Ret empty_statistics
    | _ =>
      prices <- py_map get_price valid_prices ;;
      min_price <- py_min prices ;;
      max_price <- py_max prices ;;
      avg_price <- py_div (py_sum prices) (len prices) ;;
      min_record <- py_next (price_is min_price) valid_prices ;;
      max_record <- py_next (price_is max_price) valid_prices ;;
      Ret (mkStatistics (Some min_price) (Some max_price)
             (Some (py_round2 avg_price)) (len valid_prices)
             (Some min_record) (Some max_record))
    end
  end.

(** ** Window search: shared pieces

    The four window functions of [okte.py] start with the same guard, the
    same filter and the same sort. *)

(** The list comprehension that builds [valid_data]. *)
Definition is_valid_record (record : PriceRecord) : bool :=
  is_some (price record) && is_some (deliveryStart record)
  && is_some (deliveryEnd record) && is_some (deliveryDayCET record)
  && is_some (HourStartCET record) && is_some (HourEndCET record).

Definition valid_records (data : list PriceRecord) : list PriceRecord :=
  filter is_valid_record data.

(** Order on the sort key [x['deliveryStart']] (strings compare
    lexicographically). *)
Definition start_key_lt (a b : PriceRecord) : bool :=
  match deliveryStart a, deliveryStart b with
  | Some x, Some y => String.ltb x y
  | _, _ => false
  end.

(** [valid_data.sort(key=lambda x: x['deliveryStart'])]; comparing [None]
    with a string is a [TypeError]. *)
Definition sort_by_deliveryStart (l : list PriceRecord)
  : py (list PriceRecord) :=
  if forallb (fun record => is_some (deliveryStart record)) l
  then Ret (stable_sort start_key_lt l)
  else Raise TypeError.

(** The sorted sequence the windows slide over. *)
Definition sorted_valid (data : list PriceRecord) : list PriceRecord :=
  stable_sort start_key_lt (valid_records data).

(** The ['message'] strings of a [found: False] result. *)
Inductive Message : Set :=
| NotEnoughData (window_hours : Z)
| NotEnoughValidData (window_hours : Z)
| ErrorSortingData
| NoSuitableWindow
| NoDataForToday.

(** [f'{n}'] for an integer [n] *)
Definition format_int (n : Z) : string := NilEmpty.string_of_int (Z.to_int n).

Definition message_text (m : Message) : string :=
  match m with
  | NotEnoughData w =>
    "Not enough data for " ++ format_int w ++ "-hour window"
  | NotEnoughValidData w =>
    "Not enough valid data for " ++ format_int w ++ "-hour window"
  | ErrorSortingData => "Error sorting data by time"
  | NoSuitableWindow => "Could not find suitable time window"
  | NoDataForToday => "No data available for today"
  end%string.

Record Window : Type := mkWindow {
  start_time : option string;
  end_time : option string;
  avg_price : Q;
  min_price : Q;
  max_price : Q;
  records : list PriceRecord;
  total_cost_per_mwh : Q
}.

Inductive WindowResult : Type :=
| NotFound (message : Message)
| Found (window_hours : Z) (w : Window).

Definition found (r : WindowResult) : bool :=
  match r with
  | Found _ _ => true
  | NotFound _ => false
  end.

(** ** [find_cheapest_time_window] and [find_most_expensive_time_window]

    The two functions differ only in the comparison ([<] against [>]) and in
    the initial best average ([float('inf')] against [float('-inf')]). *)

Section WindowSearch.

Variable better : Q -> ext -> bool.
Variable initial : ext.

(** One iteration of [for i in range(len(valid_data) - window_hours + 1)]. *)
Definition window_step (valid_data : list PriceRecord) (window_hours : Z)
    (st : ext * option Window) (i : Z) : py (ext * option Window) :=
  let window_data := py_slice valid_data i (i + window_hours) in
  window_prices <- py_map get_price window_data ;;
  avg <- py_div (py_sum window_prices) (len window_prices) ;;
  if better avg (fst st) then
    first_record <- py_first window_data ;;
    last_record <- py_last window_data ;;
    lowest <- py_min window_prices ;;
    highest <- py_max window_prices ;;
    Ret (Fin avg,
         Some (mkWindow (deliveryStart first_record) (deliveryEnd last_record)
                 (py_round2 avg) lowest highest window_data
                 (py_round2 (py_sum window_prices))))
  else Ret st.

Definition find_time_window (data : list PriceRecord) (window_hours : Z)
  : py WindowResult :=
  match data with
  | [] => Ret (NotFound (NotEnoughData window_hours))
  | _ =>
    if (len data <? window_hours)%Z
    then Ret (NotFound (NotEnoughData window_hours))
    else
      let valid_data := valid_records data in
      if (len valid_data <? window_hours)%Z
      then Ret (NotFound (NotEnoughValidData window_hours))
      else
        match sort_by_deliveryStart valid_data with
        | Raise _ => Ret (NotFound ErrorSortingData)
        | Ret valid_data =>
          st <- py_for (py_range (len valid_data - window_hours + 1))
                  (window_step valid_data window_hours) (initial, None) ;;
          match snd st with
          | Some w => Ret (Found window_hours w)
          | None => Ret (NotFound NoSuitableWindow)
          end
        end
  end.

End WindowSearch.

Definition find_cheapest_time_window : list PriceRecord -> Z -> py WindowResult :=
  find_time_window fin_lt_ext PosInf.

Definition find_most_expensive_time_window
  : list PriceRecord -> Z -> py WindowResult :=
  find_time_window fin_gt_ext NegInf.

(** ** [find_multiple_cheap_windows] and [find_multiple_expensive_windows] *)

Record RankedWindow : Type := mkRanked {
  r_start_time : option string;
  r_end_time : option string;
  r_avg_price : Q;
  r_records : list PriceRecord
}.

(** The body of the enumeration loop: the dict appended to [windows]. *)
Definition ranked_window_at (valid_data : list PriceRecord) (window_hours : Z)
    (i : Z) : py RankedWindow :=
  let window_data := py_slice valid_data i (i + window_hours) in
  window_prices <- py_map get_price window_data ;;
  avg <- py_div (py_sum window_prices) (len window_prices) ;;
  first_record <- py_first window_data ;;
  last_record <- py_last window_data ;;
  Ret (mkRanked (deliveryStart first_record) (deliveryEnd last_record)
         (py_round2 avg) window_data).

Definition enumerate_windows (valid_data : list PriceRecord) (window_hours : Z)
  : py (list RankedWindow) :=
  py_map (ranked_window_at valid_data window_hours)
    (py_range (len valid_data - window_hours + 1)).

(** [windows.sort(key=lambda x: x['avg_price'])] *)
Definition cheaper (a b : RankedWindow) : bool :=
  Qltb (r_avg_price a) (r_avg_price b).

(** [windows.sort(key=lambda x: x['avg_price'], reverse=True)]; a reversed
    sort keeps equal keys in their original order too. *)
Definition dearer (a b : RankedWindow) : bool :=
  Qltb (r_avg_price b) (r_avg_price a).

Section TopK.

Variable before : RankedWindow -> RankedWindow -> bool.

Definition find_multiple_windows (data : list PriceRecord)
    (window_hours count : Z) : py (list RankedWindow) :=
  match data with
  | [] => Ret []
  | _ =>
    if (len data <? window_hours)%Z then Ret []
    else
      let valid_data := valid_records data in
      if (len valid_data <? window_hours)%Z then Ret []
      else
        match sort_by_deliveryStart valid_data with
        | Raise _ => Ret []
        | Ret valid_data =>
          windows <- enumerate_windows valid_data window_hours ;;
          Ret (py_prefix (stable_sort before windows) count)
        end
  end.

End TopK.

Definition find_multiple_cheap_windows
  : list PriceRecord -> Z -> Z -> py (list RankedWindow) :=
  find_multiple_windows cheaper.

Definition find_multiple_expensive_windows
  : list PriceRecord -> Z -> Z -> py (list RankedWindow) :=
  find_multiple_windows dearer.

(** ** Dates and times

    A [datetime] is its wall-clock reading, in microseconds since
    1970-01-01T00:00, together with its UTC offset; a naive [datetime] has
    no offset.  Naive local times ([datetime.now()],
    [.replace(tzinfo=None)]) are plain [Z] microseconds, calendar dates are
    day numbers.  Every [datetime] lies between [datetime.min] and
    [datetime.max]; arithmetic that leaves this range raises
    [OverflowError]. *)

Definition second : Z := 1000000.

(** [timedelta(hours=n)] *)
Definition hours (n : Z) : Z := (n * 3600 * second)%Z.

(** [datetime.min] is 0001-01-01T00:00:00 and [datetime.max] is
    9999-12-31T23:59:59.999999. *)
Definition datetime_min : Z := (-719162 * 86400 * second)%Z.
Definition datetime_max : Z := (2932897 * 86400 * second - 1)%Z.

Definition in_datetime_range (reading : Z) : bool :=
  (datetime_min <=? reading)%Z && (reading <=? datetime_max)%Z.

(** [d + delta] on wall-clock readings *)
Definition add_timedelta (reading delta : Z) : py Z :=
  if in_datetime_range (reading + delta) then Ret (reading + delta)%Z
  else Raise OverflowError.

Record datetime : Set := mkDatetime {
  wall : Z;
  utcoffset : option Z
}.

(** [s.replace('Z', '+00:00')] *)
Fixpoint replace_Z (s : string) : string :=
  match s with
  | EmptyString => EmptyString
  | String c rest =>
    if Ascii.eqb c "Z"%char then ("+00:00" ++ replace_Z rest)%string
    else String c (replace_Z rest)
  end.

(** Truth value of [x] for [x = record.get(...)]: [None] and the empty
    string are false. *)
Definition truthy (o : option string) : bool :=
  match o with
  | Some EmptyString => false
  | Some _ => true
  | None => false
  end.

(** What [import zoneinfo; zoneinfo.ZoneInfo(hass.config.time_zone)] gives:
    the module may be missing, the key may be unknown, or the zone is found
    and maps a UTC instant to its offset. *)
Inductive zoneinfo_module : Type :=
| NoZoneinfo
| UnknownZone
| Zone (tz : Z -> Z).

(** [d.date()] *)
Definition date_of (local : Z) : Z := (local / (86400 * second))%Z.

(** The mutable state of a detector sensor. *)
Record Detector : Set := mkDetector { _state : bool }.

Section LocalTime.

(** [datetime.fromisoformat] *)
Variable fromisoformat : string -> py datetime.
Variable zoneinfo : zoneinfo_module.
(** Offset of the system zone at a naive wall-clock reading, which
    [astimezone] assumes for naive values. *)
Variable system_utcoffset : Z -> Z.

Definition ZoneInfo : py (Z -> Z) :=
  match zoneinfo with
  | NoZoneinfo => Raise ImportError
  | UnknownZone => Raise ZoneInfoNotFoundError
  | Zone tz => Ret tz
  end.

(** [d - d.utcoffset()], the first step of [astimezone] *)
Definition utc_instant (d : datetime) : py Z :=
  match utcoffset d with
  | Some off => add_timedelta (wall d) (- off)
  | None => add_timedelta (wall d) (- system_utcoffset (wall d))
  end.

(** Wall-clock reading of [d.astimezone(tz)]: the UTC instant of [d], then
    [tz.fromutc], which adds the offset the zone has at that instant. *)
Definition astimezone (tz : Z -> Z) (d : datetime) : py Z :=
  utc <- utc_instant d ;;
  add_timedelta utc (tz utc).

(** [except ImportError: ...]; any other exception passes through. *)
Definition except_ImportError {A : Type} (m : py A) (fallback : py A)
  : py A :=
  try_except m (fun e =>
    match e with
    | ImportError => fallback
    | _ => Raise e
    end).

Definition parse_time (s : string) : py datetime :=
  fromisoformat (replace_Z s).

(** *** [OkteBaseSensor._filter_data_by_date] *)

(** Local wall-clock reading whose [.date()] is compared. *)
Definition delivery_local (delivery_time : datetime) : py Z :=
  except_ImportError
    (tz <- ZoneInfo ;; astimezone tz delivery_time)
    (add_timedelta (wall delivery_time) (hours 2)).

(** The body of the [try] for one record: does the record get appended? *)
Definition on_date (target_date : Z) (record : PriceRecord) : py bool :=
  if truthy (deliveryStart record) then
    match deliveryStart record with
    | Some s =>
      delivery_time <- parse_time s ;;
      local <- delivery_local delivery_time ;;
      Ret (date_of local =? target_date)%Z
    | None => Ret false
    end
  else Ret false.

(** [try: ... except: continue] *)
Definition keeps (target_date : Z) (record : PriceRecord) : bool :=
  match on_date target_date record with
  | Ret b => b
  | Raise _ => false
  end.

(** [data] is [None] when the integration holds no data. *)
Definition _filter_data_by_date (data : option (list PriceRecord))
    (target_date : Z) : list PriceRecord :=
  match data with
  | None => []
  | Some data => filter (keeps target_date) data
  end.

(** *** The detectors of [sensors_detectors_today.py] *)

(** [_get_cheapest_window_today] / [_get_most_expensive_window_today];
    [search] is the window search, [today] is [datetime.now().date()]. *)
Definition _get_window_today
    (search : list PriceRecord -> Z -> py WindowResult)
    (data : option (list PriceRecord)) (today : Z) (window_hours : Z)
  : py WindowResult :=
  match _filter_data_by_date data today with
  | [] => Ret (NotFound NoDataForToday)
  | today_data => search today_data window_hours
  end.

(** Both bounds in local time, without [tzinfo]. *)
Definition local_bounds (start_dt end_dt : datetime) : py (Z * Z) :=
  except_ImportError
    (tz <- ZoneInfo ;;
     start_time_local <- astimezone tz start_dt ;;
     end_time_local <- astimezone tz end_dt ;;
     Ret (start_time_local, end_time_local))
    (start_time_local <- add_timedelta (wall start_dt) (hours 2) ;;
     end_time_local <- add_timedelta (wall end_dt) (hours 2) ;;
     Ret (start_time_local, end_time_local)).

(** [_update_detector_state]; [window] is the outcome of the call that
    fetches the window, [now] is [datetime.now()].  The window bounds are
    the strings copied from the records, so the [isinstance(_, datetime)]
    branches are not taken. *)
Definition _update_detector_state (self : Detector)
    (window : py WindowResult) (now : Z) : py Detector :=
  try_except
    (w <- window ;;
     match w with
     | NotFound _ => Ret (mkDetector false)
     | Found _ win =>
       let start_time_attr := start_time win in
       let end_time_attr := end_time win in
       if negb (truthy start_time_attr) || negb (truthy end_time_attr)
       then Ret (mkDetector false)
       else
         try_except
           (match start_time_attr, end_time_attr with
            | Some s, Some e =>
              start_dt <- parse_time s ;;
              end_dt <- parse_time e ;;
              bounds <- local_bounds start_dt end_dt ;;
              Ret (mkDetector
                     ((fst bounds <=? now)%Z && (now <? snd bounds)%Z))
            | _, _ => Raise TypeError
            end)
           (fun _ => Ret (mkDetector false))
     end)
    (fun _ => Ret (mkDetector false)).

End LocalTime.

(** ** A reference parser for the timestamps of the OKTE API

    [YYYY-MM-DDTHH:MM:SS], optionally followed by [+HH:MM] or [-HH:MM].  It
    instantiates [fromisoformat] in the examples. *)

Definition digit_of (c : ascii) : option Z :=
  let n := Z.of_nat (nat_of_ascii c) in
  if (48 <=? n)%Z && (n <=? 57)%Z then Some (n - 48)%Z else None.

Fixpoint read_digits (k : nat) (acc : Z) (s : string) : option (Z * string) :=
  match k with
  | O => Some (acc, s)
  | S k' =>
    match s with
    | String c rest =>
      match digit_of c with
      | Some d => read_digits k' (10 * acc + d)%Z rest
      | None => None
      end
    | EmptyString => None
    end
  end.

Definition expect (c : ascii) (s : string) : option string :=
  match s with
  | String c' rest => if Ascii.eqb c c' then Some rest else None
  | EmptyString => None
  end.

Definition days_from_civil (y m d : Z) : Z :=
  let y' := if (m <=? 2)%Z then (y - 1)%Z else y in
  let era := (y' / 400)%Z in
  let yoe := (y' - era * 400)%Z in
  let mp := if (m <=? 2)%Z then (m + 9)%Z else (m - 3)%Z in
  let doy := ((153 * mp + 2) / 5 + d - 1)%Z in
  let doe := (yoe * 365 + yoe / 4 - yoe / 100 + doy)%Z in
  (era * 146097 + doe - 719468)%Z.

Definition opt_bind {A B : Type} (o : option A) (k : A -> option B) : option B :=
  match o with
  | Some a => k a
  | None => None
  end.

Definition parse_offset (s : string) : option (option Z) :=
  match s with
  | EmptyString => Some None
  | String c rest =>
    let sign := if Ascii.eqb c "+"%char then Some 1%Z
                else if Ascii.eqb c "-"%char then Some (-1)%Z else None in
    opt_bind sign (fun sg =>
    opt_bind (read_digits 2 0 rest) (fun '(hh, r1) =>
    opt_bind (expect ":" r1) (fun r2 =>
    opt_bind (read_digits 2 0 r2) (fun '(mm, r3) =>
    match r3 with
    | EmptyString => Some (Some (sg * (hh * 3600 + mm * 60) * second)%Z)
    | _ => None
    end))))
  end.

Definition parse_iso (s : string) : option datetime :=
  opt_bind (read_digits 4 0 s) (fun '(y, r1) =>
  opt_bind (expect "-" r1) (fun r2 =>
  opt_bind (read_digits 2 0 r2) (fun '(m, r3) =>
  opt_bind (expect "-" r3) (fun r4 =>
  opt_bind (read_digits 2 0 r4) (fun '(d, r5) =>
  opt_bind (expect "T" r5) (fun r6 =>
  opt_bind (read_digits 2 0 r6) (fun '(hh, r7) =>
  opt_bind (expect ":" r7) (fun r8 =>
  opt_bind (read_digits 2 0 r8) (fun '(mi, r9) =>
  opt_bind (expect ":" r9) (fun r10 =>
  opt_bind (read_digits 2 0 r10) (fun '(ss, r11) =>
  opt_bind (parse_offset r11) (fun off =>
  if (1 <=? y)%Z && (1 <=? m)%Z && (m <=? 12)%Z
     && (1 <=? d)%Z && (d <=? 31)%Z
     && (hh <? 24)%Z && (mi <? 60)%Z && (ss <? 60)%Z
  then Some (mkDatetime
               ((days_from_civil y m d * 86400 + hh * 3600 + mi * 60 + ss)
                * second)%Z
               off)
  else None)))))))))))).

Definition iso_parser (s : string) : py datetime :=
  match parse_iso s with
  | Some d => Ret d
  | None => Raise ValueError
  end.

(** Central European Summer Time, and a system clock on UTC. *)
Definition cest : Z -> Z := fun _ => hours 2.
Definition utc_system : Z -> Z := fun _ => 0%Z.

(** ** Vocabulary of the statements *)

(** The price of a record as a number ([0] stands in when there is none;
    valid records always carry one). *)
Definition price_value (r : PriceRecord) : Q :=
  match price r with
  | Some q => q
  | None => 0%Q
  end.

Definition valid (r : PriceRecord) : Prop := is_valid_record r = true.

(** The exact, unrounded average price of a run of records. *)
Definition window_average (w : list PriceRecord) : Q :=
  (py_sum (map price_value w) / inject_Z (len w))%Q.

(** The run of [window_hours] consecutive entries starting at offset [i]. *)
Definition window_at (valid_data : list PriceRecord) (window_hours i : Z)
  : list PriceRecord :=
  py_slice valid_data i (i + window_hours).

(** [win] is the result dict the search builds for the run [w]. *)
Definition describes (win : Window) (w : list PriceRecord) : Prop :=
  records win = w
  /\ avg_price win = py_round2 (window_average w)
  /\ total_cost_per_mwh win = py_round2 (py_sum (map price_value w))
  /\ py_min (map price_value w) = Ret (min_price win)
  /\ py_max (map price_value w) = Ret (max_price win)
  /\ (exists r, py_first w = Ret r /\ start_time win = deliveryStart r)
  /\ (exists r, py_last w = Ret r /\ end_time win = deliveryEnd r).

(** Order-preserving sub-sequence. *)
Inductive subseq {A : Type} : list A -> list A -> Prop :=
| subseq_nil : subseq [] []
| subseq_skip : forall x l1 l2, subseq l1 l2 -> subseq l1 (x :: l2)
| subseq_keep : forall x l1 l2, subseq l1 l2 -> subseq (x :: l1) (x :: l2).

(** [run] is a contiguous run of [window_hours] consecutive entries of
    [valid_data], starting at offset [i]. *)
Definition contiguous_run (valid_data : list PriceRecord) (window_hours : Z)
    (i : Z) (run : list PriceRecord) : Prop :=
  exists before after,
    valid_data = before ++ run ++ after
    /\ len before = i /\ len run = window_hours.

(** Sample series: the five hourly prices of the scenario in the
    specification, and two series whose windows tie after rounding. *)
Definition hour_marks : list (string * string) :=
  [("2024-06-01T00:00:00Z", "00:00"); ("2024-06-01T01:00:00Z", "01:00");
   ("2024-06-01T02:00:00Z", "02:00"); ("2024-06-01T03:00:00Z", "03:00");
   ("2024-06-01T04:00:00Z", "04:00"); ("2024-06-01T05:00:00Z", "05:00")]%string.

(** The record of the hour that starts at mark [h], with price [p]. *)
Definition sample_record (h : nat) (p : Q) : PriceRecord :=
  let start := nth h hour_marks (EmptyString, EmptyString) in
  let stop := nth (S h) hour_marks (EmptyString, EmptyString) in
  mkRecord (Some (fst start)) (Some (fst stop)) (Some "2024-06-01"%string)
    (Some (snd start)) (Some (snd stop)) (Some (Z.of_nat (S h))) (Some p).

Definition sample_day : list PriceRecord :=
  [sample_record 0 10;
   sample_record 1 5;
   sample_record 2 2;
   sample_record 3 2;
   sample_record 4 20].

Definition near_tie_falling : list PriceRecord :=
  [sample_record 0 (1004 # 1000);
   sample_record 1 1].

Definition near_tie_rising : list PriceRecord :=
  [sample_record 0 1;
   sample_record 1 (1004 # 1000)].

(** The dict appended to [windows] for the run [w], as a pure function. *)
Definition first_start (w : list PriceRecord) : option string :=
  match w with
  | [] => None
  | r :: _ => deliveryStart r
  end.

Definition last_end (w : list PriceRecord) : option string :=
  match rev w with
  | [] => None
  | r :: _ => deliveryEnd r
  end.

Definition ranked_window (w : list PriceRecord) : RankedWindow :=
  mkRanked (first_start w) (last_end w) (py_round2 (window_average w)) w.

(** All candidate windows, in chronological order (by starting offset). *)
Definition candidate_windows (valid_data : list PriceRecord) (window_hours : Z)
  : list RankedWindow :=
  map (fun i => ranked_window (window_at valid_data window_hours i))
    (py_range (len valid_data - window_hours + 1)).

(** The number of windows the rankers enumerate. *)
Definition number_of_windows (data : list PriceRecord) (window_hours : Z) : Z :=
  Z.max 0 (len (valid_records data) - window_hours + 1).

(** Windows whose rounded average equals [q]. *)
Definition ties_with (q : Q) (w : RankedWindow) : bool :=
  Qeq_bool (r_avg_price w) q.

(** A record that carries a price and both delivery bounds but no
    [deliveryDay]. *)
Definition undated_record : PriceRecord :=
  mkRecord (Some "2024-06-01T00:00:00Z"%string)
    (Some "2024-06-01T01:00:00Z"%string) None
    (Some "00:00"%string) (Some "01:00"%string) (Some 1%Z) (Some 10%Q).

(** The prices that are present, in input order. *)
Definition known_prices (data : list PriceRecord) : list Q :=
  flat_map (fun r => match price r with Some p => [p] | None => [] end) data.

(** [r] is the first record of [data] whose price equals [m]. *)
Definition first_with_price (data : list PriceRecord) (m : Q)
    (r : PriceRecord) : Prop :=
  exists before after,
    data = before ++ r :: after
    /\ (exists p, price r = Some p /\ (p == m)%Q)
    /\ forall x p, In x before -> price x = Some p -> ~ (p == m)%Q.

(** The window of the detector scenario: 10:00 to 15:00 local time (CEST)
    on 2024-06-01, and wall-clock readings of that day. *)
Definition afternoon_window : WindowResult :=
  Found 5 (mkWindow (Some "2024-06-01T08:00:00Z"%string)
             (Some "2024-06-01T13:00:00Z"%string) 0 0 0 [] 0).

Definition clock (hour minute : Z) : Z :=
  ((19875 * 86400 + hour * 3600 + minute * 60) * second)%Z.

(** [loc] is the wall-clock reading, in the zone whose offset at a UTC
    instant [t] is [tz t], of the instant that [dt] denotes, and neither
    that instant nor [loc] leaves the range of [datetime].  A naive [dt] is
    read in the system zone. *)
Definition local_reading (system_utcoffset tz : Z -> Z) (dt : datetime)
    (loc : Z) : Prop :=
  let offset :=
    match utcoffset dt with
    | Some off => off
    | None => system_utcoffset (wall dt)
    end in
  let utc := (wall dt - offset)%Z in
  (datetime_min <= utc <= datetime_max)%Z
  /\ loc = (utc + tz utc)%Z
  /\ (datetime_min <= loc <= datetime_max)%Z.

(** The condition under which the detector is active in the zone [tz]. *)
Definition inside_window (fromisoformat : string -> py datetime)
    (system_utcoffset tz : Z -> Z) (window : py WindowResult) (now : Z)
  : Prop :=
  exists W win s e start_dt end_dt start_local end_local,
    window = Ret (Found W win)
    /\ start_time win = Some s /\ s <> EmptyString
    /\ end_time win = Some e /\ e <> EmptyString
    /\ fromisoformat (replace_Z s) = Ret start_dt
    /\ fromisoformat (replace_Z e) = Ret end_dt
    /\ local_reading system_utcoffset tz start_dt start_local
    /\ local_reading system_utcoffset tz end_dt end_local
    /\ (start_local <= now < end_local)%Z.

(** [r] has a [deliveryStart] that is present, parses, and converts to the
    local reading [loc] in the zone [tz]. *)
Definition starts_at (fromisoformat : string -> py datetime)
    (system_utcoffset tz : Z -> Z) (r : PriceRecord) (loc : Z) : Prop :=
  exists s dt,
    deliveryStart r = Some s /\ s <> EmptyString
    /\ fromisoformat (replace_Z s) = Ret dt
    /\ local_reading system_utcoffset tz dt loc.

(** A record whose hour starts half an hour before [datetime.max]. *)
Definition last_hour_record : PriceRecord :=
  mkRecord (Some "9999-12-31T23:30:00Z"%string)
    (Some "9999-12-31T23:59:59Z"%string) (Some "9999-12-31"%string)
    (Some "23:30"%string) (Some "23:59"%string) (Some 24%Z) (Some 10%Q).

(** * Further parts of the integration *)

(** ** Price sensors ([sensors_prices_all.py], [sensors_prices_today.py],
    [sensors_prices_tomorrow.py]) and [OkteBaseSensor._get_today_statistics] *)

(** The result dict of [_get_today_statistics]. *)
Record TodayStatistics : Type := mkTodayStatistics {
  today_min_price : option Q;
  today_max_price : option Q;
  today_min_record : option PriceRecord;
  today_max_record : option PriceRecord;
  today_count : Z
}.

Definition empty_today_statistics : TodayStatistics :=
  mkTodayStatistics None None None None 0.

Section PriceSensors.

Variable fromisoformat : string -> py datetime.
Variable zoneinfo : zoneinfo_module.
Variable system_utcoffset : Z -> Z.

(** The body of the [try] in the loops of [native_value]: does [now] fall
    within the delivery period of the record? *)
Definition in_delivery_period (now : Z) (record : PriceRecord) : py bool :=
  if truthy (deliveryStart record) && truthy (deliveryEnd record) then
    match deliveryStart record, deliveryEnd record with
    | Some s, Some e =>
      delivery_start <- parse_time fromisoformat s ;;
      delivery_end <- parse_time fromisoformat e ;;
      bounds <- local_bounds zoneinfo system_utcoffset
                  delivery_start delivery_end ;;
      Ret ((fst bounds <=? now)%Z && (now <? snd bounds)%Z)
    | _, _ => Ret false
    end
  else Ret false.

(** [try: ... except: continue] around that body *)
Definition is_current (now : Z) (record : PriceRecord) : bool :=
  match in_delivery_period now record with
  | Ret b => b
  | Raise _ => false
  end.

(** The record at which [for record in data: ... return record.get('price')]
    returns, if it does. *)
Definition current_record (data : list PriceRecord) (now : Z)
  : option PriceRecord :=
  find (is_current now) data.

(** [OkteCurrentPriceSensor.native_value] and, with the same text,
    [OkteHourlyPriceSensor.native_value] *)
Definition current_price (data : option (list PriceRecord)) (now : Z)
  : option Q :=
  match data with
  | None => None
  | Some data =>
    match current_record data now with
    | Some record => price record
    | None => None
    end
  end.

(** [round(sum(valid_prices) / len(valid_prices), 2) if valid_prices else
    None], for [valid_prices = [r['price'] for r in records if
    r.get('price') is not None]] *)
Definition mean_price (records : list PriceRecord) : py (option Q) :=
  let valid_prices := known_prices records in
  match valid_prices with
  | [] => Ret None
  | _ =>
    avg <- py_div (py_sum valid_prices) (len valid_prices) ;;
    Ret (Some (py_round2 avg))
  end.

(** [OkteHourlyPriceTodaySensor.native_value] *)
Definition hourly_price_today (data : option (list PriceRecord))
    (today now : Z) : py (option Q) :=
  match _filter_data_by_date fromisoformat zoneinfo system_utcoffset
          data today with
  | [] => Ret None
  | today_data =>
    match current_record today_data now with
    | Some record => Ret (price record)
    | None => mean_price today_data
    end
  end.

(** [OkteHourlyPriceTomorrowSensor.native_value]; [tomorrow] is
    [datetime.now().date() + timedelta(days=1)]. *)
Definition average_price_tomorrow (data : option (list PriceRecord))
    (today : Z) : py (option Q) :=
  match _filter_data_by_date fromisoformat zoneinfo system_utcoffset
          data (today + 1) with
  | [] => Ret None
  | tomorrow_data => mean_price tomorrow_data
  end.

(** [OkteMinPriceTomorrowSensor.native_value] *)
Definition minimum_price_tomorrow (data : option (list PriceRecord))
    (today : Z) : py (option Q) :=
  match _filter_data_by_date fromisoformat zoneinfo system_utcoffset
          data (today + 1) with
  | [] => Ret None
  | tomorrow_data =>
    match known_prices tomorrow_data with
    | [] => Ret None
    | valid_prices => lowest <- py_min valid_prices ;; Ret (Some lowest)
    end
  end.

(** [OkteMaxPriceTomorrowSensor.native_value] *)
Definition maximum_price_tomorrow (data : option (list PriceRecord))
    (today : Z) : py (option Q) :=
  match _filter_data_by_date fromisoformat zoneinfo system_utcoffset
          data (today + 1) with
  | [] => Ret None
  | tomorrow_data =>
    match known_prices tomorrow_data with
    | [] => Ret None
    | valid_prices => highest <- py_max valid_prices ;; Ret (Some highest)
    end
  end.

(** [OkteBaseSensor._get_today_statistics]; the loop that collects
    [today_data] has the text of [_filter_data_by_date]. *)
Definition _get_today_statistics (data : option (list PriceRecord))
    (today : Z) : py (option TodayStatistics) :=
  match data with
  | None => Ret None
  | Some [] => Ret None
  | Some data =>
    let today_data :=
      filter (keeps fromisoformat zoneinfo system_utcoffset today) data in
    match today_data with
    | [] => Ret (Some empty_today_statistics)
    | _ =>
      let valid_prices :=
        filter (fun record => is_some (price record)) today_data in
      match valid_prices with
      | [] => Ret (Some empty_today_statistics)
      | _ =>
        prices <- py_map get_price valid_prices ;;
        lowest <- py_min prices ;;
        highest <- py_max prices ;;
        min_record <- py_next (price_is lowest) valid_prices ;;
        max_record <- py_next (price_is highest) valid_prices ;;
        Ret (Some (mkTodayStatistics (Some lowest) (Some highest)
                     (Some min_record) (Some max_record)
                     (len valid_prices)))
      end
    end
  end.

End PriceSensors.

(** ** The detectors of [sensors_detectors_tomorrow.py] *)

(** What [_get_cheapest_window_tomorrow] returns: its own "no data" dict,
    or the result of the search. *)
Inductive TomorrowWindow : Type :=
| NoDataForTomorrow
| TomorrowSearch (result : WindowResult).

Section TomorrowDetector.

Variable fromisoformat : string -> py datetime.
Variable zoneinfo : zoneinfo_module.
Variable system_utcoffset : Z -> Z.

(** [_get_cheapest_window_tomorrow] / [_get_most_expensive_window_tomorrow];
    [today] is [datetime.now().date()]. *)
Definition _get_window_tomorrow
    (search : list PriceRecord -> Z -> py WindowResult)
    (data : option (list PriceRecord)) (today : Z) (window_hours : Z)
  : py TomorrowWindow :=
  match _filter_data_by_date fromisoformat zoneinfo system_utcoffset
          data (today + 1) with
  | [] => Ret NoDataForTomorrow
  | tomorrow_data =>
    result <- search tomorrow_data window_hours ;;
    Ret (TomorrowSearch result)
  end.

(** [_update_detector_state] of the tomorrow detectors.  Its text is that of
    the today detectors, applied to the window of tomorrow; the "no data"
    dict has [found = False]. *)
Definition _update_detector_state_tomorrow (self : Detector)
    (window : py TomorrowWindow) (now : Z) : py Detector :=
  match window with
  | Ret NoDataForTomorrow => Ret (mkDetector false)
  | Ret (TomorrowSearch result) =>
    _update_detector_state fromisoformat zoneinfo system_utcoffset
      self (Ret result) now
  | Raise e =>
    _update_detector_state fromisoformat zoneinfo system_utcoffset
      self (Raise e) now
  end.

End TomorrowDetector.

(** [now] lies in the delivery period of [r], both bounds being present,
    parseable and converted to local time. *)
Definition delivery_covers (fromisoformat : string -> py datetime)
    (zoneinfo : zoneinfo_module) (system_utcoffset : Z -> Z)
    (now : Z) (r : PriceRecord) : Prop :=
  exists s e start_dt end_dt start_local end_local,
    deliveryStart r = Some s /\ s <> EmptyString
    /\ deliveryEnd r = Some e /\ e <> EmptyString
    /\ parse_time fromisoformat s = Ret start_dt
    /\ parse_time fromisoformat e = Ret end_dt
    /\ local_bounds zoneinfo system_utcoffset start_dt end_dt
       = Ret (start_local, end_local)
    /\ (start_local <= now < end_local)%Z.

(** ** Scheduling the daily fetch ([OkteDataCoordinator._schedule_next_fetch]) *)

Definition DEFAULT_FETCH_TIME : string := "14:00".

Definition one_day : Z := 86400 * second.

Section Scheduling.

(** [time.fromisoformat]: the time of day, in microseconds after midnight
    (times that carry a zone are not modelled). *)
Variable time_fromisoformat : string -> py Z.

(** The delay handed to [call_later], in microseconds:
    [(next_fetch - now).total_seconds()] is this number divided by 10^6. *)
Definition next_fetch_delay (fetch_time_str : string) (now : Z) : py Z :=
  fetch_time <-
    try_except (time_fromisoformat fetch_time_str) (fun e =>
      match e with
      | ValueError => time_fromisoformat DEFAULT_FETCH_TIME
      | _ => Raise e
      end) ;;
  let next_fetch := (date_of now * one_day + fetch_time)%Z in
  let next_fetch :=
    if (next_fetch <=? now)%Z then (next_fetch + one_day)%Z else next_fetch in
  Ret (next_fetch - now)%Z.

End Scheduling.

(** A reference [HH:MM] parser, used in the examples. *)
Definition parse_hhmm (s : string) : py Z :=
  match
    opt_bind (read_digits 2 0 s) (fun '(hh, r1) =>
    opt_bind (expect ":" r1) (fun r2 =>
    opt_bind (read_digits 2 0 r2) (fun '(mm, r3) =>
    match r3 with
    | EmptyString =>
      if (hh <? 24)%Z && (mm <? 60)%Z
      then Some ((hh * 3600 + mm * 60) * second)%Z
      else None
    | _ => None
    end)))
  with
  | Some t => Ret t
  | None => Raise ValueError
  end.

(** ** The configuration store and the window-length services
    ([__init__.py]) *)

(** Values held in the configuration dicts. *)
Inductive value : Type :=
| VNone
| VInt (n : Z)
| VStr (s : string).

(** A dict with string keys; an absent key maps to [None]. *)
Definition pydict : Type := string -> option value.

Definition empty_dict : pydict := fun _ => None.

(** [d.get(k)] *)
Definition dict_get (d : pydict) (k : string) : value :=
  match d k with
  | Some v => v
  | None => VNone
  end.

(** [d.get(k, default)] *)
Definition dict_get_default (d : pydict) (k : string) (default : value)
  : value :=
  match d k with
  | Some v => v
  | None => default
  end.

(** [d[k] = v] on a copy of [d] *)
Definition dict_set (d : pydict) (k : string) (v : value) : pydict :=
  fun k' => if String.eqb k' k then Some v else d k'.

Definition value_truthy (v : value) : bool :=
  match v with
  | VNone => false
  | VInt n => negb (n =? 0)%Z
  | VStr s => negb (String.eqb s EmptyString)
  end.

(** [a or b] *)
Definition py_or (a b : value) : value := if value_truthy a then a else b.

Definition CONF_CHEAPEST_TIME_WINDOW_PERIOD : string :=
  "cheapest_time_window_period".
Definition CONF_MOST_EXPENSIVE_TIME_WINDOW_PERIOD : string :=
  "most_expensive_time_window_period".
Definition CONF_FETCH_TIME : string := "fetch_time".
Definition DEFAULT_CHEAPEST_TIME_WINDOW_PERIOD : Z := 5.
Definition DEFAULT_MOST_EXPENSIVE_TIME_WINDOW_PERIOD : Z := 5.

(** The parts of [hass.data[DOMAIN]] and of the config entry the services
    read and write. *)
Record Store : Type := mkStore {
  st_config : pydict;
  st_options : pydict;
  st_entry_options : pydict;
  st_data : option (list PriceRecord);
  st_statistics : option Statistics;
  st_cheapest_window : option WindowResult;
  st_most_expensive_window : option WindowResult;
  st_connection_status : bool
}.

(** [OkteDataCoordinator._get_min_window_hours] *)
Definition _get_min_window_hours (st : Store) : value :=
  py_or (dict_get (st_options st) CONF_CHEAPEST_TIME_WINDOW_PERIOD)
    (dict_get_default (st_config st) CONF_CHEAPEST_TIME_WINDOW_PERIOD
       (VInt DEFAULT_CHEAPEST_TIME_WINDOW_PERIOD)).

(** [OkteDataCoordinator._get_max_window_hours] *)
Definition _get_max_window_hours (st : Store) : value :=
  py_or (dict_get (st_options st) CONF_MOST_EXPENSIVE_TIME_WINDOW_PERIOD)
    (dict_get_default (st_config st) CONF_MOST_EXPENSIVE_TIME_WINDOW_PERIOD
       (VInt DEFAULT_MOST_EXPENSIVE_TIME_WINDOW_PERIOD)).

(** [OkteDataCoordinator._get_fetch_time] *)
Definition _get_fetch_time (st : Store) : value :=
  py_or (dict_get (st_options st) CONF_FETCH_TIME)
    (dict_get_default (st_config st) CONF_FETCH_TIME
       (VStr DEFAULT_FETCH_TIME)).

(** A search called with a configuration value as the window length.  Both
    callers pass a non-empty series, on which comparing [len(data)] with
    anything but a number is a [TypeError]. *)
Definition search_with (search : list PriceRecord -> Z -> py WindowResult)
    (data : list PriceRecord) (window_hours : value) : py WindowResult :=
  match window_hours with
  | VInt n => search data n
  | _ => Raise TypeError
  end.

(** [_recalculate_time_windows]: the new store and the returned flag.  Any
    exception is caught and leaves the store as it was. *)
Definition _recalculate_time_windows (st : Store) : Store * bool :=
  match st_data st with
  | None => (st, false)
  | Some [] => (st, false)
  | Some data =>
    match
      (let max_window_hours := _get_max_window_hours st in
       let min_window_hours := _get_min_window_hours st in
       cheapest <- search_with find_cheapest_time_window data
                     min_window_hours ;;
       most_expensive <- search_with find_most_expensive_time_window data
                           max_window_hours ;;
       Ret (cheapest, most_expensive))
    with
    | Ret (cheapest, most_expensive) =>
      (mkStore (st_config st) (st_options st) (st_entry_options st)
         (st_data st) (st_statistics st) (Some cheapest)
         (Some most_expensive) (st_connection_status st), true)
    | Raise _ => (st, false)
    end
  end.

Definition set_connection_status (st : Store) (status : bool) : Store :=
  mkStore (st_config st) (st_options st) (st_entry_options st) (st_data st)
    (st_statistics st) (st_cheapest_window st) (st_most_expensive_window st)
    status.

(** [OkteDataCoordinator._fetch_data], given what [fetch_okte_data]
    returned.  The store is written only after the statistics and both
    searches have returned; an empty answer or any exception only marks the
    connection as failed (and schedules a retry). *)
Definition _fetch_data (st : Store) (fetched : list PriceRecord) : Store :=
  match
    (let max_window_hours := _get_max_window_hours st in
     let min_window_hours := _get_min_window_hours st in
     match fetched with
     | [] => Ret None
     | data =>
       statistics <- calculate_price_statistics data ;;
       cheapest <- search_with find_cheapest_time_window data
                     min_window_hours ;;
       most_expensive <- search_with find_most_expensive_time_window data
                           max_window_hours ;;
       Ret (Some (statistics, cheapest, most_expensive))
     end)
  with
  | Ret (Some (statistics, cheapest, most_expensive)) =>
    mkStore (st_config st) (st_options st) (st_entry_options st)
      (Some fetched) (Some statistics) (Some cheapest) (Some most_expensive)
      true
  | Ret None => set_connection_status st false
  | Raise _ => set_connection_status st false
  end.

(** [isinstance(window_hours, int)] with [1 <= window_hours <= 24] *)
Definition valid_window_hours (v : value) : option Z :=
  match v with
  | VInt n => if (n <? 1)%Z || (n >? 24)%Z then None else Some n
  | _ => None
  end.

(** The body shared by the two [set_..._window_hours] services: [key] is
    the option written, [current_value] the default for a call without
    [window_hours].  [async_update_entry] replaces the options of the
    entry. *)
Definition set_window_hours (key : string) (current_value : value)
    (st : Store) (call_window_hours : option value) : Store :=
  let window_hours :=
    match call_window_hours with
    | Some v => v
    | None => current_value
    end in
  match valid_window_hours window_hours with
  | None => st
  | Some n =>
    let new_options := dict_set (st_entry_options st) key (VInt n) in
    fst (_recalculate_time_windows
           (mkStore (st_config st) new_options new_options (st_data st)
              (st_statistics st) (st_cheapest_window st)
              (st_most_expensive_window st) (st_connection_status st)))
  end.

(** [set_cheapest_window_hours_service] *)
Definition set_cheapest_window_hours_service (st : Store)
    (call_window_hours : option value) : Store :=
  set_window_hours CONF_CHEAPEST_TIME_WINDOW_PERIOD
    (_get_min_window_hours st) st call_window_hours.

(** [set_most_expensive_window_hours_service] *)
Definition set_most_expensive_window_hours_service (st : Store)
    (call_window_hours : option value) : Store :=
  set_window_hours CONF_MOST_EXPENSIVE_TIME_WINDOW_PERIOD
    (_get_max_window_hours st) st call_window_hours.

(** A store as it is after set-up, with the sample day loaded. *)
Definition sample_store : Store :=
  mkStore empty_dict empty_dict empty_dict (Some sample_day) None None None
    false.

(** ** Building records ([fetch_okte_data], [format_local_time]) *)

(** An element of the decoded response, with the keys the loop reads. *)
Record Item : Type := mkItem {
  item_deliveryStart : option string;
  item_deliveryEnd : option string;
  item_deliveryDay : option string;
  item_period : option Z;
  item_price : option Q
}.

(** [s.endswith('Z')] *)
Fixpoint ends_with_Z (s : string) : bool :=
  match s with
  | EmptyString => false
  | String c EmptyString => Ascii.eqb c "Z"%char
  | String _ rest => ends_with_Z rest
  end.

Section Fetching.

Variable fromisoformat : string -> py datetime.
(** [dt.strftime(format)] of a naive reading *)
Variable strftime : Z -> string -> string.

(** [format_local_time]; despite the name no zone conversion is made: the
    zone is dropped from the parsed value. *)
Definition format_local_time (iso_time_str : option string)
    (format_str : string) : string :=
  match iso_time_str with
  | None => EmptyString
  | Some EmptyString => EmptyString
  | Some s =>
    match
      (if ends_with_Z s then fromisoformat (replace_Z s)
       else fromisoformat s)
    with
    | Ret dt => strftime (wall dt) format_str
    | Raise _ => s
    end
  end.

(** The record built for one item of the response. *)
Definition fetch_record (item : Item) : PriceRecord :=
  mkRecord (item_deliveryStart item) (item_deliveryEnd item)
    (item_deliveryDay item)
    (Some (format_local_time (item_deliveryStart item) "%H:%M"))
    (Some (format_local_time (item_deliveryEnd item) "%H:%M"))
    (item_period item) (item_price item).

(** [fetch_okte_data], given the outcome of the request and of decoding
    its body: every failure gives the empty list. *)
Definition fetch_okte_data (response : py (list Item)) : list PriceRecord :=
  match response with
  | Ret items => map fetch_record items
  | Raise _ => []
  end.

End Fetching.

(** Formats a naive reading as [HH:MM], for the examples. *)
Definition two_digits (n : Z) : string :=
  String (ascii_of_nat (48 + Z.to_nat (n / 10)))
    (String (ascii_of_nat (48 + Z.to_nat (n mod 10))) EmptyString).

Definition hhmm (local : Z) (format_str : string) : string :=
  let seconds := ((local / second) mod 86400)%Z in
  (two_digits (seconds / 3600) ++ ":" ++ two_digits ((seconds / 60) mod 60))%string.

Definition sample_items : list Item :=
  [mkItem (Some "2024-06-01T00:00:00Z"%string)
     (Some "2024-06-01T01:00:00Z"%string) (Some "2024-06-01"%string)
     (Some 1%Z) (Some 10%Q);
   mkItem (Some "2024-06-01T01:00:00Z"%string)
     (Some "2024-06-01T02:00:00Z"%string) None (Some 2%Z) (Some 5%Q);
   mkItem None (Some "2024-06-01T03:00:00Z"%string)
     (Some "2024-06-01"%string) (Some 3%Z) (Some 2%Q)].

(** The keys of a response item whose absence makes the window searches drop
    the record built from it. *)
Definition item_complete (item : Item) : bool :=
  is_some (item_price item) && is_some (item_deliveryStart item)
  && is_some (item_deliveryEnd item) && is_some (item_deliveryDay item).

(** The slot of the store holds what the search returned. *)
Definition cached (run : py WindowResult) (slot : option WindowResult)
  : Prop :=
  exists result, run = Ret result /\ slot = Some result.

(** ** The arithmetic of the interpreter: binary64

    The definitions above read a price as an exact rational.  The module
    [Binary64] embeds the same functions of [okte.py] with the arithmetic
    Python performs: a [float] is an IEEE 754 binary64 number (53 bits of
    precision), [+] and [/] round to nearest with ties to even, comparisons
    with NaN are false, and [round(x, 2)] rounds the exact value of [x] to
    two decimals, ties to even, and returns the nearest float.

    A record keeps its price as the decimal number of the response; what
    Python holds is the float nearest to it ([json.loads]).  A NaN or a
    negative zero cannot be written as such a number and is left out.  An
    integer of the response is read as the float of the same value.

    The builtin [sum] belongs to the interpreter (it adds left to right up
    to CPython 3.11 and compensates the rounding errors from 3.12 on), so
    it is a parameter of the functions; [sum_left_to_right] is the
    reference instance. *)

Module Binary64.

Definition float : Type := spec_float.

Definition prec : Z := 53.
Definition emax : Z := 1024.

Definition zero : float := S754_zero false.
(** [float('inf')] and [float('-inf')] *)
Definition inf : float := S754_infinity false.
Definition neg_inf : float := S754_infinity true.

Definition add : float -> float -> float := SFadd prec emax.
Definition div : float -> float -> float := SFdiv prec emax.
(** [a < b], [a <= b] and [a == b] *)
Definition ltb : float -> float -> bool := SFltb.
Definition leb : float -> float -> bool := SFleb.
Definition eqb : float -> float -> bool := SFeqb.

Definition is_nan (x : float) : bool :=
  match x with
  | S754_nan => true
  | _ => false
  end.

Definition is_finite (x : float) : bool :=
  match x with
  | S754_zero _ | S754_finite _ _ _ => true
  | _ => false
  end.

(** [float(n)] for an integer [n] *)
Definition of_int (n : Z) : float := binary_normalize prec emax n 0 false.

(** The float nearest to a rational: the correctly rounded quotient of its
    numerator and denominator. *)
Definition of_Q (q : Q) : float :=
  match Qnum q with
  | Z0 => zero
  | Zpos n => div (S754_finite false n 0) (S754_finite false (Qden q) 0)
  | Zneg n => div (S754_finite true n 0) (S754_finite false (Qden q) 0)
  end.

(** The exact value of a finite float ([0] stands in for the others). *)
Definition exact (x : float) : Q :=
  match x with
  | S754_finite s m e =>
    let magnitude :=
      match e with
      | Zneg k => Qmake (Zpos m) (2 ^ k)
      | _ => inject_Z (Zpos m * 2 ^ e)
      end in
    if s then (- magnitude)%Q else magnitude
  | _ => 0%Q
  end.

(** [round(x, 2)]: infinities, NaN and zeros round to themselves; a result
    of zero keeps the sign of [x]. *)
Definition py_round2 (x : float) : float :=
  match x with
  | S754_finite s _ _ =>
    match round_half_even (exact x * 100) with
    | Z0 => S754_zero s
    | hundredths => of_Q (Qmake hundredths 100)
    end
  | _ => x
  end.

(** [sum(xs)] as CPython computes it up to version 3.11: from the integer
    [0], left to right. *)
Definition sum_left_to_right (xs : list float) : float :=
  fold_left add xs zero.

(** [a / n] for an integer divisor [n] *)
Definition py_div (a : float) (n : Z) : py float :=
  if (n =? 0)%Z then Raise ZeroDivisionError else Ret (div a (of_int n)).

(** [min(xs)] and [max(xs)]: the running extremum is replaced by an item
    only when [item < it] (for [min]) or [item > it] (for [max]) holds. *)
Definition py_min (xs : list float) : py float :=
  match xs with
  | [] => Raise ValueError
  | x :: xs' => Ret (fold_left (fun m y => if ltb y m then y else m) xs' x)
  end.

Definition py_max (xs : list float) : py float :=
  match xs with
  | [] => Raise ValueError
  | x :: xs' => Ret (fold_left (fun m y => if ltb m y then y else m) xs' x)
  end.

(** [record['price']] used as a number *)
Definition get_price (r : PriceRecord) : py float :=
  match price r with
  | Some q => Ret (of_Q q)
  | None => Raise TypeError
  end.

(** [record['price'] == x] *)
Definition price_is (x : float) (r : PriceRecord) : bool :=
  match price r with
  | Some p => eqb (of_Q p) x
  | None => false
  end.

Record Statistics : Type := mkStatistics {
  stat_min_price : option float;
  stat_max_price : option float;
  stat_avg_price : option float;
  stat_count : Z;
  stat_min_record : option PriceRecord;
  stat_max_record : option PriceRecord
}.

Definition empty_statistics : Statistics :=
  mkStatistics None None None 0 None None.

Record Window : Type := mkWindow {
  start_time : option string;
  end_time : option string;
  avg_price : float;
  min_price : float;
  max_price : float;
  records : list PriceRecord;
  total_cost_per_mwh : float
}.

Inductive WindowResult : Type :=
| NotFound (message : Message)
| Found (window_hours : Z) (w : Window).

Definition found (r : WindowResult) : bool :=
  match r with
  | Found _ _ => true
  | NotFound _ => false
  end.

Record RankedWindow : Type := mkRanked {
  r_start_time : option string;
  r_end_time : option string;
  r_avg_price : float;
  r_records : list PriceRecord
}.

(** [windows.sort(key=lambda x: x['avg_price'])] and the same with
    [reverse=True], which keeps equal keys in their original order too.
    The sort compares keys with [<] only. *)
Definition cheaper (a b : RankedWindow) : bool :=
  ltb (r_avg_price a) (r_avg_price b).

Definition dearer (a b : RankedWindow) : bool :=
  ltb (r_avg_price b) (r_avg_price a).

(** Windows whose rounded average compares equal to [x]. *)
Definition ties_with (x : float) (w : RankedWindow) : bool :=
  eqb (r_avg_price w) x.

Section Interpreter.

(** The builtin [sum] on a list of floats. *)
Variable py_sum : list float -> float.

(** [calculate_price_statistics] *)
Definition calculate_price_statistics (data : list PriceRecord)
  : py Statistics :=
  match data with
  | [] => Ret empty_statistics
  | _ =>
    let valid_prices := filter (fun record => is_some (price record)) data in
    match valid_prices with
    | [] => Ret empty_statistics
    | _ =>
      prices <- py_map get_price valid_prices ;;
      min_price <- py_min prices ;;
      max_price <- py_max prices ;;
      avg_price <- py_div (py_sum prices) (len prices) ;;
      min_record <- py_next (price_is min_price) valid_prices ;;
      max_record <- py_next (price_is max_price) valid_prices ;;
      Ret (mkStatistics (Some min_price) (Some max_price)
             (Some (py_round2 avg_price)) (len valid_prices)
             (Some min_record) (Some max_record))
    end
  end.

Section WindowSearch.

(** [avg < best_avg] for the cheapest window, [avg > best_avg] for the most
    expensive one, and the initial [best_avg]. *)
Variable better : float -> float -> bool.
Variable initial : float.

(** One iteration of [for i in range(len(valid_data) - window_hours + 1)]. *)
Definition window_step (valid_data : list PriceRecord) (window_hours : Z)
    (st : float * option Window) (i : Z) : py (float * option Window) :=
  let window_data := py_slice valid_data i (i + window_hours) in
  window_prices <- py_map get_price window_data ;;
  avg <- py_div (py_sum window_prices) (len window_prices) ;;
  if better avg (fst st) then
    first_record <- py_first window_data ;;
    last_record <- py_last window_data ;;
    lowest <- py_min window_prices ;;
    highest <- py_max window_prices ;;
    Ret (avg,
         Some (mkWindow (deliveryStart first_record) (deliveryEnd last_record)
                 (py_round2 avg) lowest highest window_data
                 (py_round2 (py_sum window_prices))))
  else Ret st.

Definition find_time_window (data : list PriceRecord) (window_hours : Z)
  : py WindowResult :=
  match data with
  | [] => Ret (NotFound (NotEnoughData window_hours))
  | _ =>
    if (len data <? window_hours)%Z
    then Ret (NotFound (NotEnoughData window_hours))
    else
      let valid_data := valid_records data in
      if (len valid_data <? window_hours)%Z
      then Ret (NotFound (NotEnoughValidData window_hours))
      else
        match sort_by_deliveryStart valid_data with
        | Raise _ => Ret (NotFound ErrorSortingData)
        | Ret valid_data =>
          st <- py_for (py_range (len valid_data - window_hours + 1))
                  (window_step valid_data window_hours) (initial, None) ;;
          match snd st with
          | Some w => Ret (Found window_hours w)
          | None => Ret (NotFound NoSuitableWindow)
          end
        end
  end.

End WindowSearch.

Definition find_cheapest_time_window
  : list PriceRecord -> Z -> py WindowResult :=
  find_time_window ltb inf.

Definition find_most_expensive_time_window
  : list PriceRecord -> Z -> py WindowResult :=
  find_time_window (fun avg best_avg => ltb best_avg avg) neg_inf.

(** The body of the enumeration loop: the dict appended to [windows]. *)
Definition ranked_window_at (valid_data : list PriceRecord) (window_hours : Z)
    (i : Z) : py RankedWindow :=
  let window_data := py_slice valid_data i (i + window_hours) in
  window_prices <- py_map get_price window_data ;;
  avg <- py_div (py_sum window_prices) (len window_prices) ;;
  first_record <- py_first window_data ;;
  last_record <- py_last window_data ;;
  Ret (mkRanked (deliveryStart first_record) (deliveryEnd last_record)
         (py_round2 avg) window_data).

Definition enumerate_windows (valid_data : list PriceRecord) (window_hours : Z)
  : py (list RankedWindow) :=
  py_map (ranked_window_at valid_data window_hours)
    (py_range (len valid_data - window_hours + 1)).

Section TopK.

Variable before : RankedWindow -> RankedWindow -> bool.

Definition find_multiple_windows (data : list PriceRecord)
    (window_hours count : Z) : py (list RankedWindow) :=
  match data with
  | [] => Ret []
  | _ =>
    if (len data <? window_hours)%Z then Ret []
    else
      let valid_data := valid_records data in
      if (len valid_data <? window_hours)%Z then Ret []
      else
        match sort_by_deliveryStart valid_data with
        | Raise _ => Ret []
        | Ret valid_data =>
          windows <- enumerate_windows valid_data window_hours ;;
          Ret (py_prefix (stable_sort before windows) count)
        end
  end.

End TopK.

Definition find_multiple_cheap_windows
  : list PriceRecord -> Z -> Z -> py (list RankedWindow) :=
  find_multiple_windows cheaper.

Definition find_multiple_expensive_windows
  : list PriceRecord -> Z -> Z -> py (list RankedWindow) :=
  find_multiple_windows dearer.

(** *** Vocabulary of the statements *)

(** The prices of a run as Python holds them ([zero] stands in for a
    missing one; valid records always carry one). *)
Definition float_prices (w : list PriceRecord) : list float :=
  map (fun r => match price r with Some q => of_Q q | None => zero end) w.

(** The average of a run as the code computes it:
    [sum(window_prices) / len(window_prices)]. *)
Definition computed_average (w : list PriceRecord) : float :=
  div (py_sum (float_prices w)) (of_int (len w)).

(** [win] is the result dict the search builds for the run [w]. *)
Definition describes (win : Window) (w : list PriceRecord) : Prop :=
  records win = w
  /\ avg_price win = py_round2 (computed_average w)
  /\ total_cost_per_mwh win = py_round2 (py_sum (float_prices w))
  /\ py_min (float_prices w) = Ret (min_price win)
  /\ py_max (float_prices w) = Ret (max_price win)
  /\ start_time win = first_start w
  /\ end_time win = last_end w.

(** The dict appended to [windows] for the run [w]. *)
Definition ranked_window (w : list PriceRecord) : RankedWindow :=
  mkRanked (first_start w) (last_end w) (py_round2 (computed_average w)) w.

(** All candidate windows, in chronological order (by starting offset). *)
Definition candidate_windows (valid_data : list PriceRecord) (window_hours : Z)
  : list RankedWindow :=
  map (fun i => ranked_window (window_at valid_data window_hours i))
    (py_range (len valid_data - window_hours + 1)).

(** The exact mean of the floats Python holds for a run whose prices are
    all finite. *)
Definition exact_average (w : list PriceRecord) : Q :=
  (fold_left Qplus (map exact (float_prices w)) 0 / inject_Z (len w))%Q.

(** Every window the loop visits has a finite computed average (no
    overflow to an infinity, no NaN). *)
Definition averages_finite (valid_data : list PriceRecord) (window_hours : Z)
  : bool :=
  forallb
    (fun i => is_finite
                (computed_average (window_at valid_data window_hours i)))
    (py_range (len valid_data - window_hours + 1)).

(** No candidate window has NaN for its rounded average; the keys of the
    sort are then totally ordered by [<], so that every stable sort gives
    the same result. *)
Definition keys_ordered (valid_data : list PriceRecord) (window_hours : Z)
  : bool :=
  forallb (fun c => negb (is_nan (r_avg_price c)))
    (candidate_windows valid_data window_hours).

(** The prices that are present, as Python holds them, in input order. *)
Definition known_float_prices (data : list PriceRecord) : list float :=
  map of_Q (known_prices data).

(** [r] is the first record of [data] whose price compares equal to
    [x]. *)
Definition first_priced (data : list PriceRecord) (x : float)
    (r : PriceRecord) : Prop :=
  exists before after,
    data = before ++ r :: after
    /\ price_is x r = true
    /\ forall y, In y before -> price_is x y = false.

End Interpreter.

End Binary64.

(** Sample series for the binary64 arithmetic; [priced h c] is the hour
    [h] of [sample_record] with a price of [c] hundredths. *)
Definition priced (h : nat) (hundredths : Z) : PriceRecord :=
  sample_record h (Qmake hundredths 100).

(** Prices [0.4, 0.4, 5, 0.1, 0.7]: the pairs at offsets [0] and [3] both
    average [0.4] exactly. *)
Definition tied_pairs : list PriceRecord :=
  [priced 0 40; priced 1 40; priced 2 500; priced 3 10; priced 4 70].

(** Two hours at a price of [1e308]. *)
Definition huge_pair : list PriceRecord :=
  [sample_record 0 (inject_Z (10 ^ 308));
   sample_record 1 (inject_Z (10 ^ 308))].

(** Prices [2.67, 2.68], whose mean is [2.675]. *)
Definition half_cent_pair : list PriceRecord :=
  [priced 0 267; priced 1 268].

(** Prices [2.69, 2.67, 2.68]: the pairs average [2.68] and [2.675]. *)
Definition half_cent_triple : list PriceRecord :=
  [priced 0 269; priced 1 267; priced 2 268].

(** * Properties *)

(** ** Comparisons and rounding on [Q] *)

Lemma Qltb_lt (a b : Q) : Qltb a b = true <-> (a < b)%Q.
Proof.
  unfold Qltb. rewrite negb_true_iff. split.
  - intros H. apply Qnot_le_lt. intro Hle.
    apply Qle_bool_iff in Hle. congruence.
  - intros H. destruct (Qle_bool b a) eqn:E; [|reflexivity].
    apply Qle_bool_iff in E. exfalso. exact (Qlt_not_le _ _ H E).
Qed.

Lemma Qltb_ge (a b : Q) : Qltb a b = false <-> (b <= a)%Q.
Proof.
  unfold Qltb. rewrite negb_false_iff. apply Qle_bool_iff.
Qed.



Lemma round_half_even_near (q : Q) :
  (Qabs (inject_Z (round_half_even q) - q) <= 1 # 2)%Q.
Proof.
  pose proof (Qfloor_le q) as Hlo.
  pose proof (Qlt_floor q) as Hhi.
  rewrite inject_Z_plus in Hhi.
  apply Qabs_Qle_condition.
  unfold round_half_even.
  destruct (Qcompare_spec (q - inject_Z (Qfloor q)) (1 # 2)).
  - destruct (Z.even (Qfloor q)); rewrite ?inject_Z_plus;
      change (inject_Z 1) with 1%Q in *; split; lra.
  - change (inject_Z 1) with 1%Q in *. split; lra.
  - rewrite inject_Z_plus. change (inject_Z 1) with 1%Q in *. split; lra.
Qed.


(** [py_round2 x] has at most two decimals and is within half a cent of
    [x]. *)
Lemma py_round2_near (x : Q) :
  (Qabs (py_round2 x - x) <= 1 # 200)%Q.
Proof.
  pose proof (round_half_even_near (x * 100)) as H.
  apply Qabs_Qle_condition in H. apply Qabs_Qle_condition.
  unfold py_round2.
  rewrite (Qmake_Qdiv (round_half_even (x * 100)) 100).
  set (z := inject_Z (round_half_even (x * 100))) in *.
  unfold Qdiv. change (/ inject_Z (Z.pos 100))%Q with (1 # 100)%Q.
  split; lra.
Qed.

(** ** Sequences *)

Lemma len_nonneg {A : Type} (l : list A) : (0 <= len l)%Z.
Proof. unfold len. lia. Qed.

Lemma len_map {A B : Type} (f : A -> B) (l : list A) : len (map f l) = len l.
Proof. unfold len. now rewrite length_map. Qed.

Lemma py_range_succ (m : Z) :
  (0 <= m)%Z -> py_range (m + 1) = py_range m ++ [m].
Proof.
  intros Hm. unfold py_range.
  replace (Z.to_nat (m + 1)) with (S (Z.to_nat m)) by lia.
  rewrite seq_S, map_app. simpl. now rewrite Z2Nat.id.
Qed.

Lemma In_py_range (m i : Z) : In i (py_range m) <-> (0 <= i < m)%Z.
Proof.
  unfold py_range. rewrite in_map_iff. split.
  - intros (n & <- & Hn). apply in_seq in Hn. lia.
  - intros H. exists (Z.to_nat i). split; [lia|]. apply in_seq. lia.
Qed.

Lemma py_for_app {S X : Type} (body : S -> X -> py S) (xs ys : list X) (s : S) :
  py_for (xs ++ ys) body s = (s' <- py_for xs body s ;; py_for ys body s').
Proof.
  revert s. induction xs as [|x xs IH]; intros s; simpl; [reflexivity|].
  destruct (body s x); simpl; auto.
Qed.

Lemma py_slice_run {A : Type} (l : list A) (i w : Z) :
  (0 <= i)%Z -> (0 <= w)%Z -> (i + w <= len l)%Z ->
  py_slice l i (i + w) = firstn (Z.to_nat w) (skipn (Z.to_nat i) l).
Proof.
  intros Hi Hw Hn. unfold py_slice, slice_index.
  destruct (Z.ltb_spec i 0); [lia|].
  destruct (Z.ltb_spec (i + w) 0); [lia|].
  rewrite !Z.min_l by lia.
  now replace (i + w - i)%Z with w by lia.
Qed.

Lemma len_py_slice_run {A : Type} (l : list A) (i w : Z) :
  (0 <= i)%Z -> (0 <= w)%Z -> (i + w <= len l)%Z ->
  len (py_slice l i (i + w)) = w.
Proof.
  intros Hi Hw Hn. rewrite py_slice_run by assumption.
  unfold len in *. rewrite length_firstn, length_skipn. lia.
Qed.

Lemma In_firstn {A : Type} (n : nat) (l : list A) (x : A) :
  In x (firstn n l) -> In x l.
Proof.
  intros H. rewrite <- (firstn_skipn n l). apply in_or_app. now left.
Qed.

Lemma In_skipn {A : Type} (n : nat) (l : list A) (x : A) :
  In x (skipn n l) -> In x l.
Proof.
  intros H. rewrite <- (firstn_skipn n l). apply in_or_app. now right.
Qed.

Lemma py_slice_incl {A : Type} (l : list A) (i j : Z) (x : A) :
  In x (py_slice l i j) -> In x l.
Proof.
  unfold py_slice. intros H.
  apply In_firstn, In_skipn in H. exact H.
Qed.

Lemma Forall_py_slice {A : Type} (P : A -> Prop) (l : list A) (i j : Z) :
  Forall P l -> Forall P (py_slice l i j).
Proof.
  rewrite !Forall_forall. intros H x Hx. apply H.
  eapply py_slice_incl; eauto.
Qed.

Lemma py_first_cons {A : Type} (l : list A) :
  l <> [] -> exists x, py_first l = Ret x.
Proof. destruct l; [congruence|]. intros _. eexists. reflexivity. Qed.

Lemma py_last_cons {A : Type} (l : list A) :
  l <> [] -> exists x, py_last l = Ret x.
Proof.
  intros H. unfold py_last. destruct (rev l) eqn:E.
  - apply (f_equal (@rev A)) in E. rewrite rev_involutive in E. now subst.
  - eexists. reflexivity.
Qed.

Lemma py_min_cons (l : list Q) : l <> [] -> exists x, py_min l = Ret x.
Proof. destruct l; [congruence|]. intros _. eexists. reflexivity. Qed.

Lemma py_max_cons (l : list Q) : l <> [] -> exists x, py_max l = Ret x.
Proof. destruct l; [congruence|]. intros _. eexists. reflexivity. Qed.

Lemma len_pos_nonempty {A : Type} (l : list A) : (1 <= len l)%Z -> l <> [].
Proof. destruct l; unfold len; simpl; [lia|congruence]. Qed.

(** ** The stable sort *)

Lemma insert_by_perm {A : Type} (lt : A -> A -> bool) (x : A) (l : list A) :
  Permutation (insert_by lt x l) (x :: l).
Proof.
  induction l as [|y ys IH]; simpl; [reflexivity|].
  destruct (lt y x); [|reflexivity].
  rewrite IH. apply perm_swap.
Qed.

Lemma stable_sort_perm {A : Type} (lt : A -> A -> bool) (l : list A) :
  Permutation (stable_sort lt l) l.
Proof.
  induction l as [|x xs IH]; simpl; [reflexivity|].
  rewrite insert_by_perm. now apply perm_skip.
Qed.

Lemma len_stable_sort {A : Type} (lt : A -> A -> bool) (l : list A) :
  len (stable_sort lt l) = len l.
Proof.
  unfold len. f_equal. apply Permutation_length, stable_sort_perm.
Qed.

Lemma Forall_stable_sort {A : Type} (P : A -> Prop) (lt : A -> A -> bool)
    (l : list A) :
  Forall P l -> Forall P (stable_sort lt l).
Proof.
  intros H. eapply Permutation_Forall; [|exact H].
  symmetry. apply stable_sort_perm.
Qed.

(** Stability: the elements selected by any predicate that is closed under
    "neither sorts strictly before the other" keep their input order. *)
Lemma insert_by_filter {A : Type} (lt : A -> A -> bool) (p : A -> bool)
    (x : A) (l : list A) :
  (forall y, p x = true -> lt y x = true -> p y = false) ->
  filter p (insert_by lt x l) = filter p (x :: l).
Proof.
  intros Hp. induction l as [|y ys IH]; [reflexivity|].
  simpl in *. destruct (lt y x) eqn:E; [|reflexivity].
  simpl. rewrite IH.
  destruct (p x) eqn:Px; [|reflexivity].
  now rewrite (Hp y eq_refl E).
Qed.

Lemma stable_sort_filter {A : Type} (lt : A -> A -> bool) (p : A -> bool)
    (l : list A) :
  (forall x y, p x = true -> lt y x = true -> p y = false) ->
  filter p (stable_sort lt l) = filter p l.
Proof.
  intros Hp. induction l as [|x xs IH]; [reflexivity|].
  simpl stable_sort. rewrite insert_by_filter by (intros y; apply Hp).
  simpl. now rewrite IH.
Qed.

(** The output is sorted when, on the elements at hand, "does not sort
    strictly after" is transitive and [lt] is asymmetric. *)
Lemma insert_by_sorted {A : Type} (P : A -> Prop) (lt : A -> A -> bool)
    (x : A) (l : list A) :
  (forall a b c, P a -> P b -> P c ->
     lt b a = false -> lt c b = false -> lt c a = false) ->
  (forall a b, P a -> P b -> lt a b = true -> lt b a = false) ->
  P x -> Forall P l ->
  StronglySorted (fun a b => lt b a = false) l ->
  StronglySorted (fun a b => lt b a = false) (insert_by lt x l).
Proof.
  intros Htrans Hasym Px Pl Hs. induction l as [|y ys IH]; simpl.
  - repeat constructor.
  - inversion Hs as [|? ? Hs' Hall]; subst.
    inversion Pl as [|? ? Py Pys]; subst.
    destruct (lt y x) eqn:E.
    + constructor; [auto|].
      eapply Permutation_Forall; [symmetry; apply insert_by_perm|].
      constructor; auto.
    + constructor; [assumption|].
      constructor; [assumption|].
      rewrite Forall_forall in Hall, Pys. apply Forall_forall.
      intros z Hz. apply (Htrans x y z); auto.
Qed.

Lemma stable_sort_sorted {A : Type} (P : A -> Prop) (lt : A -> A -> bool)
    (l : list A) :
  (forall a b c, P a -> P b -> P c ->
     lt b a = false -> lt c b = false -> lt c a = false) ->
  (forall a b, P a -> P b -> lt a b = true -> lt b a = false) ->
  Forall P l ->
  StronglySorted (fun a b => lt b a = false) (stable_sort lt l).
Proof.
  intros Htrans Hasym Pl. induction Pl as [|x xs Px Pxs IH]; simpl.
  - constructor.
  - apply insert_by_sorted with (P := P); auto.
    now apply Forall_stable_sort.
Qed.

(** ** Order on the sort key *)

Lemma string_ltb_lt (a b : string) :
  String.ltb a b = true <-> String_as_OT.lt a b.
Proof.
  rewrite <- String_as_OT.cmp_lt. unfold String.ltb, String_as_OT.cmp.
  destruct (String.compare a b); split; congruence.
Qed.

Lemma string_ltb_asym (a b : string) :
  String.ltb a b = true -> String.ltb b a = false.
Proof.
  unfold String.ltb. rewrite (String.compare_antisym a b).
  destruct (String.compare b a); simpl; congruence.
Qed.

Lemma string_not_ltb_trans (a b c : string) :
  String.ltb b a = false -> String.ltb c b = false -> String.ltb c a = false.
Proof.
  intros Hba Hcb. destruct (String.ltb c a) eqn:Hca; [|reflexivity].
  exfalso. apply string_ltb_lt in Hca.
  destruct (String.compare a b) eqn:C.
  - apply String.compare_eq_iff in C. subst b.
    apply string_ltb_lt in Hca. congruence.
  - assert (Hab : String_as_OT.lt a b) by now apply String_as_OT.cmp_lt.
    pose proof (@String_as_OT.lt_trans c a b Hca Hab) as Hcb'.
    apply string_ltb_lt in Hcb'. congruence.
  - unfold String.ltb in Hba. rewrite (String.compare_antisym b a) in Hba.
    rewrite C in Hba. discriminate Hba.
Qed.

(** ** Valid records *)

Lemma valid_fields (r : PriceRecord) :
  valid r <->
  price r <> None /\ deliveryStart r <> None /\ deliveryEnd r <> None
  /\ deliveryDayCET r <> None /\ HourStartCET r <> None
  /\ HourEndCET r <> None.
Proof.
  unfold valid, is_valid_record. rewrite !andb_true_iff.
  destruct (price r), (deliveryStart r), (deliveryEnd r), (deliveryDayCET r),
    (HourStartCET r), (HourEndCET r); simpl; intuition congruence.
Qed.

Lemma valid_records_Forall (data : list PriceRecord) :
  Forall valid (valid_records data).
Proof.
  apply Forall_forall. intros r Hr. apply filter_In in Hr. apply Hr.
Qed.

Lemma sorted_valid_Forall (data : list PriceRecord) :
  Forall valid (sorted_valid data).
Proof. apply Forall_stable_sort, valid_records_Forall. Qed.

(** The sequence the windows slide over holds the valid records, in
    ascending order of [deliveryStart], records with equal keys in input
    order. *)
Lemma sorted_valid_perm (data : list PriceRecord) :
  Permutation (sorted_valid data) (valid_records data).
Proof. apply stable_sort_perm. Qed.

Lemma sorted_valid_sorted (data : list PriceRecord) :
  StronglySorted (fun a b => start_key_lt b a = false) (sorted_valid data).
Proof.
  apply stable_sort_sorted with (P := valid);
    [| |apply valid_records_Forall].
  - intros a b c Ha Hb Hc. unfold start_key_lt.
    apply valid_fields in Ha, Hb, Hc.
    destruct (deliveryStart a), (deliveryStart b), (deliveryStart c);
      try tauto.
    apply string_not_ltb_trans.
  - intros a b _ _. unfold start_key_lt.
    destruct (deliveryStart a), (deliveryStart b); try discriminate.
    apply string_ltb_asym.
Qed.

Lemma sorted_valid_stable (data : list PriceRecord) (key : string) :
  let same r := match deliveryStart r with
                | Some s => String.eqb s key
                | None => false
                end in
  filter same (sorted_valid data) = filter same (valid_records data).
Proof.
  intros same. apply stable_sort_filter.
  unfold same, start_key_lt. intros x y Hx Hy.
  destruct (deliveryStart x) as [sx|]; [|discriminate].
  destruct (deliveryStart y) as [sy|]; [|reflexivity].
  apply String.eqb_eq in Hx. subst sx.
  destruct (String.eqb sy key) eqn:E; [|reflexivity].
  apply String.eqb_eq in E. subst sy.
  unfold String.ltb in Hy.
  replace (String.compare key key) with Eq in Hy; [discriminate|].
  symmetry. now apply String_as_OT.cmp_eq.
Qed.

Lemma len_sorted_valid (data : list PriceRecord) :
  len (sorted_valid data) = len (valid_records data).
Proof. apply len_stable_sort. Qed.

Lemma len_valid_records_le (data : list PriceRecord) :
  (len (valid_records data) <= len data)%Z.
Proof.
  unfold len, valid_records. pose proof (filter_length_le is_valid_record data).
  lia.
Qed.

Lemma sort_by_deliveryStart_valid (l : list PriceRecord) :
  Forall valid l -> sort_by_deliveryStart l = Ret (stable_sort start_key_lt l).
Proof.
  intros H. unfold sort_by_deliveryStart.
  replace (forallb _ l) with true; [reflexivity|].
  symmetry. apply forallb_forall. intros r Hr.
  rewrite Forall_forall in H. apply H, valid_fields in Hr.
  destruct (deliveryStart r); [reflexivity|intuition congruence].
Qed.

Lemma py_map_get_price (l : list PriceRecord) :
  Forall valid l -> py_map get_price l = Ret (map price_value l).
Proof.
  induction 1 as [|r l Hr _ IH]; [reflexivity|].
  cbn [py_map map]. rewrite IH. apply valid_fields in Hr.
  unfold get_price, price_value.
  destruct (price r); [reflexivity|intuition congruence].
Qed.

Lemma window_at_len (sv : list PriceRecord) (W i : Z) :
  (1 <= W)%Z -> (0 <= i)%Z -> (i + W <= len sv)%Z ->
  len (window_at sv W i) = W.
Proof. intros. apply len_py_slice_run; lia. Qed.

(** ** One iteration of the search loop *)

Lemma window_step_run (better : Q -> ext -> bool) (sv : list PriceRecord)
    (W : Z) (st : ext * option Window) (i : Z) :
  Forall valid sv -> (1 <= W)%Z -> (0 <= i)%Z -> (i + W <= len sv)%Z ->
  exists win,
    describes win (window_at sv W i)
    /\ window_step better sv W st i =
       Ret (if better (window_average (window_at sv W i)) (fst st)
            then (Fin (window_average (window_at sv W i)), Some win)
            else st).
Proof.
  intros Hv HW Hi Hn. unfold window_step. fold (window_at sv W i).
  set (w := window_at sv W i).
  assert (Hlen : len w = W) by (apply window_at_len; assumption).
  assert (Hne : w <> []) by (apply len_pos_nonempty; lia).
  assert (Hpne : map price_value w <> []).
  { intro E. apply Hne. now apply map_eq_nil in E. }
  rewrite (py_map_get_price (l := w)) by (apply Forall_py_slice; assumption).
  cbn [bind]. unfold py_div. rewrite len_map. rewrite Hlen.
  destruct (Z.eqb_spec W 0); [lia|]. cbn [bind].
  destruct (py_first_cons Hne) as [r1 E1].
  destruct (py_last_cons Hne) as [r2 E2].
  destruct (py_min_cons Hpne) as [lo Elo].
  destruct (py_max_cons Hpne) as [hi Ehi].
  rewrite E1, E2, Elo, Ehi. cbn [bind].
  eexists. split; cycle 1.
  - unfold window_average. rewrite Hlen.
    destruct (better _ (fst st)); reflexivity.
  - unfold describes, window_average; simpl. rewrite Hlen.
    repeat split; try assumption.
    + exists r1. split; [assumption|reflexivity].
    + exists r2. split; [assumption|reflexivity].
Qed.

(** ** The search loop

    [lt a b] reads "[a] is strictly better than [b]": [<] for the cheapest
    window, [>] for the most expensive one. *)

Section SearchLoop.

Variable better : Q -> ext -> bool.
Variable initial : ext.
Variable lt : Q -> Q -> Prop.

Hypothesis better_initial : forall a, better a initial = true.
Hypothesis better_fin : forall a b, better a (Fin b) = true <-> lt a b.
Hypothesis lt_irrefl : forall a, ~ lt a a.
Hypothesis lt_trans : forall a b c, lt a b -> lt b c -> lt a c.
Hypothesis lt_cotrans : forall a b c, lt a c -> lt a b \/ lt b c.

Variable sv : list PriceRecord.
Variable W : Z.
Hypothesis sv_valid : Forall valid sv.
Hypothesis W_pos : (1 <= W)%Z.

(** After [m] iterations the state holds the first best window among the
    offsets [0 .. m-1]. *)
Lemma search_loop_invariant (k : nat) :
  (Z.of_nat (S k) <= len sv - W + 1)%Z ->
  exists b win,
    (0 <= b < Z.of_nat (S k))%Z
    /\ py_for (py_range (Z.of_nat (S k))) (window_step better sv W)
         (initial, None)
       = Ret (Fin (window_average (window_at sv W b)), Some win)
    /\ describes win (window_at sv W b)
    /\ (forall j, (0 <= j < Z.of_nat (S k))%Z ->
          ~ lt (window_average (window_at sv W j))
               (window_average (window_at sv W b)))
    /\ (forall j, (0 <= j < b)%Z ->
          lt (window_average (window_at sv W b))
             (window_average (window_at sv W j))).
Proof.
  induction k as [|k IH]; intros Hk.
  - destruct (window_step_run better (initial, None) sv_valid W_pos
                (Z.le_refl 0)) as (win & Hd & Hs); [lia|].
    exists 0%Z, win. simpl fst in Hs. rewrite better_initial in Hs.
    change (py_range (Z.of_nat 1)) with [0%Z]. cbn [py_for]. rewrite Hs.
    cbn [bind]. split; [lia|]. split; [reflexivity|]. split; [exact Hd|].
    split; [|lia].
    intros j Hj. replace j with 0%Z by lia. apply lt_irrefl.
  - destruct IH as (b & win & Hb & Hrun & Hd & Hmin & Hfirst); [lia|].
    set (m := Z.of_nat (S k)) in *.
    replace (Z.of_nat (S (S k))) with (m + 1)%Z by lia.
    rewrite py_range_succ, py_for_app, Hrun by lia. cbn [bind py_for].
    destruct (window_step_run better
                (Fin (window_average (window_at sv W b)), Some win)
                sv_valid W_pos
                (i := m)) as (win' & Hd' & Hs); [lia|lia|].
    rewrite Hs. cbn [fst bind].
    destruct (better (window_average (window_at sv W m))
                (Fin (window_average (window_at sv W b)))) eqn:E.
    + apply better_fin in E.
      exists m, win'.
      split; [lia|]. split; [reflexivity|]. split; [exact Hd'|]. split.
      * intros j Hj Hlt. destruct (Z.eq_dec j m) as [->|Hne].
        -- exact (lt_irrefl Hlt).
        -- apply (Hmin j); [lia|]. eapply lt_trans; eauto.
      * intros j Hj.
        destruct (lt_cotrans (window_average (window_at sv W j)) E)
          as [H|H]; [exact H|].
        exfalso. apply (Hmin j); [lia|exact H].
    + exists b, win.
      split; [lia|]. split; [reflexivity|]. split; [exact Hd|].
      split; [|exact Hfirst].
      intros j Hj. destruct (Z.eq_dec j m) as [->|Hne].
      * intro Hlt. apply better_fin in Hlt. congruence.
      * apply Hmin. lia.
Qed.

End SearchLoop.

Lemma nonempty_match {A B : Type} (l : list A) (x y : B) :
  l <> [] -> match l with [] => x | _ :: _ => y end = y.
Proof. destruct l; [congruence|reflexivity]. Qed.

(** The whole search, for a series with enough valid records. *)
Lemma find_time_window_run (better : Q -> ext -> bool) (initial : ext)
    (lt : Q -> Q -> Prop) (data : list PriceRecord) (W : Z) :
  (forall a, better a initial = true) ->
  (forall a b, better a (Fin b) = true <-> lt a b) ->
  (forall a, ~ lt a a) ->
  (forall a b c, lt a b -> lt b c -> lt a c) ->
  (forall a b c, lt a c -> lt a b \/ lt b c) ->
  (1 <= W)%Z -> (W <= len (valid_records data))%Z ->
  let sv := sorted_valid data in
  exists i win,
    (0 <= i <= len sv - W)%Z
    /\ find_time_window better initial data W = Ret (Found W win)
    /\ describes win (window_at sv W i)
    /\ (forall j, (0 <= j <= len sv - W)%Z ->
          ~ lt (window_average (window_at sv W j))
               (window_average (window_at sv W i)))
    /\ (forall j, (0 <= j < i)%Z ->
          lt (window_average (window_at sv W i))
             (window_average (window_at sv W j))).
Proof.
  intros H1 H2 H3 H4 H5 HW Hn sv.
  pose proof (len_valid_records_le data) as Hle.
  pose proof (len_sorted_valid data) as Hsv. fold sv in Hsv.
  unfold find_time_window.
  rewrite nonempty_match
    by (apply len_pos_nonempty; lia).
  destruct (Z.ltb_spec (len data) W); [lia|].
  destruct (Z.ltb_spec (len (valid_records data)) W); [lia|].
  rewrite (sort_by_deliveryStart_valid (valid_records_Forall data)).
  fold (sorted_valid data). fold sv.
  set (k := Z.to_nat (len sv - W)).
  replace (len sv - W + 1)%Z with (Z.of_nat (S k)) by lia.
  destruct (search_loop_invariant better initial lt H1 H2 H3 H4 H5
              (sorted_valid_Forall data) HW (k := k))
    as (b & win & Hb & Hrun & Hd & Hmin & Hfirst); [fold sv; lia|].
  fold sv in Hrun, Hd, Hmin, Hfirst.
  exists b, win. rewrite Hrun. cbn [bind snd].
  split; [lia|]. split; [reflexivity|]. split; [exact Hd|].
  split; [|exact Hfirst].
  intros j Hj. apply Hmin. lia.
Qed.

(** ** Contiguous runs are the slices the loop visits *)

Lemma contiguous_run_window_at (sv : list PriceRecord) (W i : Z)
    (run : list PriceRecord) :
  contiguous_run sv W i run -> window_at sv W i = run.
Proof.
  intros (l1 & l2 & -> & <- & <-). unfold window_at.
  rewrite py_slice_run.
  - unfold len. rewrite !Nat2Z.id.
    rewrite skipn_app, skipn_all, Nat.sub_diag. simpl.
    rewrite firstn_app, firstn_all, Nat.sub_diag. simpl.
    apply app_nil_r.
  - apply len_nonneg.
  - apply len_nonneg.
  - unfold len. rewrite !length_app. lia.
Qed.

Lemma contiguous_run_offset (sv : list PriceRecord) (W i : Z)
    (run : list PriceRecord) :
  contiguous_run sv W i run -> (0 <= i <= len sv - W)%Z.
Proof.
  intros (l1 & l2 & -> & <- & <-). unfold len. rewrite !length_app. lia.
Qed.

Lemma window_at_contiguous_run (sv : list PriceRecord) (W i : Z) :
  (0 <= W)%Z -> (0 <= i <= len sv - W)%Z ->
  contiguous_run sv W i (window_at sv W i).
Proof.
  intros HW Hi. unfold window_at. rewrite py_slice_run by lia.
  exists (firstn (Z.to_nat i) sv),
    (skipn (Z.to_nat W) (skipn (Z.to_nat i) sv)).
  rewrite !firstn_skipn. split; [reflexivity|].
  unfold len in *. rewrite !length_firstn, length_skipn. lia.
Qed.

Lemma Qlt_cotrans (a b c : Q) : (a < c)%Q -> (a < b)%Q \/ (b < c)%Q.
Proof.
  intros H. destruct (Qlt_le_dec a b) as [Hab|Hba]; [now left|right].
  eapply Qle_lt_trans; eauto.
Qed.

Lemma cheapest_window_run (data : list PriceRecord) (W : Z) :
  (1 <= W)%Z -> (W <= len (valid_records data))%Z ->
  exists i win,
    find_cheapest_time_window data W = Ret (Found W win)
    /\ contiguous_run (sorted_valid data) W i (records win)
    /\ describes win (records win)
    /\ (forall j run, contiguous_run (sorted_valid data) W j run ->
          (window_average (records win) <= window_average run)%Q)
    /\ (forall j run, contiguous_run (sorted_valid data) W j run ->
          (j < i)%Z ->
          (window_average (records win) < window_average run)%Q).
Proof.
  intros HW Hn.
  destruct (@find_time_window_run fin_lt_ext PosInf Qlt data W)
    as (i & win & Hi & Hrun & Hd & Hbest & Hfirst); auto.
  - intros a b. apply Qltb_lt.
  - intros a. apply Qlt_irrefl.
  - intros a b c. apply Qlt_trans.
  - intros a b c. apply Qlt_cotrans.
  - assert (Hrec : records win = window_at (sorted_valid data) W i)
      by apply Hd.
    exists i, win. rewrite Hrec.
    split; [exact Hrun|].
    split; [apply window_at_contiguous_run; lia|].
    split; [exact Hd|].
    split.
    + intros j run Hj. rewrite <- (contiguous_run_window_at Hj).
      apply Qnot_lt_le, Hbest. eapply contiguous_run_offset; eauto.
    + intros j run Hj Hlt. rewrite <- (contiguous_run_window_at Hj).
      apply Hfirst. pose proof (contiguous_run_offset Hj). lia.
Qed.

Lemma most_expensive_window_run (data : list PriceRecord) (W : Z) :
  (1 <= W)%Z -> (W <= len (valid_records data))%Z ->
  exists i win,
    find_most_expensive_time_window data W = Ret (Found W win)
    /\ contiguous_run (sorted_valid data) W i (records win)
    /\ describes win (records win)
    /\ (forall j run, contiguous_run (sorted_valid data) W j run ->
          (window_average run <= window_average (records win))%Q)
    /\ (forall j run, contiguous_run (sorted_valid data) W j run ->
          (j < i)%Z ->
          (window_average run < window_average (records win))%Q).
Proof.
  intros HW Hn.
  destruct (@find_time_window_run fin_gt_ext NegInf (fun a b => Qlt b a)
              data W)
    as (i & win & Hi & Hrun & Hd & Hbest & Hfirst); auto.
  - intros a b. apply Qltb_lt.
  - intros a. apply Qlt_irrefl.
  - intros a b c H1 H2. eapply Qlt_trans; eauto.
  - intros a b c H. destruct (Qlt_cotrans b H); auto.
  - assert (Hrec : records win = window_at (sorted_valid data) W i)
      by apply Hd.
    exists i, win. rewrite Hrec.
    split; [exact Hrun|].
    split; [apply window_at_contiguous_run; lia|].
    split; [exact Hd|].
    split.
    + intros j run Hj. rewrite <- (contiguous_run_window_at Hj).
      apply Qnot_lt_le, Hbest. eapply contiguous_run_offset; eauto.
    + intros j run Hj Hlt. rewrite <- (contiguous_run_window_at Hj).
      apply Hfirst. pose proof (contiguous_run_offset Hj). lia.
Qed.

(** ** Insufficient data *)

Lemma py_for_raises {S X : Type} (body : S -> X -> py S) (e0 : exn)
    (xs : list X) (x : X) :
  In x xs ->
  (forall s, body s x = Raise e0) ->
  (forall s y e, In y xs -> body s y = Raise e -> e = e0) ->
  forall s, py_for xs body s = Raise e0.
Proof.
  induction xs as [|y ys IH]; intros Hin Hx Honly s; [destruct Hin|].
  cbn [py_for]. destruct (body s y) as [s'|e] eqn:E; cbn [bind].
  - destruct Hin as [->|Hin]; [rewrite Hx in E; discriminate|].
    apply IH; auto. intros s0 z e Hz. apply Honly. now right.
  - f_equal. eapply Honly; [now left|exact E].
Qed.

Lemma py_slice_past_end {A : Type} (l : list A) (j : Z) :
  py_slice l (len l) j = [].
Proof.
  unfold py_slice, slice_index. pose proof (len_nonneg l) as Hl.
  destruct (Z.ltb_spec (len l) 0); [lia|].
  rewrite Z.min_id. unfold len. rewrite Nat2Z.id, skipn_all.
  apply firstn_nil.
Qed.

Lemma window_step_past_end (better : Q -> ext -> bool)
    (sv : list PriceRecord) (W : Z) (st : ext * option Window) :
  window_step better sv W st (len sv) = Raise ZeroDivisionError.
Proof. unfold window_step. rewrite py_slice_past_end. reflexivity. Qed.

Lemma window_step_raise_kind (better : Q -> ext -> bool)
    (sv : list PriceRecord) (W : Z) (st : ext * option Window) (i : Z)
    (e : exn) :
  Forall valid sv ->
  window_step better sv W st i = Raise e -> e = ZeroDivisionError.
Proof.
  intros Hv. unfold window_step.
  set (w := py_slice sv i (i + W)).
  rewrite (py_map_get_price (l := w)) by (apply Forall_py_slice; assumption).
  cbn [bind]. unfold py_div. rewrite len_map.
  destruct (Z.eqb_spec (len w) 0) as [E|NE]; cbn [bind].
  - now intros [= <-].
  - assert (Hne : w <> []).
    { intros E. rewrite E in NE. now apply NE. }
    assert (Hpne : map price_value w <> []).
    { intro E. apply Hne. now apply map_eq_nil in E. }
    destruct (py_first_cons Hne) as [r1 E1].
    destruct (py_last_cons Hne) as [r2 E2].
    destruct (py_min_cons Hpne) as [lo Elo].
    destruct (py_max_cons Hpne) as [hi Ehi].
    rewrite E1, E2, Elo, Ehi. cbn [bind].
    destruct (better _ (fst st)); discriminate.
Qed.

(** A window length below [1] is not rejected: on a non-empty series the
    loop reaches an empty slice and the division by its length raises. *)
Lemma nonpositive_window_raises (better : Q -> ext -> bool) (initial : ext)
    (data : list PriceRecord) (W : Z) :
  data <> [] -> (W < 1)%Z ->
  find_time_window better initial data W = Raise ZeroDivisionError.
Proof.
  intros Hd HW. unfold find_time_window.
  rewrite nonempty_match by assumption.
  pose proof (len_nonneg data) as Hl0.
  pose proof (len_nonneg (valid_records data)) as Hl1.
  assert (Hpos : (1 <= len data)%Z).
  { destruct data; [congruence|]. unfold len. simpl. lia. }
  destruct (Z.ltb_spec (len data) W); [lia|].
  destruct (Z.ltb_spec (len (valid_records data)) W); [lia|].
  rewrite (sort_by_deliveryStart_valid (valid_records_Forall data)).
  fold (sorted_valid data).
  pose proof (len_nonneg (sorted_valid data)) as Hl2.
  rewrite py_for_raises with (e0 := ZeroDivisionError)
                             (x := len (sorted_valid data)).
  - reflexivity.
  - apply In_py_range. lia.
  - intros s. apply window_step_past_end.
  - intros s y e _. apply window_step_raise_kind, sorted_valid_Forall.
Qed.

(** C3, as stated, fails for [window_hours < 1]: on a one-record series a
    window length of [0] makes both searches divide by the length of an
    empty slice. *)
Lemma zero_window_raises :
  find_cheapest_time_window [sample_record 0 10] 0
    = Raise ZeroDivisionError
  /\ find_most_expensive_time_window [sample_record 0 10] 0
    = Raise ZeroDivisionError
  /\ ~ (exists m,
          find_cheapest_time_window
            [sample_record 0 10] 0 = Ret (NotFound m)).
Proof.
  split; [reflexivity|]. split; [reflexivity|].
  intros (m & H). vm_compute in H. discriminate H.
Qed.

(** C3 (amended).  On the empty series, whatever the window length, and on
    a series with fewer than [window_hours] valid records after filtering
    (which forces [window_hours >= 1]), both searches return a result with
    [found = false] and a "Not enough data" message; they do not raise. *)
Theorem insufficient_data_not_found (data : list PriceRecord) (W : Z) :
  data = [] \/ (len (valid_records data) < W)%Z ->
  exists m,
    (m = NotEnoughData W \/ m = NotEnoughValidData W)
    /\ find_cheapest_time_window data W = Ret (NotFound m)
    /\ find_most_expensive_time_window data W = Ret (NotFound m)
    /\ found (NotFound m) = false.
Proof.
  unfold find_cheapest_time_window, find_most_expensive_time_window,
    find_time_window.
  intros [-> | Hn].
  - exists (NotEnoughData W). auto.
  - destruct data as [|r data']; [exists (NotEnoughData W); auto|].
    destruct (Z.ltb_spec (len (r :: data')) W).
    + exists (NotEnoughData W). auto.
    + destruct (Z.ltb_spec (len (valid_records (r :: data'))) W); [|lia].
      exists (NotEnoughValidData W). auto.
Qed.

Lemma insufficient_data_not_found_witness :
  exists m, find_cheapest_time_window sample_day 6 = Ret (NotFound m).
Proof.
  assert (H : sample_day = [] \/ (len (valid_records sample_day) < 6)%Z)
    by (right; apply Z.ltb_lt; reflexivity).
  destruct (insufficient_data_not_found H) as (m & _ & Hm & _).
  exists m. exact Hm.
Defined.

(** ** Enumerating and ranking windows *)

Lemma py_map_pure {X Y : Type} (f : X -> py Y) (g : X -> Y) (xs : list X) :
  (forall x, In x xs -> f x = Ret (g x)) -> py_map f xs = Ret (map g xs).
Proof.
  induction xs as [|x xs IH]; intros H; [reflexivity|].
  cbn [py_map map]. rewrite (H x) by now left.
  rewrite IH by (intros; apply H; now right). reflexivity.
Qed.

Lemma py_map_length {X Y : Type} (f : X -> py Y) (xs : list X) (ys : list Y) :
  py_map f xs = Ret ys -> length ys = length xs.
Proof.
  revert ys. induction xs as [|x xs IH]; intros ys H; cbn [py_map] in H.
  - now inversion H.
  - destruct (f x); [|discriminate]. cbn [bind] in H.
    destruct (py_map f xs) as [zs|]; [|discriminate]. cbn [bind] in H.
    inversion H; subst. simpl. now rewrite (IH zs).
Qed.

Lemma ranked_window_at_run (sv : list PriceRecord) (W i : Z) :
  Forall valid sv -> (1 <= W)%Z -> (0 <= i)%Z -> (i + W <= len sv)%Z ->
  ranked_window_at sv W i = Ret (ranked_window (window_at sv W i)).
Proof.
  intros Hv HW Hi Hn. unfold ranked_window_at, ranked_window.
  fold (window_at sv W i). set (w := window_at sv W i).
  assert (Hlen : len w = W) by (apply window_at_len; assumption).
  assert (Hne : w <> []) by (apply len_pos_nonempty; lia).
  rewrite (py_map_get_price (l := w)) by (apply Forall_py_slice; assumption).
  cbn [bind]. unfold py_div. rewrite len_map. rewrite Hlen.
  destruct (Z.eqb_spec W 0); [lia|]. cbn [bind].
  unfold window_average, first_start, last_end, py_first, py_last.
  rewrite Hlen. destruct w as [|r w']; [congruence|].
  destruct (rev (r :: w')) eqn:E; [|reflexivity].
  apply (f_equal (@rev PriceRecord)) in E. rewrite rev_involutive in E.
  discriminate E.
Qed.

Lemma enumerate_windows_run (sv : list PriceRecord) (W : Z) :
  Forall valid sv -> (1 <= W)%Z ->
  enumerate_windows sv W = Ret (candidate_windows sv W).
Proof.
  intros Hv HW. unfold enumerate_windows, candidate_windows.
  apply py_map_pure. intros i Hi. apply In_py_range in Hi.
  apply ranked_window_at_run; try assumption; lia.
Qed.

Lemma find_multiple_windows_run
    (before : RankedWindow -> RankedWindow -> bool)
    (data : list PriceRecord) (W k : Z) :
  (1 <= W)%Z -> (W <= len (valid_records data))%Z ->
  find_multiple_windows before data W k =
  Ret (py_prefix
         (stable_sort before (candidate_windows (sorted_valid data) W)) k).
Proof.
  intros HW Hn. pose proof (len_valid_records_le data) as Hle.
  unfold find_multiple_windows.
  rewrite nonempty_match by (apply len_pos_nonempty; lia).
  destruct (Z.ltb_spec (len data) W); [lia|].
  destruct (Z.ltb_spec (len (valid_records data)) W); [lia|].
  rewrite (sort_by_deliveryStart_valid (valid_records_Forall data)).
  fold (sorted_valid data).
  rewrite enumerate_windows_run by (assumption || apply sorted_valid_Forall).
  reflexivity.
Qed.

Lemma find_multiple_windows_short
    (before : RankedWindow -> RankedWindow -> bool)
    (data : list PriceRecord) (W k : Z) :
  data = [] \/ (len (valid_records data) < W)%Z ->
  find_multiple_windows before data W k = Ret [].
Proof.
  unfold find_multiple_windows. intros [-> | Hn]; [reflexivity|].
  destruct data as [|r data']; [reflexivity|].
  destruct (Z.ltb_spec (len (r :: data')) W); [reflexivity|].
  destruct (Z.ltb_spec (len (valid_records (r :: data'))) W);
    [reflexivity|lia].
Qed.

Lemma py_prefix_nonneg {A : Type} (l : list A) (k : Z) :
  (0 <= k)%Z -> py_prefix l k = firstn (Z.to_nat k) l.
Proof.
  intros Hk. unfold py_prefix, py_slice, slice_index.
  pose proof (len_nonneg l) as Hl.
  destruct (Z.ltb_spec 0 0); [lia|]. destruct (Z.ltb_spec k 0); [lia|].
  rewrite (Z.min_l 0) by lia. simpl skipn. rewrite Z.sub_0_r.
  destruct (Z.le_ge_cases k (len l)).
  - now rewrite Z.min_l by lia.
  - rewrite Z.min_r by lia. unfold len in *.
    rewrite !firstn_all2 by lia. reflexivity.
Qed.

Lemma py_prefix_negative {A : Type} (l : list A) (k : Z) :
  (k < 0)%Z -> py_prefix l k = firstn (Z.to_nat (len l + k)) l.
Proof.
  intros Hk. unfold py_prefix, py_slice, slice_index.
  pose proof (len_nonneg l) as Hl.
  destruct (Z.ltb_spec 0 0); [lia|]. destruct (Z.ltb_spec k 0); [|lia].
  rewrite (Z.min_l 0) by lia. simpl skipn. f_equal. lia.
Qed.

Lemma py_prefix_succ {A : Type} (l : list A) (k : Z) :
  (0 <= k)%Z ->
  py_prefix l k = firstn (Z.to_nat (Z.min k (len l))) (py_prefix l (k + 1)).
Proof.
  intros Hk. rewrite !py_prefix_nonneg by lia.
  rewrite firstn_firstn.
  pose proof (len_nonneg l) as Hl.
  destruct (Z.le_ge_cases k (len l)).
  - rewrite Z.min_l by lia. f_equal. lia.
  - rewrite Z.min_r by lia. unfold len in *.
    rewrite !firstn_all2 by lia. reflexivity.
Qed.

Lemma prefix_property
    (before : RankedWindow -> RankedWindow -> bool)
    (data : list PriceRecord) (W k : Z) :
  (0 <= k)%Z ->
  match find_multiple_windows before data W (k + 1) with
  | Ret more =>
    find_multiple_windows before data W k
    = Ret (firstn (Z.to_nat (Z.min k (number_of_windows data W))) more)
  | Raise e => find_multiple_windows before data W k = Raise e
  end.
Proof.
  intros Hk. unfold find_multiple_windows.
  destruct data as [|r data']; [now rewrite firstn_nil|].
  set (data := r :: data').
  destruct (Z.ltb_spec (len data) W); [now rewrite firstn_nil|].
  destruct (Z.ltb_spec (len (valid_records data)) W);
    [now rewrite firstn_nil|].
  destruct (sort_by_deliveryStart (valid_records data)) as [sv|] eqn:Es;
    [|now rewrite firstn_nil].
  assert (Hsv : len sv = len (valid_records data)).
  { unfold sort_by_deliveryStart in Es.
    destruct (forallb _ _); inversion Es. apply len_stable_sort. }
  destruct (enumerate_windows sv W) as [ws|e] eqn:Ew; [|reflexivity].
  cbn [bind]. f_equal.
  rewrite py_prefix_succ by assumption. do 2 f_equal.
  rewrite len_stable_sort. unfold number_of_windows.
  apply py_map_length in Ew. unfold len at 1. rewrite Ew.
  unfold py_range. rewrite length_map, length_seq, Hsv. lia.
Qed.

(** ** The top-K rankers *)


(** C4, as stated, fails for [k < 0]: the slice [windows[:count]] then drops
    the last [|k|] windows instead of all of them; and with a window length
    of [0] the enumeration raises before [count] is looked at. *)
Lemma negative_count_keeps_windows :
  (exists w1 w2 w3,
     find_multiple_cheap_windows sample_day 2 (-1) = Ret [w1; w2; w3])
  /\ (exists w1 w2 w3,
     find_multiple_expensive_windows sample_day 2 (-1) = Ret [w1; w2; w3])
  /\ find_multiple_cheap_windows sample_day 0 0 = Raise ZeroDivisionError.
Proof.
  split; [|split].
  - do 3 eexists. vm_compute. reflexivity.
  - do 3 eexists. vm_compute. reflexivity.
  - reflexivity.
Qed.

(** For a negative [count] the slice [windows[:count]] keeps the ranking
    without its last [|count|] windows. *)
Lemma negative_count_drops_tail
    (before : RankedWindow -> RankedWindow -> bool)
    (data : list PriceRecord) (W k : Z) :
  (1 <= W)%Z -> (W <= len (valid_records data))%Z -> (k < 0)%Z ->
  find_multiple_windows before data W k
  = Ret (firstn (Z.to_nat (number_of_windows data W + k))
           (stable_sort before (candidate_windows (sorted_valid data) W))).
Proof.
  intros HW Hn Hk. rewrite find_multiple_windows_run by assumption.
  rewrite py_prefix_negative by assumption.
  rewrite len_stable_sort.
  assert (E : len (candidate_windows (sorted_valid data) W)
              = number_of_windows data W).
  { unfold candidate_windows, number_of_windows, len at 1, py_range.
    rewrite !length_map, length_seq, len_sorted_valid. lia. }
  now rewrite E.
Qed.

(** C4 (amended).  For a window length [W >= 1] and [k = 0] both rankers
    return the empty list, and for any [k] they return the empty list, not
    an error, when the series is empty or has fewer than [W] valid
    records. *)
Theorem top_k_empty_results (data : list PriceRecord) (W k : Z) :
  ((1 <= W)%Z ->
     find_multiple_cheap_windows data W 0 = Ret []
     /\ find_multiple_expensive_windows data W 0 = Ret [])
  /\ (data = [] \/ (len (valid_records data) < W)%Z ->
     find_multiple_cheap_windows data W k = Ret []
     /\ find_multiple_expensive_windows data W k = Ret []).
Proof.
  unfold find_multiple_cheap_windows, find_multiple_expensive_windows.
  split.
  - intros HW. destruct (Z.le_gt_cases W (len (valid_records data))).
    + rewrite !find_multiple_windows_run by assumption.
      rewrite !py_prefix_nonneg by lia. auto.
    + rewrite !find_multiple_windows_short by (right; lia). auto.
  - intros H. rewrite !find_multiple_windows_short by assumption. auto.
Qed.

Lemma top_k_empty_results_witness :
  find_multiple_cheap_windows sample_day 2 0 = Ret []
  /\ find_multiple_expensive_windows sample_day 6 3 = Ret [].
Proof.
  assert (H1 : (1 <= 2)%Z) by lia.
  assert (H2 : sample_day = [] \/ (len (valid_records sample_day) < 6)%Z)
    by (right; apply Z.ltb_lt; reflexivity).
  split.
  - exact (proj1 (proj1 (top_k_empty_results sample_day 2 0) H1)).
  - exact (proj2 (proj2 (top_k_empty_results sample_day 6 3) H2)).
Defined.





(** ** Which records take part in windowing *)

(** C5, as stated, fails: a record with a price and both delivery bounds
    is still excluded when its [deliveryDayCET] is missing. *)
Lemma undated_record_is_excluded :
  price undated_record <> None
  /\ deliveryStart undated_record <> None
  /\ deliveryEnd undated_record <> None
  /\ ~ In undated_record (sorted_valid [undated_record])
  /\ find_cheapest_time_window [undated_record] 1
     = Ret (NotFound (NotEnoughValidData 1)).
Proof.
  repeat split; try discriminate.
  intros H. exact H.
Qed.

Lemma In_window_at (sv : list PriceRecord) (W : Z) (r : PriceRecord) :
  (1 <= W)%Z -> (W <= len sv)%Z -> In r sv ->
  exists i, (0 <= i <= len sv - W)%Z /\ In r (window_at sv W i).
Proof.
  intros HW Hn Hr. apply In_nth_error in Hr. destruct Hr as (p & Hp).
  assert (Hlt : (p < length sv)%nat).
  { apply nth_error_Some. congruence. }
  unfold len in *.
  set (i := Z.min (Z.of_nat p) (Z.of_nat (length sv) - W)).
  exists i. split; [lia|].
  unfold window_at. rewrite py_slice_run by (unfold len; lia).
  apply nth_error_In with (n := (p - Z.to_nat i)%nat).
  rewrite nth_error_firstn, nth_error_skipn.
  replace (Z.to_nat i + (p - Z.to_nat i))%nat with p by lia.
  destruct (Nat.ltb_spec (p - Z.to_nat i) (Z.to_nat W)); [exact Hp|lia].
Qed.

(** C5 (amended).  A record of the input takes part in windowing exactly
    when none of [price], [deliveryStart], [deliveryEnd], [deliveryDayCET],
    [HourStartCET] and [HourEndCET] is missing: those records, and no
    others, make up the sorted sequence, and each of them lies in one of
    the windows the search slides over. *)
Theorem windowing_keeps_complete_records (data : list PriceRecord)
    (r : PriceRecord) :
  (In r (sorted_valid data) <->
   In r data
   /\ price r <> None /\ deliveryStart r <> None /\ deliveryEnd r <> None
   /\ deliveryDayCET r <> None /\ HourStartCET r <> None
   /\ HourEndCET r <> None)
  /\ (forall W,
        (1 <= W)%Z -> (W <= len (valid_records data))%Z ->
        In r (sorted_valid data) ->
        exists i,
          (0 <= i <= len (sorted_valid data) - W)%Z
          /\ In r (window_at (sorted_valid data) W i)).
Proof.
  split.
  - rewrite <- valid_fields. unfold sorted_valid, valid_records, valid.
    rewrite <- filter_In. split; apply Permutation_in.
    + apply stable_sort_perm.
    + symmetry. apply stable_sort_perm.
  - intros W HW Hn Hr. apply In_window_at; try assumption.
    now rewrite len_sorted_valid.
Qed.

Lemma windowing_keeps_complete_records_witness :
  exists i, In (sample_record 4 20)
              (window_at (sorted_valid sample_day) 2 i).
Proof.
  assert (H1 : (1 <= 2)%Z) by lia.
  assert (H2 : (2 <= len (valid_records sample_day))%Z)
    by (apply Z.leb_le; reflexivity).
  assert (H3 : In (sample_record 4 20)
                 (sorted_valid sample_day))
    by (vm_compute; tauto).
  destruct (proj2 (windowing_keeps_complete_records sample_day
                     (sample_record 4 20))
              2%Z H1 H2 H3) as (i & _ & Hi).
  exists i. exact Hi.
Defined.

(** ** [calculate_price_statistics] *)

Lemma fold_min_spec (xs : list Q) (x : Q) :
  let m := fold_left (fun m y => if Qltb y m then y else m) xs x in
  In m (x :: xs) /\ forall y, In y (x :: xs) -> (m <= y)%Q.
Proof.
  revert x. induction xs as [|z xs IH]; intros x; simpl.
  - split; [now left|]. intros y [<-|[]]. apply Qle_refl.
  - destruct (Qltb z x) eqn:E.
    + apply Qltb_lt in E. destruct (IH z) as [Hin Hle]. split.
      * right. exact Hin.
      * intros y [<-|Hy]; [|now apply Hle].
        eapply Qle_trans; [apply Hle; now left|]. now apply Qlt_le_weak.
    + apply Qltb_ge in E. destruct (IH x) as [Hin Hle]. split.
      * destruct Hin as [<-|Hin]; [now left|right; now right].
      * intros y [<-|[<-|Hy]].
        -- apply Hle. now left.
        -- eapply Qle_trans; [apply Hle; now left|exact E].
        -- apply Hle. now right.
Qed.

Lemma fold_max_spec (xs : list Q) (x : Q) :
  let m := fold_left (fun m y => if Qltb m y then y else m) xs x in
  In m (x :: xs) /\ forall y, In y (x :: xs) -> (y <= m)%Q.
Proof.
  revert x. induction xs as [|z xs IH]; intros x; simpl.
  - split; [now left|]. intros y [<-|[]]. apply Qle_refl.
  - destruct (Qltb x z) eqn:E.
    + apply Qltb_lt in E. destruct (IH z) as [Hin Hle]. split.
      * right. exact Hin.
      * intros y [<-|Hy]; [|now apply Hle].
        eapply Qle_trans; [apply Qlt_le_weak; exact E|apply Hle; now left].
    + apply Qltb_ge in E. destruct (IH x) as [Hin Hle]. split.
      * destruct Hin as [<-|Hin]; [now left|right; now right].
      * intros y [<-|[<-|Hy]].
        -- apply Hle. now left.
        -- eapply Qle_trans; [exact E|apply Hle; now left].
        -- apply Hle. now right.
Qed.

Lemma py_min_spec (xs : list Q) :
  xs <> [] ->
  exists m, py_min xs = Ret m /\ In m xs /\ forall y, In y xs -> (m <= y)%Q.
Proof.
  destruct xs as [|x xs]; [congruence|]. intros _.
  eexists. split; [reflexivity|]. apply fold_min_spec.
Qed.

Lemma py_max_spec (xs : list Q) :
  xs <> [] ->
  exists m, py_max xs = Ret m /\ In m xs /\ forall y, In y xs -> (y <= m)%Q.
Proof.
  destruct xs as [|x xs]; [congruence|]. intros _.
  eexists. split; [reflexivity|]. apply fold_max_spec.
Qed.

Lemma py_map_get_price_known (data : list PriceRecord) :
  py_map get_price (filter (fun record => is_some (price record)) data)
  = Ret (known_prices data).
Proof.
  induction data as [|r data IH]; [reflexivity|].
  unfold known_prices. cbn [filter flat_map]. fold (known_prices data).
  destruct (price r) as [p|] eqn:E; cbn [is_some]; [|exact IH].
  cbn [py_map]. rewrite IH. unfold get_price. rewrite E. reflexivity.
Qed.

Lemma len_filter_known (data : list PriceRecord) :
  len (filter (fun record => is_some (price record)) data)
  = len (known_prices data).
Proof.
  unfold len. f_equal.
  induction data as [|r data IH]; [reflexivity|].
  simpl. destruct (price r); simpl; lia.
Qed.

Lemma In_known_prices (data : list PriceRecord) (p : Q) :
  In p (known_prices data) <-> exists r, In r data /\ price r = Some p.
Proof.
  unfold known_prices. rewrite in_flat_map. split.
  - intros (r & Hr & Hp). exists r. split; [assumption|].
    destruct (price r); [destruct Hp as [->|[]]; reflexivity|destruct Hp].
  - intros (r & Hr & Hp). exists r. split; [assumption|].
    rewrite Hp. now left.
Qed.

Lemma find_filter {A : Type} (p q : A -> bool) (l : list A) :
  (forall x, p x = true -> q x = true) ->
  find p (filter q l) = find p l.
Proof.
  intros H. induction l as [|x l IH]; [reflexivity|].
  simpl. destruct (q x) eqn:Q; simpl.
  - now rewrite IH.
  - destruct (p x) eqn:P; [|exact IH]. apply H in P. congruence.
Qed.

Lemma find_first {A : Type} (p : A -> bool) (l : list A) (r : A) :
  find p l = Some r ->
  exists l1 l2, l = l1 ++ r :: l2 /\ p r = true
                /\ forall x, In x l1 -> p x = false.
Proof.
  induction l as [|x l IH]; [discriminate|].
  simpl. destruct (p x) eqn:P.
  - intros [= ->]. exists [], l. repeat split; [assumption|intros ? []].
  - intros H. destruct (IH H) as (l1 & l2 & -> & Hr & Hl1).
    exists (x :: l1), l2. repeat split; [assumption|].
    intros y [<-|Hy]; auto.
Qed.

Lemma py_next_price (data : list PriceRecord) (m : Q) :
  In m (known_prices data) ->
  exists r,
    py_next (price_is m) (filter (fun record => is_some (price record)) data)
    = Ret r
    /\ first_with_price data m r.
Proof.
  intros Hm. unfold py_next. rewrite find_filter.
  - destruct (find (price_is m) data) as [r|] eqn:E.
    + exists r. split; [reflexivity|].
      destruct (find_first _ _ E) as (l1 & l2 & -> & Hr & Hl1).
      exists l1, l2. split; [reflexivity|]. split.
      * unfold price_is in Hr. destruct (price r) as [p|]; [|discriminate].
        exists p. split; [reflexivity|]. now apply Qeq_bool_iff.
      * intros x p Hx Hp Heq. apply Hl1 in Hx. unfold price_is in Hx.
        rewrite Hp in Hx. apply Qeq_bool_iff in Heq. congruence.
    + exfalso. apply In_known_prices in Hm. destruct Hm as (r & Hr & Hp).
      pose proof (find_none _ _ E r Hr) as Hf. unfold price_is in Hf.
      rewrite Hp in Hf.
      assert (Qeq_bool m m = true) by (apply Qeq_bool_iff; reflexivity).
      congruence.
  - intros x. unfold price_is. destruct (price x); [reflexivity|discriminate].
Qed.


(** ** The day partition *)

Lemma truthy_Some (s : string) : truthy (Some s) = true <-> s <> EmptyString.
Proof. destruct s; simpl; split; congruence. Qed.

Lemma add_timedelta_iff (reading delta loc : Z) :
  add_timedelta reading delta = Ret loc <->
  loc = (reading + delta)%Z /\ (datetime_min <= loc <= datetime_max)%Z.
Proof.
  unfold add_timedelta, in_datetime_range.
  destruct (Z.leb_spec datetime_min (reading + delta));
    destruct (Z.leb_spec (reading + delta) datetime_max); cbn [andb];
    split; intros H'; try discriminate; try (destruct H'; lia).
  - inversion H'; subst. lia.
  - destruct H' as [-> _]. reflexivity.
Qed.

(** [astimezone] is the conversion to the zone, defined exactly when the
    conversion stays within the range of [datetime]. *)
Lemma astimezone_iff (system_utcoffset tz : Z -> Z) (dt : datetime)
    (loc : Z) :
  astimezone system_utcoffset tz dt = Ret loc <->
  local_reading system_utcoffset tz dt loc.
Proof.
  unfold astimezone, utc_instant, local_reading. cbv zeta.
  set (offset := match utcoffset dt with
                 | Some off => off
                 | None => system_utcoffset (wall dt)
                 end).
  assert (E : match utcoffset dt with
              | Some off => add_timedelta (wall dt) (- off)
              | None => add_timedelta (wall dt) (- system_utcoffset (wall dt))
              end = add_timedelta (wall dt) (- offset))
    by (unfold offset; destruct (utcoffset dt); reflexivity).
  rewrite E. clear E. split.
  - destruct (add_timedelta (wall dt) (- offset)) as [utc|] eqn:U;
      cbn [bind]; [|discriminate].
    apply add_timedelta_iff in U. destruct U as [-> U].
    intros L. apply add_timedelta_iff in L. destruct L as [-> L].
    replace (wall dt + - offset)%Z with (wall dt - offset)%Z in * by lia.
    auto.
  - intros (U & -> & L).
    assert (U' : add_timedelta (wall dt) (- offset)
                 = Ret (wall dt - offset)%Z).
    { apply add_timedelta_iff. split; [lia | exact U]. }
    rewrite U'. cbn [bind]. apply add_timedelta_iff. auto.
Qed.

Lemma add_timedelta_raises (reading delta : Z) (e : exn) :
  add_timedelta reading delta = Raise e -> e = OverflowError.
Proof.
  unfold add_timedelta. destruct (in_datetime_range _); congruence.
Qed.

Lemma astimezone_raises (system_utcoffset tz : Z -> Z) (dt : datetime)
    (e : exn) :
  astimezone system_utcoffset tz dt = Raise e -> e = OverflowError.
Proof.
  unfold astimezone, utc_instant.
  destruct (utcoffset dt) as [off|].
  - destruct (add_timedelta (wall dt) (- off)) as [utc|e'] eqn:U;
      cbn [bind]; intros H.
    + now apply add_timedelta_raises in H.
    + inversion H; subst. now apply add_timedelta_raises in U.
  - destruct (add_timedelta (wall dt) (- system_utcoffset (wall dt)))
      as [utc|e'] eqn:U; cbn [bind]; intros H.
    + now apply add_timedelta_raises in H.
    + inversion H; subst. now apply add_timedelta_raises in U.
Qed.

Lemma delivery_local_in_zone (system_utcoffset tz : Z -> Z) (dt : datetime) :
  delivery_local (Zone tz) system_utcoffset dt
  = astimezone system_utcoffset tz dt.
Proof.
  unfold delivery_local, except_ImportError, try_except, ZoneInfo.
  cbn [bind].
  destruct (astimezone system_utcoffset tz dt) as [loc|e] eqn:E;
    [reflexivity|].
  apply astimezone_raises in E. now subst e.
Qed.

Lemma keeps_iff (fromisoformat : string -> py datetime)
    (zoneinfo : zoneinfo_module) (system_utcoffset : Z -> Z)
    (d : Z) (r : PriceRecord) :
  keeps fromisoformat zoneinfo system_utcoffset d r = true <->
  exists s dt loc,
    deliveryStart r = Some s /\ s <> EmptyString
    /\ parse_time fromisoformat s = Ret dt
    /\ delivery_local zoneinfo system_utcoffset dt = Ret loc
    /\ date_of loc = d.
Proof.
  unfold keeps, on_date. split.
  - destruct (deliveryStart r) as [s|] eqn:Es; [|simpl; discriminate].
    destruct (truthy (Some s)) eqn:T; [|discriminate].
    destruct (parse_time fromisoformat s) as [dt|] eqn:P; cbn [bind];
      [|discriminate].
    destruct (delivery_local zoneinfo system_utcoffset dt) as [loc|] eqn:L;
      cbn [bind]; [|discriminate].
    intros E. apply Z.eqb_eq in E. apply truthy_Some in T.
    exists s, dt, loc. auto.
  - intros (s & dt & loc & Es & Hs & Ep & El & Ed).
    rewrite Es, (proj2 (truthy_Some s) Hs), Ep. cbn [bind].
    rewrite El. cbn [bind]. apply Z.eqb_eq. exact Ed.
Qed.

Lemma filter_subseq {A : Type} (p : A -> bool) (l : list A) :
  subseq (filter p l) l.
Proof.
  induction l as [|x l IH]; simpl; [constructor|].
  destruct (p x); constructor; assumption.
Qed.

(** Membership in the sub-series of a date, in a zone that is found. *)
Lemma In_part_iff (fromisoformat : string -> py datetime)
    (tz system_utcoffset : Z -> Z) (data : list PriceRecord) (d : Z)
    (r : PriceRecord) :
  In r (_filter_data_by_date fromisoformat (Zone tz) system_utcoffset
          (Some data) d) <->
  In r data
  /\ exists loc,
       starts_at fromisoformat system_utcoffset tz r loc /\ date_of loc = d.
Proof.
  unfold _filter_data_by_date. rewrite filter_In, keeps_iff.
  unfold starts_at, parse_time. split.
  - intros (Hin & s & dt & loc & Es & Hs & Ep & El & Ed).
    rewrite delivery_local_in_zone in El. apply astimezone_iff in El.
    split; [assumption|]. exists loc. split; [|assumption].
    exists s, dt. auto.
  - intros (Hin & loc & (s & dt & Es & Hs & Ep & El) & Ed).
    split; [assumption|]. exists s, dt, loc.
    rewrite delivery_local_in_zone, astimezone_iff. auto.
Qed.

(** The claim as stated fails on a record whose hour starts within the
    last offset of the range of [datetime]: its [deliveryStart] is present
    and parses, but the conversion to the zone raises [OverflowError], the
    record is skipped, and no sub-series holds it. *)
Lemma out_of_range_start_is_in_no_part :
  In last_hour_record [last_hour_record]
  /\ (exists s dt,
        deliveryStart last_hour_record = Some s /\ s <> EmptyString
        /\ parse_time iso_parser s = Ret dt)
  /\ ~ (exists d,
          In last_hour_record
            (_filter_data_by_date iso_parser (Zone cest) utc_system
               (Some [last_hour_record]) d)).
Proof.
  split; [now left|]. split.
  - eexists. eexists. split; [reflexivity|]. split; [discriminate|].
    vm_compute. reflexivity.
  - intros (d & H). unfold _filter_data_by_date in H.
    apply filter_In in H. destruct H as [_ H].
    assert (E : on_date iso_parser (Zone cest) utc_system d last_hour_record
                = Raise OverflowError) by reflexivity.
    unfold keeps in H. rewrite E in H. discriminate H.
Qed.

(** C7 (amended).  In a fixed time zone the sub-series of two distinct
    calendar dates share no record; a record lies in the sub-series of the
    date [d] exactly when it is an input record whose [deliveryStart] is
    present, parses and converts, within the range of [datetime], to a
    local reading on the date [d]; so the records that land in some
    sub-series are exactly the input records whose [deliveryStart] is
    present, parseable and convertible; and each sub-series keeps the
    relative order of the input. *)
Theorem day_partition (fromisoformat : string -> py datetime)
    (tz system_utcoffset : Z -> Z) (data : list PriceRecord) :
  let part :=
    _filter_data_by_date fromisoformat (Zone tz) system_utcoffset
      (Some data) in
  (forall d1 d2 r, d1 <> d2 -> In r (part d1) -> ~ In r (part d2))
  /\ (forall d r,
        In r (part d) <->
        In r data
        /\ exists loc,
             starts_at fromisoformat system_utcoffset tz r loc
             /\ date_of loc = d)
  /\ (forall r,
        (exists d, In r (part d)) <->
        In r data
        /\ exists loc, starts_at fromisoformat system_utcoffset tz r loc)
  /\ (forall d, subseq (part d) data).
Proof.
  intros part. unfold part. split; [|split; [|split]].
  - intros d1 d2 r Hne H1 H2.
    apply In_part_iff in H1, H2.
    destruct H1 as (_ & loc1 & (s1 & dt1 & Es1 & _ & Ep1 & El1) & Ed1).
    destruct H2 as (_ & loc2 & (s2 & dt2 & Es2 & _ & Ep2 & El2) & Ed2).
    rewrite Es1 in Es2. inversion Es2; subst s2.
    rewrite Ep1 in Ep2. inversion Ep2; subst dt2.
    destruct El1 as (_ & E1 & _). destruct El2 as (_ & E2 & _).
    congruence.
  - intros d r. apply In_part_iff.
  - intros r. split.
    + intros (d & Hd). apply In_part_iff in Hd.
      destruct Hd as (Hin & loc & Hs & _). split; [assumption|].
      now exists loc.
    + intros (Hin & loc & Hs). exists (date_of loc). apply In_part_iff.
      split; [assumption|]. now exists loc.
  - intros d. unfold _filter_data_by_date. apply filter_subseq.
Qed.

(** ** The detectors *)

(** In a zone that is found, the local bounds are the two instants moved
    to that zone. *)
Lemma local_bounds_in_zone (tz system_utcoffset : Z -> Z)
    (start_dt end_dt : datetime) (start_local end_local : Z) :
  local_bounds (Zone tz) system_utcoffset start_dt end_dt
  = Ret (start_local, end_local) <->
  local_reading system_utcoffset tz start_dt start_local
  /\ local_reading system_utcoffset tz end_dt end_local.
Proof.
  rewrite <- !astimezone_iff.
  unfold local_bounds, except_ImportError, try_except, ZoneInfo.
  cbn [bind].
  destruct (astimezone system_utcoffset tz start_dt) as [sl|e1] eqn:E1;
    cbn [bind].
  2:{ apply astimezone_raises in E1. subst e1.
      split; [discriminate | intros [H _]; discriminate H]. }
  destruct (astimezone system_utcoffset tz end_dt) as [el|e2] eqn:E2;
    cbn [bind].
  2:{ apply astimezone_raises in E2. subst e2.
      split; [discriminate | intros [_ H]; discriminate H]. }
  split.
  - intros H. inversion H; subst. auto.
  - intros [H1 H2]. inversion H1; inversion H2; subst. reflexivity.
Qed.

(** The recompute returns in every environment. *)
Lemma detector_returns (fromisoformat : string -> py datetime)
    (zoneinfo : zoneinfo_module) (system_utcoffset : Z -> Z)
    (self : Detector) (window : py WindowResult) (now : Z) :
  exists state,
    _update_detector_state fromisoformat zoneinfo system_utcoffset
      self window now = Ret (mkDetector state).
Proof.
  unfold _update_detector_state.
  destruct window as [[m|W win]|e]; cbn [bind try_except];
    try (eexists; reflexivity).
  destruct (negb (truthy (start_time win)) || negb (truthy (end_time win)));
    [eexists; reflexivity|].
  destruct (start_time win) as [s|], (end_time win) as [e|];
    cbn [try_except]; try (eexists; reflexivity).
  destruct (parse_time fromisoformat s); cbn [bind try_except];
    [|eexists; reflexivity].
  destruct (parse_time fromisoformat e); cbn [bind try_except];
    [|eexists; reflexivity].
  destruct (local_bounds zoneinfo system_utcoffset a a0);
    cbn [bind try_except]; eexists; reflexivity.
Qed.

(** C2.  The recompute returns in every environment, never raising.  In a
    configured zone with offsets [tz] it leaves the detector active exactly
    when the window result was obtained with [found = true], both bounds
    are present (neither [None] nor empty) and parse, both convert to the
    zone, and [start_local <= now < end_local] for the converted bounds
    (so it is active at [now = start_local] and inactive at
    [now = end_local]); in every other case (no window found, a bound
    missing, any exception on the way) the detector is inactive. *)
Theorem detector_recompute (fromisoformat : string -> py datetime)
    (system_utcoffset : Z -> Z) (self : Detector)
    (window : py WindowResult) (now : Z) :
  (forall zoneinfo, exists state,
     _update_detector_state fromisoformat zoneinfo system_utcoffset
       self window now = Ret (mkDetector state))
  /\ (forall tz, exists state,
        _update_detector_state fromisoformat (Zone tz) system_utcoffset
          self window now = Ret (mkDetector state)
        /\ (state = true <->
            inside_window fromisoformat system_utcoffset tz window now)
        /\ (state = false <->
            ~ inside_window fromisoformat system_utcoffset tz window now)).
Proof.
  split; [intros zoneinfo; apply detector_returns|]. intros tz.
  assert (Hiff : forall b P, (b = true <-> P) -> (b = false <-> ~ P)).
  { intros b P H. destruct b; split; intros H'; try congruence.
    - exfalso. apply H'. now apply H.
    - intros HP. apply H in HP. congruence. }
  assert (Hoff : ~ inside_window fromisoformat system_utcoffset tz
                   window now ->
                 exists state, Ret (mkDetector false) = Ret (mkDetector state)
                   /\ (state = true <-> inside_window fromisoformat
                         system_utcoffset tz window now)
                   /\ (state = false <-> ~ inside_window fromisoformat
                         system_utcoffset tz window now)).
  { intros Hn. exists false. split; [reflexivity|].
    split; split; intros; try congruence; tauto. }
  unfold _update_detector_state.
  destruct window as [[m|W win]|e]; cbn [bind try_except].
  - apply Hoff. intros (? & ? & ? & ? & ? & ? & ? & ? & [=] & _).
  - destruct (start_time win) as [s|] eqn:Es; cycle 1.
    { apply Hoff.
      intros (? & ? & ? & ? & ? & ? & ? & ? & [= <- <-] & E & _). congruence. }
    destruct (end_time win) as [e|] eqn:Ee; cycle 1.
    { rewrite orb_true_r. apply Hoff.
      intros (? & ? & ? & ? & ? & ? & ? & ? & [= <- <-] & _ & _ & E & _).
      congruence. }
    destruct (truthy (Some s)) eqn:Ts; cycle 1.
    { apply Hoff.
      intros (? & ? & ? & ? & ? & ? & ? & ? & [= <- <-] & E & Hs & _).
      rewrite Es in E. inversion E; subst. apply truthy_Some in Hs.
      congruence. }
    destruct (truthy (Some e)) eqn:Te; cycle 1.
    { apply Hoff.
      intros (? & ? & ? & ? & ? & ? & ? & ? & [= <- <-] & _ & _ & E & He & _).
      rewrite Ee in E. inversion E; subst. apply truthy_Some in He.
      congruence. }
    apply truthy_Some in Ts, Te. cbn [negb orb]. unfold parse_time.
    destruct (fromisoformat (replace_Z s)) as [sd|] eqn:Ps;
      cbn [bind try_except]; cycle 1.
    { apply Hoff.
      intros (? & ? & ? & ? & ? & ? & ? & ? & [= <- <-] & E & _ & _ & _ & P & _).
      rewrite Es in E. inversion E; subst. congruence. }
    destruct (fromisoformat (replace_Z e)) as [ed|] eqn:Pe;
      cbn [bind try_except]; cycle 1.
    { apply Hoff.
      intros (? & ? & ? & ? & ? & ? & ? & ? & [= <- <-] & _ & _ & E & _ & _
              & P & _).
      rewrite Ee in E. inversion E; subst. congruence. }
    destruct (local_bounds (Zone tz) system_utcoffset sd ed) as [[sl el]|]
      eqn:Lb; cbn [bind try_except]; cycle 1.
    { apply Hoff.
      intros (? & ? & ? & ? & ? & ? & sl & el & [= <- <-] & E1 & _ & E2 & _
              & P1 & P2 & L1 & L2 & _).
      rewrite Es in E1. inversion E1; subst.
      rewrite Ee in E2. inversion E2; subst.
      rewrite Ps in P1. inversion P1; subst.
      rewrite Pe in P2. inversion P2; subst.
      assert (L : local_bounds (Zone tz) system_utcoffset x3 x4
                  = Ret (sl, el)) by (apply local_bounds_in_zone; auto).
      congruence. }
    exists ((sl <=? now)%Z && (now <? el)%Z). split; [reflexivity|].
    apply local_bounds_in_zone in Lb. destruct Lb as [Ls Le].
    assert (Hon : ((sl <=? now)%Z && (now <? el)%Z = true <->
                   inside_window fromisoformat system_utcoffset tz
                     (Ret (Found W win)) now)).
    { rewrite andb_true_iff, Z.leb_le, Z.ltb_lt. split.
      - intros H. exists W, win, s, e, sd, ed, sl, el.
        split; [reflexivity|]. tauto.
      - intros (? & ? & ? & ? & ? & ? & ? & ? & [= <- <-] & E1 & _ & E2 & _
                & P1 & P2 & L1 & L2 & H).
        rewrite Es in E1. inversion E1; subst.
        rewrite Ee in E2. inversion E2; subst.
        rewrite Ps in P1. inversion P1; subst.
        rewrite Pe in P2. inversion P2; subst.
        destruct Ls as (_ & -> & _), Le as (_ & -> & _).
        destruct L1 as (_ & -> & _), L2 as (_ & -> & _). exact H. }
    split; [exact Hon|apply Hiff, Hon].
  - apply Hoff. intros (? & ? & ? & ? & ? & ? & ? & ? & [=] & _).
Qed.

(** The scenario of the specification: a window from 10:00 to 15:00 local
    time is active at 10:00, 12:00 and 14:59, and inactive at 09:59, 15:00
    and 15:01. *)
Example detector_scenario :
  map (fun now =>
         _update_detector_state iso_parser (Zone cest) utc_system
           (mkDetector false) (Ret afternoon_window) now)
    [clock 10 0; clock 12 0; clock 14 59; clock 9 59; clock 15 0; clock 15 1]
  = map (fun b => Ret (mkDetector b))
      [true; true; true; false; false; false].
Proof. vm_compute. reflexivity. Qed.

(** The scenarios of the specification for the window search. *)
Example search_scenario :
  (exists win,
     find_cheapest_time_window sample_day 2 = Ret (Found 2 win)
     /\ start_time win = Some "2024-06-01T02:00:00Z"%string
     /\ end_time win = Some "2024-06-01T04:00:00Z"%string
     /\ (avg_price win == 2)%Q)
  /\ (exists win,
     find_most_expensive_time_window sample_day 2 = Ret (Found 2 win)
     /\ start_time win = Some "2024-06-01T03:00:00Z"%string
     /\ end_time win = Some "2024-06-01T05:00:00Z"%string
     /\ (avg_price win == 11)%Q).
Proof.
  split; eexists; (split; [vm_compute; reflexivity|]);
    repeat split; reflexivity.
Qed.

(** The reason strings of the insufficient-data results. *)
Example message_scenario :
  message_text (NotEnoughData 6) = "Not enough data for 6-hour window"%string
  /\ message_text (NotEnoughValidData 24)
     = "Not enough valid data for 24-hour window"%string.
Proof. split; reflexivity. Qed.

(** From the series to the detector: on the sample day, seen from CEST,
    the cheapest two-hour window runs from 04:00 to 06:00 local time. *)
Example detector_on_sample_day :
  let window :=
    _get_window_today iso_parser (Zone cest) utc_system
      find_cheapest_time_window (Some sample_day) 19875 2 in
  let state_at now :=
    _update_detector_state iso_parser (Zone cest) utc_system
      (mkDetector false) window now in
  map state_at [clock 3 59; clock 4 0; clock 5 59; clock 6 0]
  = map (fun b => Ret (mkDetector b)) [false; true; true; false].
Proof. vm_compute. reflexivity. Qed.

(** * Further properties of the embedded code *)

(** ** Sums and means *)

Lemma inject_Z_len_cons {A : Type} (x : A) (l : list A) :
  (inject_Z (len (x :: l)) == inject_Z (len l) + 1)%Q.
Proof.
  unfold len. simpl length. rewrite Nat2Z.inj_succ, <- Z.add_1_r.
  now rewrite inject_Z_plus.
Qed.

Lemma fold_sum_lower (lo : Q) (xs : list Q) (a : Q) :
  (forall x, In x xs -> (lo <= x)%Q) ->
  (a + lo * inject_Z (len xs) <= fold_left Qplus xs a)%Q.
Proof.
  revert a. induction xs as [|x xs IH]; intros a H.
  - cbn [fold_left]. change (inject_Z (len (@nil Q))) with 0%Q. lra.
  - simpl fold_left. rewrite inject_Z_len_cons.
    eapply Qle_trans; [|apply IH; intros y Hy; apply H; now right].
    assert (lo <= x)%Q by (apply H; now left). lra.
Qed.

Lemma fold_sum_upper (hi : Q) (xs : list Q) (a : Q) :
  (forall x, In x xs -> (x <= hi)%Q) ->
  (fold_left Qplus xs a <= a + hi * inject_Z (len xs))%Q.
Proof.
  revert a. induction xs as [|x xs IH]; intros a H.
  - cbn [fold_left]. change (inject_Z (len (@nil Q))) with 0%Q. lra.
  - simpl fold_left. rewrite inject_Z_len_cons.
    eapply Qle_trans; [apply IH; intros y Hy; apply H; now right|].
    assert (x <= hi)%Q by (apply H; now left). lra.
Qed.

Lemma inject_Z_len_pos {A : Type} (l : list A) :
  l <> [] -> (0 < inject_Z (len l))%Q.
Proof.
  intros H. destruct l; [congruence|].
  unfold len. simpl length. rewrite <- (Zlt_Qlt 0). lia.
Qed.

(** The mean of a non-empty list lies between any lower and any upper
    bound of its elements. *)
Lemma mean_between (lo hi : Q) (xs : list Q) :
  xs <> [] ->
  (forall x, In x xs -> (lo <= x)%Q) ->
  (forall x, In x xs -> (x <= hi)%Q) ->
  (lo <= py_sum xs / inject_Z (len xs) <= hi)%Q.
Proof.
  intros Hne Hlo Hhi. pose proof (inject_Z_len_pos Hne) as Hpos.
  pose proof (fold_sum_lower xs 0 Hlo) as L.
  pose proof (fold_sum_upper xs 0 Hhi) as U.
  fold (py_sum xs) in L, U. split.
  - apply Qle_shift_div_l; [assumption|]. lra.
  - apply Qle_shift_div_r; [assumption|]. lra.
Qed.

(** ** More on [calculate_price_statistics] *)

Lemma filter_known_nil (data : list PriceRecord) :
  known_prices data = [] ->
  filter (fun record => is_some (price record)) data = [].
Proof.
  intros H. pose proof (len_filter_known data) as L. rewrite H in L.
  destruct (filter _ data); [reflexivity|].
  unfold len in L. simpl in L. lia.
Qed.

Lemma calculate_price_statistics_none (data : list PriceRecord) :
  known_prices data = [] ->
  calculate_price_statistics data = Ret empty_statistics.
Proof.
  intros H. unfold calculate_price_statistics.
  destruct data as [|r0 data0]; [reflexivity|].
  now rewrite (filter_known_nil _ H).
Qed.

Lemma calculate_price_statistics_some (data : list PriceRecord) :
  known_prices data <> [] ->
  let prices := known_prices data in
  exists lo hi rlo rhi,
    calculate_price_statistics data
    = Ret (mkStatistics (Some lo) (Some hi)
             (Some (py_round2 (py_sum prices / inject_Z (len prices))))
             (len prices) (Some rlo) (Some rhi))
    /\ In lo prices /\ (forall p, In p prices -> (lo <= p)%Q)
    /\ In hi prices /\ (forall p, In p prices -> (p <= hi)%Q)
    /\ first_with_price data lo rlo
    /\ first_with_price data hi rhi.
Proof.
  intros Hne prices. subst prices.
  assert (Hlen : (len (known_prices data) =? 0)%Z = false).
  { apply Z.eqb_neq. intros E. apply Hne.
    destruct (known_prices data);
      [reflexivity|unfold len in E; simpl in E; lia]. }
  destruct (py_min_spec Hne) as (lo & Elo & Hlo_in & Hlo).
  destruct (py_max_spec Hne) as (hi & Ehi & Hhi_in & Hhi).
  destruct (py_next_price data lo Hlo_in) as (rlo & Erlo & Hrlo).
  destruct (py_next_price data hi Hhi_in) as (rhi & Erhi & Hrhi).
  exists lo, hi, rlo, rhi. split; [|repeat split; assumption].
  assert (Hd : data <> []) by (intros ->; now apply Hne).
  assert (Hf : filter (fun record => is_some (price record)) data <> []).
  { intros E. pose proof (len_filter_known data) as L. rewrite E in L.
    rewrite <- L in Hlen. discriminate Hlen. }
  unfold calculate_price_statistics.
  rewrite nonempty_match by exact Hd. cbv zeta.
  rewrite nonempty_match by exact Hf.
  rewrite py_map_get_price_known. cbn [bind].
  rewrite Elo, Ehi. cbn [bind].
  unfold py_div. rewrite Hlen. cbn [bind].
  rewrite Erlo, Erhi. cbn [bind].
  rewrite len_filter_known. reflexivity.
Qed.

(** The steps of [calculate_price_statistics] when prices exist. *)
Lemma calculate_price_statistics_steps (data : list PriceRecord) :
  known_prices data <> [] ->
  exists lo hi rlo rhi,
    py_min (known_prices data) = Ret lo
    /\ py_max (known_prices data) = Ret hi
    /\ py_next (price_is lo)
         (filter (fun record => is_some (price record)) data) = Ret rlo
    /\ py_next (price_is hi)
         (filter (fun record => is_some (price record)) data) = Ret rhi
    /\ calculate_price_statistics data
       = Ret (mkStatistics (Some lo) (Some hi)
                (Some (py_round2 (py_sum (known_prices data)
                                  / inject_Z (len (known_prices data)))))
                (len (known_prices data)) (Some rlo) (Some rhi)).
Proof.
  intros Hne.
  assert (Hlen : (len (known_prices data) =? 0)%Z = false).
  { apply Z.eqb_neq. intros E. apply Hne.
    destruct (known_prices data);
      [reflexivity|unfold len in E; simpl in E; lia]. }
  destruct (py_min_spec Hne) as (lo & Elo & Hlo_in & _).
  destruct (py_max_spec Hne) as (hi & Ehi & Hhi_in & _).
  destruct (py_next_price data lo Hlo_in) as (rlo & Erlo & _).
  destruct (py_next_price data hi Hhi_in) as (rhi & Erhi & _).
  exists lo, hi, rlo, rhi. repeat split; try assumption.
  assert (Hd : data <> []) by (intros ->; now apply Hne).
  assert (Hf : filter (fun record => is_some (price record)) data <> []).
  { intros E. pose proof (len_filter_known data) as L. rewrite E in L.
    rewrite <- L in Hlen. discriminate Hlen. }
  unfold calculate_price_statistics.
  rewrite nonempty_match by exact Hd. cbv zeta.
  rewrite nonempty_match by exact Hf.
  rewrite py_map_get_price_known. cbn [bind].
  rewrite Elo, Ehi. cbn [bind].
  unfold py_div. rewrite Hlen. cbn [bind].
  rewrite Erlo, Erhi. cbn [bind].
  rewrite len_filter_known. reflexivity.
Qed.

Lemma len_known_prices_le (data : list PriceRecord) :
  (len (known_prices data) <= len data)%Z.
Proof.
  rewrite <- len_filter_known. unfold len.
  pose proof (filter_length_le (fun record => is_some (price record)) data).
  lia.
Qed.

Lemma first_with_price_In (data : list PriceRecord) (m : Q) (r : PriceRecord) :
  first_with_price data m r -> In r data.
Proof.
  intros (l1 & l2 & -> & _). apply in_or_app. right. now left.
Qed.


(** ** More on the single-best window search *)

Lemma find_time_window_short (better : Q -> ext -> bool) (initial : ext)
    (data : list PriceRecord) (W : Z) :
  data = [] \/ (len (valid_records data) < W)%Z ->
  exists m, find_time_window better initial data W = Ret (NotFound m).
Proof.
  unfold find_time_window. intros [-> | Hn]; [eexists; reflexivity|].
  destruct data as [|r data']; [eexists; reflexivity|].
  destruct (Z.ltb_spec (len (r :: data')) W); [eexists; reflexivity|].
  destruct (Z.ltb_spec (len (valid_records (r :: data'))) W); [|lia].
  eexists; reflexivity.
Qed.

(** A found window means the window length was at least [1] and enough
    valid records were there. *)
Lemma find_time_window_found_inv (better : Q -> ext -> bool) (initial : ext)
    (data : list PriceRecord) (W W' : Z) (win : Window) :
  find_time_window better initial data W = Ret (Found W' win) ->
  (1 <= W <= len (valid_records data))%Z.
Proof.
  intros H. destruct (Z.lt_ge_cases W 1) as [Hlt|Hge].
  - destruct data as [|r data'] eqn:Ed.
    + discriminate H.
    + rewrite nonpositive_window_raises in H by (congruence || assumption).
      discriminate H.
  - split; [assumption|].
    destruct (Z.lt_ge_cases (len (valid_records data)) W) as [Hs|Hs]; [|lia].
    destruct (find_time_window_short better initial
                (data := data) (or_intror Hs))
      as (m & Hm).
    rewrite Hm in H. discriminate H.
Qed.


Lemma py_first_start (w : list PriceRecord) (r : PriceRecord) :
  py_first w = Ret r -> first_start w = deliveryStart r /\ In r w.
Proof.
  destruct w as [|x w]; [discriminate|]. intros [= ->]. split; [reflexivity|].
  now left.
Qed.

Lemma py_last_end (w : list PriceRecord) (r : PriceRecord) :
  py_last w = Ret r -> last_end w = deliveryEnd r /\ In r w.
Proof.
  unfold py_last, last_end. destruct (rev w) as [|x w'] eqn:E; [discriminate|].
  intros [= ->]. split; [reflexivity|].
  apply in_rev. rewrite E. now left.
Qed.

Lemma contiguous_run_subset (sv : list PriceRecord) (W i : Z)
    (run : list PriceRecord) (r : PriceRecord) :
  contiguous_run sv W i run -> In r run -> In r sv.
Proof.
  intros (l1 & l2 & -> & _) H. apply in_or_app. right.
  apply in_or_app. now left.
Qed.

Lemma In_sorted_valid (data : list PriceRecord) (r : PriceRecord) :
  In r (sorted_valid data) <-> In r data /\ valid r.
Proof.
  unfold sorted_valid, valid_records, valid. rewrite <- filter_In.
  split; apply Permutation_in;
    [apply stable_sort_perm|symmetry; apply stable_sort_perm].
Qed.

(** What every described window satisfies. *)
Lemma described_window_shape (data : list PriceRecord) (W i : Z)
    (win : Window) :
  (1 <= W)%Z ->
  contiguous_run (sorted_valid data) W i (records win) ->
  describes win (records win) ->
  len (records win) = W
  /\ (forall r, In r (records win) -> In r data /\ valid r)
  /\ start_time win = first_start (records win)
  /\ end_time win = last_end (records win)
  /\ start_time win <> None /\ end_time win <> None
  /\ (forall r, In r (records win) ->
        (min_price win <= price_value r <= max_price win)%Q)
  /\ (exists r, In r (records win) /\ price_value r = min_price win)
  /\ (exists r, In r (records win) /\ price_value r = max_price win)
  /\ (min_price win <= window_average (records win) <= max_price win)%Q.
Proof.
  intros HW Hc (_ & _ & _ & Hmin & Hmax & (r1 & F1 & S1) & (r2 & L2 & S2)).
  assert (Hlen : len (records win) = W) by (destruct Hc as (? & ? & _ & _ & E); exact E).
  assert (Hne : records win <> []) by (apply len_pos_nonempty; lia).
  assert (Hsub : forall r, In r (records win) -> In r data /\ valid r).
  { intros r Hr. apply In_sorted_valid. eapply contiguous_run_subset; eauto. }
  assert (Hpne : map price_value (records win) <> []).
  { intro E. apply Hne. now apply map_eq_nil in E. }
  destruct (py_min_spec Hpne) as (lo & Elo & Hlo_in & Hlo).
  destruct (py_max_spec Hpne) as (hi & Ehi & Hhi_in & Hhi).
  rewrite Hmin in Elo. rewrite Hmax in Ehi.
  inversion Elo; subst lo. inversion Ehi; subst hi.
  destruct (py_first_start _ F1) as [Ef In1].
  destruct (py_last_end _ L2) as [El In2].
  split; [exact Hlen|]. split; [exact Hsub|].
  split; [congruence|]. split; [congruence|].
  split.
  { rewrite S1. pose proof (proj2 (Hsub r1 In1)) as V.
    apply valid_fields in V. tauto. }
  split.
  { rewrite S2. pose proof (proj2 (Hsub r2 In2)) as V.
    apply valid_fields in V. tauto. }
  split.
  { intros r Hr. split; [apply Hlo|apply Hhi]; now apply in_map. }
  split.
  { apply in_map_iff in Hlo_in. destruct Hlo_in as (r & E & Hr). eauto. }
  split.
  { apply in_map_iff in Hhi_in. destruct Hhi_in as (r & E & Hr). eauto. }
  unfold window_average. rewrite <- (len_map price_value).
  apply mean_between; assumption.
Qed.

(** X2.  Whenever either search returns a found window, the window length
    was at least [1] and at most the number of valid records, the result
    carries that length and exactly that many records, all of them valid
    records of the input, both bounds are present and are the start of the
    first and the end of the last record, and [min_price] and [max_price]
    are prices of the window that bound every price in it and its exact
    average. *)
Theorem found_window_is_well_formed (data : list PriceRecord) (W W' : Z)
    (win : Window) :
  find_cheapest_time_window data W = Ret (Found W' win)
  \/ find_most_expensive_time_window data W = Ret (Found W' win) ->
  W' = W
  /\ (1 <= W <= len (valid_records data))%Z
  /\ len (records win) = W
  /\ (forall r, In r (records win) -> In r data /\ valid r)
  /\ start_time win = first_start (records win)
  /\ end_time win = last_end (records win)
  /\ start_time win <> None /\ end_time win <> None
  /\ (forall r, In r (records win) ->
        (min_price win <= price_value r <= max_price win)%Q)
  /\ (exists r, In r (records win) /\ price_value r = min_price win)
  /\ (exists r, In r (records win) /\ price_value r = max_price win)
  /\ (min_price win <= window_average (records win) <= max_price win)%Q.
Proof.
  intros [H|H].
  - pose proof (find_time_window_found_inv _ _ _ _ H) as [HW Hn].
    destruct (cheapest_window_run data HW Hn)
      as (i & win0 & Hrun & Hc & Hd & _).
    unfold find_cheapest_time_window in *. rewrite Hrun in H.
    inversion H; subst W' win0.
    split; [reflexivity|]. split; [lia|].
    eapply described_window_shape; eauto.
  - pose proof (find_time_window_found_inv _ _ _ _ H) as [HW Hn].
    destruct (most_expensive_window_run data HW Hn)
      as (i & win0 & Hrun & Hc & Hd & _).
    unfold find_most_expensive_time_window in *. rewrite Hrun in H.
    inversion H; subst W' win0.
    split; [reflexivity|]. split; [lia|].
    eapply described_window_shape; eauto.
Qed.

Lemma found_window_is_well_formed_witness :
  exists win,
    find_cheapest_time_window sample_day 2 = Ret (Found 2 win)
    /\ len (records win) = 2%Z
    /\ (min_price win <= window_average (records win) <= max_price win)%Q.
Proof.
  eexists. split; [vm_compute; reflexivity|].
  match goal with
  | |- len (records ?w) = _ /\ _ =>
    assert (H : find_cheapest_time_window sample_day 2 = Ret (Found 2 w)
                \/ find_most_expensive_time_window sample_day 2
                   = Ret (Found 2 w))
      by (left; vm_compute; reflexivity);
    destruct (found_window_is_well_formed sample_day 2 H)
      as (_ & _ & Hl & _ & _ & _ & _ & _ & _ & _ & _ & Hm)
  end.
  split; [exact Hl|exact Hm].
Defined.




(** ** More on the top-K rankers *)

Lemma len_candidate_windows (data : list PriceRecord) (W : Z) :
  len (candidate_windows (sorted_valid data) W) = number_of_windows data W.
Proof.
  unfold candidate_windows, number_of_windows, len at 1, py_range.
  rewrite !length_map, length_seq, len_sorted_valid. lia.
Qed.

Lemma In_candidate_windows (sv : list PriceRecord) (W : Z) (w : RankedWindow) :
  In w (candidate_windows sv W) <->
  exists i, (0 <= i <= len sv - W)%Z /\ w = ranked_window (window_at sv W i).
Proof.
  unfold candidate_windows. rewrite in_map_iff. split.
  - intros (i & <- & Hi). apply In_py_range in Hi. exists i. split; [lia|auto].
  - intros (i & Hi & ->). exists i. split; [reflexivity|].
    apply In_py_range. lia.
Qed.

Lemma top_k_shape (before : RankedWindow -> RankedWindow -> bool)
    (data : list PriceRecord) (W k : Z) :
  (1 <= W)%Z -> (W <= len (valid_records data))%Z -> (0 <= k)%Z ->
  exists ws,
    find_multiple_windows before data W k = Ret ws
    /\ len ws = Z.min k (number_of_windows data W)
    /\ forall w, In w ws ->
         exists i,
           (0 <= i <= len (sorted_valid data) - W)%Z
           /\ w = ranked_window (window_at (sorted_valid data) W i)
           /\ len (r_records w) = W
           /\ r_avg_price w = py_round2 (window_average (r_records w)).
Proof.
  intros HW Hn Hk. eexists. split.
  - apply find_multiple_windows_run; assumption.
  - rewrite py_prefix_nonneg by assumption. split.
    + assert (L : Z.of_nat (length (stable_sort before
                       (candidate_windows (sorted_valid data) W)))
                  = number_of_windows data W).
      { change (len (stable_sort before
                       (candidate_windows (sorted_valid data) W))
                = number_of_windows data W).
        rewrite len_stable_sort. apply len_candidate_windows. }
      unfold len. rewrite length_firstn. lia.
    + intros w Hw. apply In_firstn in Hw.
      apply (Permutation_in _ (stable_sort_perm before _)) in Hw.
      apply In_candidate_windows in Hw. destruct Hw as (i & Hi & ->).
      exists i. split; [exact Hi|]. split; [reflexivity|].
      split; [|reflexivity].
      apply window_at_len; try lia.
Qed.








(** ** Window lengths below one, negative counts *)

Lemma py_map_raises {X Y : Type} (f : X -> py Y) (e0 : exn) (xs : list X)
    (x : X) :
  In x xs ->
  f x = Raise e0 ->
  (forall y e, In y xs -> f y = Raise e -> e = e0) ->
  py_map f xs = Raise e0.
Proof.
  induction xs as [|y ys IH]; intros Hin Hx Honly; [destruct Hin|].
  cbn [py_map]. destruct (f y) as [v|e] eqn:E; cbn [bind].
  - destruct Hin as [->|Hin]; [rewrite Hx in E; discriminate|].
    rewrite IH; auto. intros z e Hz. apply Honly. now right.
  - f_equal. eapply Honly; [now left|exact E].
Qed.

Lemma ranked_window_at_past_end (sv : list PriceRecord) (W : Z) :
  ranked_window_at sv W (len sv) = Raise ZeroDivisionError.
Proof. unfold ranked_window_at. rewrite py_slice_past_end. reflexivity. Qed.

Lemma ranked_window_at_raise_kind (sv : list PriceRecord) (W i : Z) (e : exn) :
  Forall valid sv ->
  ranked_window_at sv W i = Raise e -> e = ZeroDivisionError.
Proof.
  intros Hv. unfold ranked_window_at.
  set (w := py_slice sv i (i + W)).
  rewrite (py_map_get_price (l := w)) by (apply Forall_py_slice; assumption).
  cbn [bind]. unfold py_div. rewrite len_map.
  destruct (Z.eqb_spec (len w) 0) as [E|NE]; cbn [bind].
  - now intros [= <-].
  - assert (Hne : w <> []).
    { intros E. rewrite E in NE. now apply NE. }
    destruct (py_first_cons Hne) as [r1 E1].
    destruct (py_last_cons Hne) as [r2 E2].
    rewrite E1, E2. cbn [bind]. discriminate.
Qed.

Lemma nonpositive_window_ranking_raises
    (before : RankedWindow -> RankedWindow -> bool)
    (data : list PriceRecord) (W k : Z) :
  data <> [] -> (W < 1)%Z ->
  find_multiple_windows before data W k = Raise ZeroDivisionError.
Proof.
  intros Hd HW. unfold find_multiple_windows.
  rewrite nonempty_match by assumption.
  pose proof (len_nonneg (valid_records data)) as Hl1.
  assert (Hpos : (1 <= len data)%Z).
  { destruct data; [congruence|]. unfold len. simpl. lia. }
  destruct (Z.ltb_spec (len data) W); [lia|].
  destruct (Z.ltb_spec (len (valid_records data)) W); [lia|].
  rewrite (sort_by_deliveryStart_valid (valid_records_Forall data)).
  fold (sorted_valid data).
  pose proof (len_nonneg (sorted_valid data)) as Hl2.
  unfold enumerate_windows.
  rewrite py_map_raises with (e0 := ZeroDivisionError)
                             (x := len (sorted_valid data)).
  - reflexivity.
  - apply In_py_range. lia.
  - apply ranked_window_at_past_end.
  - intros y e _. apply ranked_window_at_raise_kind, sorted_valid_Forall.
Qed.

(** X6.  A window length below [1] is not reported as missing data: on
    every non-empty series, valid records or not, the two searches and the
    two rankers raise [ZeroDivisionError], because the sliding loop reaches
    an empty slice and divides by its length. *)
Theorem window_below_one_raises (data : list PriceRecord) (W k : Z) :
  data <> [] -> (W < 1)%Z ->
  find_cheapest_time_window data W = Raise ZeroDivisionError
  /\ find_most_expensive_time_window data W = Raise ZeroDivisionError
  /\ find_multiple_cheap_windows data W k = Raise ZeroDivisionError
  /\ find_multiple_expensive_windows data W k = Raise ZeroDivisionError.
Proof.
  intros Hd HW. repeat split.
  - now apply nonpositive_window_raises.
  - now apply nonpositive_window_raises.
  - now apply nonpositive_window_ranking_raises.
  - now apply nonpositive_window_ranking_raises.
Qed.

Lemma window_below_one_raises_witness :
  find_cheapest_time_window sample_day (-3) = Raise ZeroDivisionError
  /\ find_multiple_expensive_windows sample_day 0 2 = Raise ZeroDivisionError.
Proof.
  assert (Hd : sample_day <> []) by discriminate.
  assert (H1 : (-3 < 1)%Z) by lia.
  assert (H2 : (0 < 1)%Z) by lia.
  split.
  - exact (proj1 (window_below_one_raises 0 Hd H1)).
  - exact (proj2 (proj2 (proj2 (window_below_one_raises 2 Hd H2)))).
Defined.


(** ** More on the day partition *)

Lemma keeps_other_date (fromisoformat : string -> py datetime)
    (zoneinfo : zoneinfo_module) (system_utcoffset : Z -> Z)
    (d1 d2 : Z) (r : PriceRecord) :
  keeps fromisoformat zoneinfo system_utcoffset d1 r = true ->
  keeps fromisoformat zoneinfo system_utcoffset d2 r = (d1 =? d2)%Z.
Proof.
  intros H1. destruct (Z.eqb_spec d1 d2) as [<-|Hne]; [exact H1|].
  destruct (keeps fromisoformat zoneinfo system_utcoffset d2 r) eqn:H2;
    [exfalso|reflexivity].
  apply keeps_iff in H1, H2.
  destruct H1 as (s1 & dt1 & loc1 & Es1 & _ & Ep1 & El1 & Ed1).
  destruct H2 as (s2 & dt2 & loc2 & Es2 & _ & Ep2 & El2 & Ed2).
  rewrite Es1 in Es2. inversion Es2; subst s2.
  rewrite Ep1 in Ep2. inversion Ep2; subst dt2.
  rewrite El1 in El2. inversion El2; subst loc2. congruence.
Qed.

(** X8.  Filtering a day's sub-series again for the same date changes
    nothing, and filtering it for any other date leaves nothing; a store
    without data gives the empty list, and a sub-series is never longer
    than the series. *)
Theorem day_filter_composes (fromisoformat : string -> py datetime)
    (zoneinfo : zoneinfo_module) (system_utcoffset : Z -> Z)
    (data : list PriceRecord) (d1 d2 : Z) :
  let part source d :=
    _filter_data_by_date fromisoformat zoneinfo system_utcoffset source d in
  part (Some (part (Some data) d1)) d2
  = (if (d1 =? d2)%Z then part (Some data) d1 else [])
  /\ part None d1 = []
  /\ (len (part (Some data) d1) <= len data)%Z.
Proof.
  intros part. unfold part, _filter_data_by_date. split; [|split].
  - induction data as [|r data IH]; simpl.
    + now destruct (d1 =? d2)%Z.
    + destruct (keeps fromisoformat zoneinfo system_utcoffset d1 r) eqn:K.
      * simpl. rewrite (keeps_other_date _ _ _ _ d2 _ K), IH.
        now destruct (d1 =? d2)%Z.
      * exact IH.
  - reflexivity.
  - unfold len. pose proof (filter_length_le
      (keeps fromisoformat zoneinfo system_utcoffset d1) data). lia.
Qed.

(** ** Independence of the input order *)

Lemma Permutation_filter {A : Type} (p : A -> bool) (l1 l2 : list A) :
  Permutation l1 l2 -> Permutation (filter p l1) (filter p l2).
Proof.
  induction 1 as [|x l1 l2 _ IH|x y l|l1 l2 l3 _ IH1 _ IH2]; simpl.
  - constructor.
  - destruct (p x); [now constructor|assumption].
  - destruct (p x), (p y); try reflexivity. apply perm_swap.
  - now transitivity (filter p l2).
Qed.

Lemma sorted_permutation_unique {A : Type} (R : A -> A -> Prop)
    (l1 l2 : list A) :
  StronglySorted R l1 -> StronglySorted R l2 -> Permutation l1 l2 ->
  (forall x y, In x l1 -> In y l1 -> R x y -> R y x -> x = y) ->
  l1 = l2.
Proof.
  revert l2. induction l1 as [|a l1 IH]; intros l2 S1 S2 P Hanti.
  - apply Permutation_nil in P. now subst.
  - destruct l2 as [|b l2].
    { symmetry in P. apply Permutation_nil in P. discriminate. }
    inversion S1 as [|? ? S1' A1]; subst.
    inversion S2 as [|? ? S2' A2]; subst.
    rewrite Forall_forall in A1, A2.
    assert (Hab : a = b).
    { assert (Ha : In a (b :: l2)) by (apply (Permutation_in _ P); now left).
      assert (Hb : In b (a :: l1))
        by (apply (Permutation_in _ (Permutation_sym P)); now left).
      destruct Ha as [->|Ha]; [reflexivity|].
      destruct Hb as [->|Hb]; [reflexivity|].
      apply Hanti; [now left|now right|now apply A1|now apply A2]. }
    subst b. f_equal. apply IH; auto.
    + now apply Permutation_cons_inv in P.
    + intros x y Hx Hy. apply Hanti; now right.
Qed.

Lemma string_ltb_none_eq (a b : string) :
  String.ltb a b = false -> String.ltb b a = false -> a = b.
Proof.
  unfold String.ltb. rewrite (String.compare_antisym b a).
  destruct (String.compare a b) eqn:C; simpl; try discriminate.
  intros _ _. now apply String.compare_eq_iff.
Qed.

Lemma sorted_valid_permutation (data data' : list PriceRecord) :
  Permutation data data' ->
  (forall x y, In x (valid_records data) -> In y (valid_records data) ->
               deliveryStart x = deliveryStart y -> x = y) ->
  sorted_valid data' = sorted_valid data.
Proof.
  intros P Hkey. symmetry.
  apply sorted_permutation_unique
    with (R := fun a b => start_key_lt b a = false).
  - apply sorted_valid_sorted.
  - apply sorted_valid_sorted.
  - rewrite !sorted_valid_perm. apply Permutation_filter, P.
  - intros x y Hx Hy Hxy Hyx.
    apply (Permutation_in _ (sorted_valid_perm data)) in Hx, Hy.
    apply Hkey; try assumption.
    pose proof (valid_records_Forall data) as V.
    rewrite Forall_forall in V.
    pose proof (V x Hx) as Vx. pose proof (V y Hy) as Vy.
    apply valid_fields in Vx, Vy. unfold start_key_lt in Hxy, Hyx.
    destruct (deliveryStart x) as [sx|]; [|tauto].
    destruct (deliveryStart y) as [sy|]; [|tauto].
    f_equal. now apply string_ltb_none_eq.
Qed.

Lemma find_time_window_depends (better : Q -> ext -> bool) (initial : ext)
    (data data' : list PriceRecord) (W : Z) :
  len data' = len data ->
  sorted_valid data' = sorted_valid data ->
  find_time_window better initial data' W
  = find_time_window better initial data W.
Proof.
  intros Hl Hs.
  assert (Hv : len (valid_records data') = len (valid_records data))
    by (rewrite <- !len_sorted_valid; now rewrite Hs).
  unfold find_time_window.
  rewrite !(sort_by_deliveryStart_valid (valid_records_Forall _)).
  fold (sorted_valid data) (sorted_valid data'). rewrite Hs, Hv, Hl.
  destruct data, data'; try reflexivity; unfold len in Hl; simpl in Hl; lia.
Qed.

Lemma find_multiple_windows_depends
    (before : RankedWindow -> RankedWindow -> bool)
    (data data' : list PriceRecord) (W k : Z) :
  len data' = len data ->
  sorted_valid data' = sorted_valid data ->
  find_multiple_windows before data' W k
  = find_multiple_windows before data W k.
Proof.
  intros Hl Hs.
  assert (Hv : len (valid_records data') = len (valid_records data))
    by (rewrite <- !len_sorted_valid; now rewrite Hs).
  unfold find_multiple_windows.
  rewrite !(sort_by_deliveryStart_valid (valid_records_Forall _)).
  fold (sorted_valid data) (sorted_valid data'). rewrite Hs, Hv, Hl.
  destruct data, data'; try reflexivity; unfold len in Hl; simpl in Hl; lia.
Qed.

(** X9.  When valid records with the same [deliveryStart] are equal, the
    order in which the records are supplied does not matter: the two
    searches and the two rankers return the same result on every
    permutation of the series. *)
Theorem window_search_ignores_input_order (data data' : list PriceRecord)
    (W k : Z) :
  Permutation data data' ->
  (forall x y, In x (valid_records data) -> In y (valid_records data) ->
               deliveryStart x = deliveryStart y -> x = y) ->
  find_cheapest_time_window data' W = find_cheapest_time_window data W
  /\ find_most_expensive_time_window data' W
     = find_most_expensive_time_window data W
  /\ find_multiple_cheap_windows data' W k
     = find_multiple_cheap_windows data W k
  /\ find_multiple_expensive_windows data' W k
     = find_multiple_expensive_windows data W k.
Proof.
  intros P Hkey.
  pose proof (sorted_valid_permutation P Hkey) as Hs.
  assert (Hl : len data' = len data).
  { unfold len. f_equal. symmetry. now apply Permutation_length. }
  repeat split.
  - now apply find_time_window_depends.
  - now apply find_time_window_depends.
  - now apply find_multiple_windows_depends.
  - now apply find_multiple_windows_depends.
Qed.

Lemma window_search_ignores_input_order_witness :
  find_cheapest_time_window
    [sample_record 1 5; sample_record 0 10; sample_record 2 2] 2
  = find_cheapest_time_window
      [sample_record 0 10; sample_record 1 5; sample_record 2 2] 2.
Proof.
  refine (proj1 (@window_search_ignores_input_order
                   [sample_record 0 10; sample_record 1 5; sample_record 2 2]
                   [sample_record 1 5; sample_record 0 10; sample_record 2 2]
                   2 0 _ _)).
  - apply perm_swap.
  - intros x y Hx Hy. simpl in Hx, Hy.
    destruct Hx as [<-|[<-|[<-|[]]]]; destruct Hy as [<-|[<-|[<-|[]]]];
      (reflexivity || (intros E; discriminate E)).
Defined.

(** ** The price sensors *)

Section PriceSensorFacts.

Variable fromisoformat : string -> py datetime.
Variable zoneinfo : zoneinfo_module.
Variable system_utcoffset : Z -> Z.

Lemma is_current_iff (now : Z) (r : PriceRecord) :
  is_current fromisoformat zoneinfo system_utcoffset now r = true <->
  delivery_covers fromisoformat zoneinfo system_utcoffset now r.
Proof.
  unfold is_current, in_delivery_period, delivery_covers. split.
  - destruct (deliveryStart r) as [s|] eqn:Es; [|simpl; discriminate].
    destruct (deliveryEnd r) as [e|] eqn:Ee;
      [|rewrite andb_false_r; discriminate].
    destruct (truthy (Some s)) eqn:Ts; [|discriminate].
    destruct (truthy (Some e)) eqn:Te; [|discriminate].
    cbn [andb].
    destruct (parse_time fromisoformat s) as [sd|] eqn:Ps; cbn [bind];
      [|discriminate].
    destruct (parse_time fromisoformat e) as [ed|] eqn:Pe; cbn [bind];
      [|discriminate].
    destruct (local_bounds zoneinfo system_utcoffset sd ed) as [[sl el]|]
      eqn:Lb; cbn [bind]; [|discriminate].
    cbn [fst snd]. rewrite andb_true_iff, Z.leb_le, Z.ltb_lt. intros H.
    apply truthy_Some in Ts, Te.
    exists s, e, sd, ed, sl, el. repeat split; tauto.
  - intros (s & e & sd & ed & sl & el & Es & Hs & Ee & He & Ps & Pe & Lb & H).
    rewrite Es, Ee, (proj2 (truthy_Some s) Hs), (proj2 (truthy_Some e) He).
    cbn [andb]. rewrite Ps. cbn [bind]. rewrite Pe. cbn [bind].
    rewrite Lb. cbn [bind fst snd].
    rewrite andb_true_iff, Z.leb_le, Z.ltb_lt. exact H.
Qed.

Lemma find_unique {A : Type} (p : A -> bool) (l : list A) (x : A) :
  In x l -> p x = true ->
  (forall y, In y l -> p y = true -> y = x) ->
  find p l = Some x.
Proof.
  intros Hin Hp Huniq. destruct (find p l) as [y|] eqn:E.
  - apply find_some in E. destruct E as [Hy Py]. f_equal. now apply Huniq.
  - pose proof (find_none _ _ E x Hin). congruence.
Qed.

(** X13.  The current-price sensors report a price only from a record of
    the data whose delivery period contains [now]; when exactly one record
    does, its price is reported whatever the order of the records; when
    none does, or there is no data, they report nothing. *)
Theorem current_price_is_of_current_record (data : list PriceRecord)
    (now : Z) :
  let covers :=
    delivery_covers fromisoformat zoneinfo system_utcoffset now in
  let sensor d :=
    current_price fromisoformat zoneinfo system_utcoffset d now in
  (forall p, sensor (Some data) = Some p ->
     exists r, In r data /\ price r = Some p /\ covers r)
  /\ (forall r data',
        In r data -> covers r ->
        (forall r', In r' data -> covers r' -> r' = r) ->
        Permutation data data' ->
        sensor (Some data') = price r)
  /\ ((forall r, In r data -> ~ covers r) -> sensor (Some data) = None)
  /\ sensor None = None.
Proof.
  intros covers sensor. unfold sensor, current_price, current_record.
  split; [|split; [|split]].
  - intros p H.
    destruct (find _ data) as [r|] eqn:E; [|discriminate].
    apply find_some in E. destruct E as [Hin Hc].
    exists r. split; [assumption|]. split; [assumption|].
    now apply is_current_iff.
  - intros r data' Hin Hc Huniq P.
    rewrite find_unique with (x := r); [reflexivity| | |].
    + now apply (Permutation_in _ P).
    + now apply is_current_iff.
    + intros y Hy Py. apply Huniq.
      * now apply (Permutation_in _ (Permutation_sym P)).
      * now apply is_current_iff.
  - intros Hnone. destruct (find _ data) as [r|] eqn:E; [|reflexivity].
    apply find_some in E. destruct E as [Hin Hc].
    apply is_current_iff in Hc. now apply Hnone in Hc.
  - reflexivity.
Qed.

Lemma filter_known_nonempty (records : list PriceRecord) :
  known_prices records <> [] ->
  filter (fun record => is_some (price record)) records <> [].
Proof.
  intros Hne E. pose proof (len_filter_known records) as L. rewrite E in L.
  destruct (known_prices records); [congruence|].
  unfold len in L. simpl in L. lia.
Qed.

(** X11.  The three sensors for tomorrow report the [avg_price],
    [min_price] and [max_price] that [calculate_price_statistics] gives on
    tomorrow's sub-series, and nothing when that sub-series is empty or
    holds no price; none of them raises. *)
Theorem tomorrow_sensors_match_statistics (data : option (list PriceRecord))
    (today : Z) :
  exists s,
    calculate_price_statistics
      (_filter_data_by_date fromisoformat zoneinfo system_utcoffset
         data (today + 1)) = Ret s
    /\ average_price_tomorrow fromisoformat zoneinfo system_utcoffset
         data today = Ret (stat_avg_price s)
    /\ minimum_price_tomorrow fromisoformat zoneinfo system_utcoffset
         data today = Ret (stat_min_price s)
    /\ maximum_price_tomorrow fromisoformat zoneinfo system_utcoffset
         data today = Ret (stat_max_price s).
Proof.
  unfold average_price_tomorrow, minimum_price_tomorrow,
    maximum_price_tomorrow, mean_price.
  set (td := _filter_data_by_date fromisoformat zoneinfo system_utcoffset
               data (today + 1)).
  destruct (known_prices td) as [|p0 ps] eqn:E.
  - exists empty_statistics.
    split; [now apply calculate_price_statistics_none|].
    destruct td; [auto|rewrite E; auto].
  - assert (Hne : known_prices td <> []) by (rewrite E; discriminate).
    destruct (calculate_price_statistics_steps td Hne)
      as (lo & hi & rlo & rhi & Elo & Ehi & _ & _ & Hs).
    eexists. split; [exact Hs|].
    cbn [stat_avg_price stat_min_price stat_max_price].
    destruct td as [|r0 td0]; [discriminate E|].
    rewrite E in *. rewrite Elo, Ehi. cbn [bind].
    unfold py_div.
    replace (len (p0 :: ps) =? 0)%Z with false
      by reflexivity.
    auto.
Qed.

(** X12.  [OkteHourlyPriceTodaySensor] reports the price of the first
    record of today whose delivery period contains [now] (which may be no
    price at all), agreeing with the current-price sensor when only one
    record of the data is current; when no record of today is current it
    falls back to the [avg_price] that [calculate_price_statistics] gives
    on today's sub-series. *)
Theorem hourly_price_today_cases (data : list PriceRecord) (today now : Z) :
  let today_data :=
    _filter_data_by_date fromisoformat zoneinfo system_utcoffset
      (Some data) today in
  let covers :=
    delivery_covers fromisoformat zoneinfo system_utcoffset now in
  let sensor :=
    hourly_price_today fromisoformat zoneinfo system_utcoffset
      (Some data) today now in
  (forall r,
     In r today_data -> covers r ->
     (forall r', In r' data -> covers r' -> r' = r) ->
     sensor = Ret (price r)
     /\ current_price fromisoformat zoneinfo system_utcoffset
          (Some data) now = price r)
  /\ ((forall r, In r today_data -> ~ covers r) ->
      exists s,
        calculate_price_statistics today_data = Ret s
        /\ sensor = Ret (stat_avg_price s)).
Proof.
  intros today_data covers sensor.
  assert (Hsub : forall r, In r today_data -> In r data).
  { intros r Hr. unfold today_data, _filter_data_by_date in Hr.
    now apply filter_In in Hr. }
  split.
  - intros r Hin Hc Huniq.
    assert (Hc' : is_current fromisoformat zoneinfo system_utcoffset now r
                  = true) by now apply is_current_iff.
    split.
    + assert (Hfind : current_record fromisoformat zoneinfo system_utcoffset
                        today_data now = Some r).
      { unfold current_record. apply find_unique; auto.
        intros y Hy Py.
        apply Huniq; [now apply Hsub|now apply is_current_iff]. }
      unfold sensor, hourly_price_today. fold today_data.
      destruct today_data as [|r0 td0]; [destruct Hin|].
      now rewrite Hfind.
    + unfold current_price, current_record.
      rewrite find_unique with (x := r); auto.
      intros y Hy Py. apply Huniq; [assumption|now apply is_current_iff].
  - intros Hnone.
    assert (Hfind : current_record fromisoformat zoneinfo system_utcoffset
                      today_data now = None).
    { unfold current_record. destruct (find _ today_data) as [r|] eqn:E;
        [|reflexivity].
      apply find_some in E. destruct E as [Hin Hc].
      apply is_current_iff in Hc. now apply Hnone in Hc. }
    unfold sensor, hourly_price_today. fold today_data.
    destruct (known_prices today_data) as [|p0 ps] eqn:E.
    + exists empty_statistics.
      split; [now apply calculate_price_statistics_none|].
      destruct today_data; [reflexivity|].
      rewrite Hfind. unfold mean_price. rewrite E. reflexivity.
    + assert (Hne : known_prices today_data <> [])
        by (rewrite E; discriminate).
      destruct (calculate_price_statistics_steps today_data Hne)
        as (lo & hi & rlo & rhi & _ & _ & _ & _ & Hs).
      eexists. split; [exact Hs|]. cbn [stat_avg_price].
      destruct today_data as [|r0 td0]; [discriminate E|].
      rewrite Hfind. unfold mean_price. rewrite E.
      unfold py_div.
      replace (len (p0 :: ps) =? 0)%Z with false
        by reflexivity.
      reflexivity.
Qed.

(** X10.  [_get_today_statistics] gives nothing when the store has no
    data; otherwise its minimum, maximum, their records and the count are
    those that [calculate_price_statistics] gives on the sub-series
    [_filter_data_by_date] selects for today. *)
Theorem today_statistics_match_statistics (data : list PriceRecord)
    (today : Z) :
  data <> [] ->
  exists s,
    calculate_price_statistics
      (_filter_data_by_date fromisoformat zoneinfo system_utcoffset
         (Some data) today) = Ret s
    /\ _get_today_statistics fromisoformat zoneinfo system_utcoffset
         (Some data) today
       = Ret (Some (mkTodayStatistics (stat_min_price s) (stat_max_price s)
                      (stat_min_record s) (stat_max_record s)
                      (stat_count s))).
Proof.
  intros Hd. unfold _get_today_statistics, _filter_data_by_date.
  rewrite (nonempty_match _ _ Hd). cbv zeta.
  set (td := filter (keeps fromisoformat zoneinfo system_utcoffset today)
               data).
  destruct (known_prices td) as [|p0 ps] eqn:E.
  - exists empty_statistics.
    split; [now apply calculate_price_statistics_none|].
    destruct td as [|r0 td0] eqn:Etd; [reflexivity|].
    rewrite (filter_known_nil _ E). reflexivity.
  - assert (Hne : known_prices td <> []) by (rewrite E; discriminate).
    destruct (calculate_price_statistics_steps td Hne)
      as (lo & hi & rlo & rhi & Elo & Ehi & Erlo & Erhi & Hs).
    eexists. split; [exact Hs|].
    cbn [stat_min_price stat_max_price stat_min_record stat_max_record
           stat_count].
    assert (Htd : td <> []) by (intros E0; rewrite E0 in E; discriminate).
    rewrite (nonempty_match _ _ Htd).
    rewrite (nonempty_match _ _ (filter_known_nonempty td Hne)).
    rewrite py_map_get_price_known. cbn [bind].
    rewrite Elo, Ehi. cbn [bind]. rewrite Erlo, Erhi. cbn [bind].
    rewrite len_filter_known. reflexivity.
Qed.

End PriceSensorFacts.

Lemma today_statistics_match_statistics_witness :
  exists s,
    calculate_price_statistics
      (_filter_data_by_date iso_parser (Zone cest) utc_system
         (Some sample_day) 19875) = Ret s
    /\ _get_today_statistics iso_parser (Zone cest) utc_system
         (Some sample_day) 19875
       = Ret (Some (mkTodayStatistics (stat_min_price s) (stat_max_price s)
                      (stat_min_record s) (stat_max_record s)
                      (stat_count s))).
Proof.
  assert (H : sample_day <> []) by discriminate.
  exact (today_statistics_match_statistics iso_parser (Zone cest) utc_system
           19875 H).
Defined.

Lemma sample_day_current (now : Z) (r : PriceRecord) :
  In r sample_day ->
  delivery_covers iso_parser (Zone cest) utc_system now r ->
  is_current iso_parser (Zone cest) utc_system now r = true.
Proof. intros _ H. now apply is_current_iff. Qed.

Lemma hourly_price_today_cases_witness :
  hourly_price_today iso_parser (Zone cest) utc_system
    (Some sample_day) 19875 (clock 4 30) = Ret (Some 2%Q)
  /\ exists s,
       calculate_price_statistics
         (_filter_data_by_date iso_parser (Zone cest) utc_system
            (Some sample_day) 19875) = Ret s
       /\ hourly_price_today iso_parser (Zone cest) utc_system
            (Some sample_day) 19875 (clock 23 0) = Ret (stat_avg_price s).
Proof.
  pose proof (hourly_price_today_cases iso_parser (Zone cest) utc_system
                sample_day 19875 (clock 4 30)) as [H1 _].
  pose proof (hourly_price_today_cases iso_parser (Zone cest) utc_system
                sample_day 19875 (clock 23 0)) as [_ H2].
  split.
  - refine (proj1 (H1 (sample_record 2 2) _ _ _)).
    + vm_compute. tauto.
    + apply is_current_iff. vm_compute. reflexivity.
    + intros r' Hin Hc. apply (sample_day_current Hin) in Hc.
      simpl in Hin.
      destruct Hin as [<-|[<-|[<-|[<-|[<-|[]]]]]];
        try reflexivity; vm_compute in Hc; discriminate Hc.
  - apply H2. intros r Hin Hc.
    apply is_current_iff in Hc.
    vm_compute in Hin.
    destruct Hin as [<-|[<-|[<-|[<-|[<-|[]]]]]];
      vm_compute in Hc; discriminate Hc.
Defined.

Lemma current_price_is_of_current_record_witness :
  current_price iso_parser (Zone cest) utc_system
    (Some (rev sample_day)) (clock 4 30) = Some 2%Q.
Proof.
  pose proof (current_price_is_of_current_record iso_parser (Zone cest)
                utc_system sample_day (clock 4 30)) as (_ & H & _).
  refine (H (sample_record 2 2) (rev sample_day) _ _ _ _).
  - vm_compute. tauto.
  - apply is_current_iff. vm_compute. reflexivity.
  - intros r' Hin Hc. apply (sample_day_current Hin) in Hc.
    simpl in Hin.
    destruct Hin as [<-|[<-|[<-|[<-|[<-|[]]]]]];
      try reflexivity; vm_compute in Hc; discriminate Hc.
  - apply Permutation_rev.
Defined.

(** ** The tomorrow detectors *)

Lemma detector_returns_bool (fromisoformat : string -> py datetime)
    (zoneinfo : zoneinfo_module) (system_utcoffset : Z -> Z)
    (self : Detector) (window : py WindowResult) (now : Z) :
  exists self',
    _update_detector_state fromisoformat zoneinfo system_utcoffset
      self window now = Ret self'
    /\ (_state self' = true ->
        exists W win s start_dt end_dt start_local end_local,
          window = Ret (Found W win)
          /\ start_time win = Some s
          /\ parse_time fromisoformat s = Ret start_dt
          /\ local_bounds zoneinfo system_utcoffset start_dt end_dt
             = Ret (start_local, end_local)
          /\ (start_local <= now < end_local)%Z).
Proof.
  assert (Hoff : forall P : Prop,
            exists self', Ret (mkDetector false) = Ret self'
                          /\ (_state self' = true -> P)).
  { intros P. exists (mkDetector false). split; [reflexivity|].
    simpl. discriminate. }
  unfold _update_detector_state.
  destruct window as [[m|W win]|e]; cbn [bind try_except]; try apply Hoff.
  destruct (start_time win) as [s|] eqn:Es; [|apply Hoff].
  destruct (end_time win) as [e|] eqn:Ee;
    [|rewrite orb_true_r; apply Hoff].
  destruct (negb (truthy (Some s)) || negb (truthy (Some e))); [apply Hoff|].
  destruct (parse_time fromisoformat s) as [sd|] eqn:Ps;
    cbn [bind try_except]; [|apply Hoff].
  destruct (parse_time fromisoformat e) as [ed|] eqn:Pe;
    cbn [bind try_except]; [|apply Hoff].
  destruct (local_bounds zoneinfo system_utcoffset sd ed) as [[sl el]|]
    eqn:Lb; cbn [bind try_except]; [|apply Hoff].
  eexists. split; [reflexivity|]. cbn [_state fst snd].
  rewrite andb_true_iff, Z.leb_le, Z.ltb_lt. intros H.
  exists W, win, s, sd, ed, sl, el. repeat split; tauto.
Qed.

Lemma local_bounds_start (zoneinfo : zoneinfo_module)
    (system_utcoffset : Z -> Z) (sd ed : datetime) (sl el : Z) :
  local_bounds zoneinfo system_utcoffset sd ed = Ret (sl, el) ->
  delivery_local zoneinfo system_utcoffset sd = Ret sl.
Proof.
  unfold local_bounds, delivery_local, except_ImportError, try_except, ZoneInfo.
  destruct zoneinfo as [| |tz]; cbn [bind]; [|discriminate|].
  - destruct (add_timedelta (wall sd) (hours 2)) as [a|]; cbn [bind];
      [|discriminate].
    destruct (add_timedelta (wall ed) (hours 2)) as [b|]; cbn [bind];
      [|discriminate].
    intros H. now inversion H.
  - destruct (astimezone system_utcoffset tz sd) as [a|e1] eqn:E1;
      cbn [bind].
    + destruct (astimezone system_utcoffset tz ed) as [b|e2] eqn:E2;
        cbn [bind].
      * intros H. now inversion H.
      * apply astimezone_raises in E2. subst e2. discriminate.
    + apply astimezone_raises in E1. subst e1. discriminate.
Qed.

Lemma before_next_day (now later today : Z) :
  (date_of now <= today)%Z -> date_of later = (today + 1)%Z ->
  (now < later)%Z.
Proof.
  unfold date_of. set (D := (86400 * second)%Z).
  assert (HD : (0 < D)%Z) by (unfold D, second; lia).
  intros H1 H2.
  pose proof (Z.mul_div_le later D HD).
  pose proof (Z.mul_succ_div_gt now D HD).
  nia.
Qed.

(** The start of a found window is the [deliveryStart] of a record of the
    series searched. *)
Lemma found_start_in_series (better : Q -> ext -> bool) (initial : ext)
    (lt : Q -> Q -> Prop) (data : list PriceRecord) (W W' : Z)
    (win : Window) :
  (forall a, better a initial = true) ->
  (forall a b, better a (Fin b) = true <-> lt a b) ->
  (forall a, ~ lt a a) ->
  (forall a b c, lt a b -> lt b c -> lt a c) ->
  (forall a b c, lt a c -> lt a b \/ lt b c) ->
  find_time_window better initial data W = Ret (Found W' win) ->
  exists r, In r data /\ start_time win = deliveryStart r.
Proof.
  intros H1 H2 H3 H4 H5 H.
  pose proof (find_time_window_found_inv _ _ _ _ H) as [HW Hn].
  destruct (@find_time_window_run better initial lt data W
              H1 H2 H3 H4 H5 HW Hn)
    as (i & win0 & Hi & Hrun & Hd & _).
  rewrite Hrun in H. inversion H; subst W' win0.
  destruct Hd as (_ & _ & _ & _ & _ & (r & Hf & Hs) & _).
  exists r. split; [|exact Hs].
  destruct (py_first_start _ Hf) as [_ Hin].
  apply py_slice_incl in Hin. now apply In_sorted_valid in Hin.
Qed.

Lemma tomorrow_detector_off (fromisoformat : string -> py datetime)
    (zoneinfo : zoneinfo_module) (system_utcoffset : Z -> Z)
    (search : list PriceRecord -> Z -> py WindowResult)
    (data : option (list PriceRecord)) (today W now : Z) (self : Detector) :
  (forall d w w' win,
     search d w = Ret (Found w' win) ->
     exists r, In r d /\ start_time win = deliveryStart r) ->
  (date_of now <= today)%Z ->
  _update_detector_state_tomorrow fromisoformat zoneinfo system_utcoffset
    self
    (_get_window_tomorrow fromisoformat zoneinfo system_utcoffset
       search data today W) now
  = Ret (mkDetector false).
Proof.
  intros Hsearch Hnow.
  unfold _update_detector_state_tomorrow, _get_window_tomorrow.
  set (td := _filter_data_by_date fromisoformat zoneinfo system_utcoffset
               data (today + 1)).
  assert (Htd : forall r, In r td ->
            keeps fromisoformat zoneinfo system_utcoffset (today + 1) r
            = true).
  { intros r Hr. unfold td, _filter_data_by_date in Hr.
    destruct data as [d|]; [|destruct Hr].
    now apply filter_In in Hr. }
  destruct td as [|r0 td0] eqn:Etd; [reflexivity|].
  set (d := r0 :: td0) in *.
  destruct (search d W) as [result|e] eqn:Es; cbn [bind]; [|reflexivity].
  destruct (detector_returns_bool fromisoformat zoneinfo system_utcoffset
              self (Ret result) now) as ([st] & Hret & Hact).
  rewrite Hret. f_equal. destruct st; [exfalso|reflexivity].
  destruct (Hact eq_refl)
    as (W' & win & s & sd & ed & sl & el & Ew & Est & Ps & Lb & Hin).
  inversion Ew; subst result.
  destruct (Hsearch _ _ _ _ Es) as (r & Hr & Hstart).
  apply Htd, keeps_iff in Hr.
  destruct Hr as (s' & dt & loc & Eds & _ & Pdt & Ldt & Hdate).
  rewrite Est, Eds in Hstart. inversion Hstart; subst s'.
  rewrite Ps in Pdt. inversion Pdt; subst dt.
  rewrite (local_bounds_start _ _ _ _ Lb) in Ldt. inversion Ldt; subst loc.
  pose proof (@before_next_day now sl today Hnow Hdate). lia.
Qed.

(** X14.  A tomorrow detector is never active while [now] is not past
    today: the window it looks at starts at a record of tomorrow's
    sub-series, so its local start lies on the next calendar day, after
    [now].  This holds for both detectors, whatever the data, the window
    length, the parser and the zone. *)
Theorem tomorrow_detector_is_never_active
    (fromisoformat : string -> py datetime) (zoneinfo : zoneinfo_module)
    (system_utcoffset : Z -> Z) (data : option (list PriceRecord))
    (today W now : Z) (self : Detector) :
  (date_of now <= today)%Z ->
  _update_detector_state_tomorrow fromisoformat zoneinfo system_utcoffset
    self
    (_get_window_tomorrow fromisoformat zoneinfo system_utcoffset
       find_cheapest_time_window data today W) now
  = Ret (mkDetector false)
  /\ _update_detector_state_tomorrow fromisoformat zoneinfo system_utcoffset
       self
       (_get_window_tomorrow fromisoformat zoneinfo system_utcoffset
          find_most_expensive_time_window data today W) now
     = Ret (mkDetector false).
Proof.
  intros Hnow. split; apply tomorrow_detector_off; try assumption.
  - intros d w w' win H.
    unfold find_cheapest_time_window in H.
    apply (@found_start_in_series fin_lt_ext PosInf Qlt) in H; auto.
    + intros a b. apply Qltb_lt.
    + intros a. apply Qlt_irrefl.
    + intros a b c. apply Qlt_trans.
    + intros a b c. apply Qlt_cotrans.
  - intros d w w' win H.
    unfold find_most_expensive_time_window in H.
    apply (@found_start_in_series fin_gt_ext NegInf (fun a b => Qlt b a))
      in H; auto.
    + intros a b. apply Qltb_lt.
    + intros a. apply Qlt_irrefl.
    + intros a b c H1 H2. eapply Qlt_trans; eauto.
    + intros a b c H0. destruct (Qlt_cotrans b H0); auto.
Qed.

Lemma tomorrow_detector_is_never_active_witness :
  _update_detector_state_tomorrow iso_parser (Zone cest) utc_system
    (mkDetector true)
    (_get_window_tomorrow iso_parser (Zone cest) utc_system
       find_cheapest_time_window (Some sample_day) 19874 2) (clock (-20) 0)
  = Ret (mkDetector false).
Proof.
  assert (H : (date_of (clock (-20) 0) <= 19874)%Z)
    by (apply Z.leb_le; reflexivity).
  exact (proj1 (@tomorrow_detector_is_never_active iso_parser (Zone cest)
                  utc_system (Some sample_day) 19874 2 (clock (-20) 0)
                  (mkDetector true) H)).
Defined.

(** ** The delay until the next fetch *)

Lemma fetch_time_fallback (time_fromisoformat : string -> py Z)
    (fetch_time_str : string) (t : Z) :
  time_fromisoformat fetch_time_str = Ret t
  \/ (time_fromisoformat fetch_time_str = Raise ValueError
      /\ time_fromisoformat DEFAULT_FETCH_TIME = Ret t) ->
  try_except (time_fromisoformat fetch_time_str) (fun e =>
    match e with
    | ValueError => time_fromisoformat DEFAULT_FETCH_TIME
    | _ => Raise e
    end) = Ret t.
Proof.
  intros [H | [H1 H2]].
  - now rewrite H.
  - rewrite H1. exact H2.
Qed.

(** X15.  When the configured fetch time parses to a time of day [t], or
    fails with [ValueError] while the default ["14:00"] parses to [t], the
    scheduled delay is positive, at most one day, and ends at the next moment
    whose time of day is [t]: a fetch time equal to the current time is
    scheduled a full day ahead, never at once. *)
Theorem next_fetch_is_next_occurrence (time_fromisoformat : string -> py Z)
    (fetch_time_str : string) (now t : Z) :
  time_fromisoformat fetch_time_str = Ret t
  \/ (time_fromisoformat fetch_time_str = Raise ValueError
      /\ time_fromisoformat DEFAULT_FETCH_TIME = Ret t) ->
  (0 <= t < one_day)%Z ->
  exists delay,
    next_fetch_delay time_fromisoformat fetch_time_str now = Ret delay
    /\ (0 < delay <= one_day)%Z
    /\ ((now + delay) mod one_day = t)%Z
    /\ ((now mod one_day)%Z = t -> delay = one_day).
Proof.
  intros Ht Hr.
  assert (Hd : (0 < one_day)%Z) by reflexivity.
  unfold next_fetch_delay. rewrite (fetch_time_fallback _ _ Ht). cbn [bind].
  change (date_of now) with (now / one_day)%Z.
  pose proof (Z.div_mod now one_day ltac:(lia)) as Hdm.
  pose proof (Z.mod_pos_bound now one_day Hd) as Hm.
  set (q := (now / one_day)%Z) in *. set (r := (now mod one_day)%Z) in *.
  assert (Hq : (q * one_day = now - r)%Z) by lia.
  destruct (Z.leb_spec (q * one_day + t) now) as [Hle | Hgt].
  - eexists. split; [reflexivity|]. split; [lia|]. split; [|lia].
    replace (now + (q * one_day + t + one_day - now))%Z
      with (t + (q + 1) * one_day)%Z by ring.
    rewrite Z_mod_plus_full. now apply Z.mod_small.
  - eexists. split; [reflexivity|]. split; [lia|]. split; [|lia].
    replace (now + (q * one_day + t - now))%Z
      with (t + q * one_day)%Z by ring.
    rewrite Z_mod_plus_full. now apply Z.mod_small.
Qed.

Lemma next_fetch_is_next_occurrence_witness :
  exists delay,
    next_fetch_delay parse_hhmm "25:00" (clock 15 0) = Ret delay
    /\ (0 < delay <= one_day)%Z
    /\ ((clock 15 0 + delay) mod one_day = hours 14)%Z
    /\ ((clock 15 0 mod one_day)%Z = hours 14 -> delay = one_day).
Proof.
  apply (@next_fetch_is_next_occurrence parse_hhmm "25:00" (clock 15 0)
           (hours 14)).
  - right. split; reflexivity.
  - split; [discriminate | reflexivity].
Defined.

(** ** Records built from a response *)

Section FetchFacts.

Variable fromisoformat : string -> py datetime.
Variable strftime : Z -> string -> string.

Lemma fetch_record_valid (item : Item) :
  is_valid_record (fetch_record fromisoformat strftime item)
  = item_complete item.
Proof.
  unfold is_valid_record, item_complete, fetch_record. cbn.
  destruct (item_price item), (item_deliveryStart item),
    (item_deliveryEnd item), (item_deliveryDay item); reflexivity.
Qed.

(** X16.  Every record built by [fetch_okte_data] carries both hour labels,
    so the window searches drop a fetched record exactly when the response
    item lacked its price, [deliveryStart], [deliveryEnd] or [deliveryDay];
    one record is built per item, and a failed request gives no records. *)
Theorem fetched_records_validity (response : py (list Item)) :
  let fetched := fetch_okte_data fromisoformat strftime response in
  (forall r, In r fetched ->
     HourStartCET r <> None /\ HourEndCET r <> None)
  /\ (forall items, response = Ret items ->
        len fetched = len items
        /\ valid_records fetched
           = map (fetch_record fromisoformat strftime)
               (filter item_complete items))
  /\ (forall e, response = Raise e -> fetched = []).
Proof.
  cbv zeta. split; [|split].
  - intros r Hr. destruct response as [items|e]; [|contradiction].
    cbn [fetch_okte_data] in Hr. apply in_map_iff in Hr.
    destruct Hr as (item & <- & _). split; discriminate.
  - intros items ->. cbn [fetch_okte_data]. split.
    + apply len_map.
    + unfold valid_records. induction items as [|item items IH];
        [reflexivity|].
      cbn [map filter]. rewrite fetch_record_valid.
      destruct (item_complete item); cbn [map]; now rewrite IH.
  - intros e ->. reflexivity.
Qed.

End FetchFacts.

(** ** The configuration store *)

Lemma window_search_returns (data : list PriceRecord) (W : Z) :
  (1 <= W)%Z ->
  exists c e,
    find_cheapest_time_window data W = Ret c
    /\ find_most_expensive_time_window data W = Ret e.
Proof.
  intros HW.
  destruct (Z.lt_ge_cases (len (valid_records data)) W) as [Hs | Hs].
  - destruct (find_time_window_short fin_lt_ext PosInf
                (data := data) (or_intror Hs)) as (m1 & H1).
    destruct (find_time_window_short fin_gt_ext NegInf
                (data := data) (or_intror Hs)) as (m2 & H2).
    now exists (NotFound m1), (NotFound m2).
  - destruct (cheapest_window_run data HW Hs) as (i & w1 & H1 & _).
    destruct (most_expensive_window_run data HW Hs) as (j & w2 & H2 & _).
    now exists (Found W w1), (Found W w2).
Qed.

Lemma dict_get_set_same (d : pydict) (k : string) (v : value) :
  dict_get (dict_set d k v) k = v.
Proof. unfold dict_get, dict_set. now rewrite String.eqb_refl. Qed.

Lemma dict_get_set_other (d : pydict) (k k' : string) (v : value) :
  String.eqb k' k = false ->
  dict_get (dict_set d k v) k' = dict_get d k'.
Proof. intros H. unfold dict_get, dict_set. now rewrite H. Qed.

Lemma py_or_int (n : Z) (b : value) : n <> 0%Z -> py_or (VInt n) b = VInt n.
Proof.
  intros H. unfold py_or, value_truthy.
  now destruct (Z.eqb_spec n 0).
Qed.

(** Recalculating touches the two window slots only. *)
Lemma recalculate_keeps (st : Store) :
  let st' := fst (_recalculate_time_windows st) in
  st_config st' = st_config st
  /\ st_options st' = st_options st
  /\ st_entry_options st' = st_entry_options st
  /\ st_data st' = st_data st
  /\ st_statistics st' = st_statistics st
  /\ st_connection_status st' = st_connection_status st.
Proof.
  unfold _recalculate_time_windows.
  destruct (st_data st) as [[|r data]|] eqn:Ed; cbv zeta; cbn [fst]; auto 10.
  destruct (search_with find_cheapest_time_window (r :: data)
              (_get_min_window_hours st));
    cbn [bind fst]; auto 10.
  destruct (search_with find_most_expensive_time_window (r :: data)
              (_get_max_window_hours st));
    cbn [bind fst]; cbn; auto 10.
Qed.

Lemma valid_window_hours_int (n : Z) :
  (1 <= n <= 24)%Z -> valid_window_hours (VInt n) = Some n.
Proof.
  intros H. unfold valid_window_hours.
  destruct (Z.ltb_spec n 1); [lia|].
  destruct (Z.gtb_spec n 24); [lia|]. reflexivity.
Qed.

Lemma valid_window_hours_inv (v : value) (n : Z) :
  valid_window_hours v = Some n -> v = VInt n /\ (1 <= n <= 24)%Z.
Proof.
  destruct v as [|k|s]; cbn; try discriminate.
  destruct (Z.ltb_spec k 1) as [L1 | L1]; [discriminate|].
  destruct (Z.gtb_spec k 24) as [L2 | L2]; [discriminate|].
  cbn. intros E. inversion E; subst. split; [reflexivity | lia].
Qed.

Lemma valid_window_hours_none (v : value) :
  (forall n, v = VInt n -> (n < 1 \/ 24 < n)%Z) ->
  valid_window_hours v = None.
Proof.
  intros H. destruct (valid_window_hours v) as [n|] eqn:E; [|reflexivity].
  apply valid_window_hours_inv in E. destruct E as [-> Hn].
  specialize (H n eq_refl). lia.
Qed.

(** The options written by an accepted call. *)
Lemma set_window_hours_accepted (key : string) (current : value) (st : Store)
    (n : Z) :
  (1 <= n <= 24)%Z ->
  let st' := set_window_hours key current st (Some (VInt n)) in
  st_config st' = st_config st
  /\ st_options st' = dict_set (st_entry_options st) key (VInt n)
  /\ st_entry_options st' = dict_set (st_entry_options st) key (VInt n)
  /\ st_data st' = st_data st.
Proof.
  intros Hn. unfold set_window_hours.
  rewrite (valid_window_hours_int Hn).
  match goal with |- context [_recalculate_time_windows ?s] =>
    pose proof (recalculate_keeps s) as K end.
  cbv zeta in *. cbn [st_config st_options st_entry_options st_data] in K.
  tauto.
Qed.

(** X17.  After a call with an integer between [1] and [24], the service's
    own setting reads back as that integer; the runtime options and the
    options of the entry agree; and, when they agreed before, the other
    window length is as it was. *)
Theorem window_hours_service_round_trip (st : Store) (n : Z) :
  (1 <= n <= 24)%Z ->
  let a := set_cheapest_window_hours_service st (Some (VInt n)) in
  let b := set_most_expensive_window_hours_service st (Some (VInt n)) in
  _get_min_window_hours a = VInt n
  /\ _get_max_window_hours b = VInt n
  /\ st_options a = st_entry_options a
  /\ st_options b = st_entry_options b
  /\ (st_options st = st_entry_options st ->
      _get_max_window_hours a = _get_max_window_hours st
      /\ _get_min_window_hours b = _get_min_window_hours st).
Proof.
  intros Hn a b.
  destruct (set_window_hours_accepted CONF_CHEAPEST_TIME_WINDOW_PERIOD
              (_get_min_window_hours st) st Hn) as (Ac & Ao & Ae & _).
  destruct (set_window_hours_accepted CONF_MOST_EXPENSIVE_TIME_WINDOW_PERIOD
              (_get_max_window_hours st) st Hn) as (Bc & Bo & Be & _).
  fold (set_cheapest_window_hours_service st (Some (VInt n))) in Ac, Ao, Ae.
  fold (set_most_expensive_window_hours_service st (Some (VInt n)))
    in Bc, Bo, Be.
  fold a in Ac, Ao, Ae. fold b in Bc, Bo, Be.
  unfold _get_min_window_hours, _get_max_window_hours.
  rewrite Ac, Ao, Ae, Bc, Bo, Be.
  rewrite !dict_get_set_same.
  rewrite !py_or_int by lia.
  repeat split; try reflexivity.
  - rewrite dict_get_set_other by reflexivity. now rewrite H.
  - rewrite dict_get_set_other by reflexivity. now rewrite H.
Qed.

Lemma window_hours_service_round_trip_witness :
  _get_min_window_hours
    (set_cheapest_window_hours_service sample_store (Some (VInt 3)))
  = VInt 3.
Proof.
  apply (@window_hours_service_round_trip sample_store 3). lia.
Defined.

Lemma set_window_hours_default (key : string) (st : Store) (d : value) :
  let current :=
    py_or (dict_get (st_options st) key) (dict_get_default (st_config st) key d) in
  let st' := set_window_hours key current st None in
  py_or (dict_get (st_options st') key)
    (dict_get_default (st_config st') key d) = current.
Proof.
  cbv zeta. unfold set_window_hours.
  destruct (valid_window_hours _) as [n|] eqn:E; [|reflexivity].
  apply valid_window_hours_inv in E. destruct E as [E Hn].
  match goal with |- context [_recalculate_time_windows ?s] =>
    destruct (recalculate_keeps s) as (Kc & Ko & _) end.
  cbn [st_config st_options] in Kc, Ko.
  rewrite Kc, Ko, dict_get_set_same, E.
  apply py_or_int. lia.
Qed.

(** X18.  A call whose [window_hours] is not an integer between [1] and
    [24] changes nothing in the store, and a call without [window_hours]
    leaves the service's setting at its current value. *)
Theorem window_hours_service_keeps_setting (st : Store) (v : value) :
  (forall n, v = VInt n -> (n < 1 \/ 24 < n)%Z) ->
  set_cheapest_window_hours_service st (Some v) = st
  /\ set_most_expensive_window_hours_service st (Some v) = st
  /\ _get_min_window_hours (set_cheapest_window_hours_service st None)
     = _get_min_window_hours st
  /\ _get_max_window_hours (set_most_expensive_window_hours_service st None)
     = _get_max_window_hours st.
Proof.
  intros H. pose proof (valid_window_hours_none H) as E.
  split; [|split; [|split]].
  - unfold set_cheapest_window_hours_service, set_window_hours. now rewrite E.
  - unfold set_most_expensive_window_hours_service, set_window_hours.
    now rewrite E.
  - apply (set_window_hours_default CONF_CHEAPEST_TIME_WINDOW_PERIOD st
             (VInt DEFAULT_CHEAPEST_TIME_WINDOW_PERIOD)).
  - apply (set_window_hours_default CONF_MOST_EXPENSIVE_TIME_WINDOW_PERIOD st
             (VInt DEFAULT_MOST_EXPENSIVE_TIME_WINDOW_PERIOD)).
Qed.

Lemma window_hours_service_keeps_setting_witness :
  set_cheapest_window_hours_service sample_store (Some (VInt 25))
  = sample_store.
Proof.
  apply (@window_hours_service_keeps_setting sample_store (VInt 25)).
  intros n E. inversion E. lia.
Defined.

(** What [_recalculate_time_windows] stores when both settings are integers
    of at least [1]. *)
Lemma recalculate_refreshes (st : Store) (data : list PriceRecord)
    (lo hi : Z) :
  st_data st = Some data -> data <> [] ->
  _get_min_window_hours st = VInt lo -> _get_max_window_hours st = VInt hi ->
  (1 <= lo)%Z -> (1 <= hi)%Z ->
  let st' := fst (_recalculate_time_windows st) in
  snd (_recalculate_time_windows st) = true
  /\ cached (find_cheapest_time_window data lo) (st_cheapest_window st')
  /\ cached (find_most_expensive_time_window data hi)
       (st_most_expensive_window st').
Proof.
  intros Hd Hne Hlo Hhi L H. cbv zeta.
  destruct (window_search_returns data L) as (c & _ & Hc & _).
  destruct (window_search_returns data H) as (_ & e & _ & He).
  unfold _recalculate_time_windows. rewrite Hd.
  destruct data as [|r data']; [congruence|].
  rewrite Hlo, Hhi. cbn [search_with]. rewrite Hc, He. cbn [bind].
  cbn [fst snd st_cheapest_window st_most_expensive_window].
  split; [reflexivity|]. split; eexists; eauto.
Qed.

(** X19.  With data in the store, runtime and entry options in agreement and
    the other window length an integer of at least [1], an accepted call
    leaves both window slots holding what the two searches return on the
    stored data: for the new length in the service's own slot, for the
    unchanged length in the other. *)
Theorem accepted_call_refreshes_windows (st : Store)
    (data : list PriceRecord) (n lo hi : Z) :
  st_data st = Some data -> data <> [] ->
  st_options st = st_entry_options st ->
  _get_min_window_hours st = VInt lo -> (1 <= lo)%Z ->
  _get_max_window_hours st = VInt hi -> (1 <= hi)%Z ->
  (1 <= n <= 24)%Z ->
  let a := set_cheapest_window_hours_service st (Some (VInt n)) in
  let b := set_most_expensive_window_hours_service st (Some (VInt n)) in
  cached (find_cheapest_time_window data n) (st_cheapest_window a)
  /\ cached (find_most_expensive_time_window data hi)
       (st_most_expensive_window a)
  /\ cached (find_cheapest_time_window data lo) (st_cheapest_window b)
  /\ cached (find_most_expensive_time_window data n)
       (st_most_expensive_window b).
Proof.
  intros Hd Hne Hsync Hlo L Hhi H Hn a b.
  assert (A : cached (find_cheapest_time_window data n) (st_cheapest_window a)
              /\ cached (find_most_expensive_time_window data hi)
                   (st_most_expensive_window a)).
  { subst a. unfold set_cheapest_window_hours_service, set_window_hours.
    rewrite (valid_window_hours_int Hn).
    match goal with |- context [_recalculate_time_windows ?s] =>
      destruct (@recalculate_refreshes s data n hi) as (_ & R1 & R2) end;
      try assumption; try lia; try reflexivity.
    - unfold _get_min_window_hours. cbn [st_options st_config].
      rewrite dict_get_set_same. apply py_or_int. lia.
    - unfold _get_max_window_hours in *. cbn [st_options st_config].
      rewrite dict_get_set_other by reflexivity. now rewrite <- Hsync.
    - split; assumption. }
  assert (B : cached (find_cheapest_time_window data lo) (st_cheapest_window b)
              /\ cached (find_most_expensive_time_window data n)
                   (st_most_expensive_window b)).
  { subst b. unfold set_most_expensive_window_hours_service, set_window_hours.
    rewrite (valid_window_hours_int Hn).
    match goal with |- context [_recalculate_time_windows ?s] =>
      destruct (@recalculate_refreshes s data lo n) as (_ & R1 & R2) end;
      try assumption; try lia; try reflexivity.
    - unfold _get_min_window_hours in *. cbn [st_options st_config].
      rewrite dict_get_set_other by reflexivity. now rewrite <- Hsync.
    - unfold _get_max_window_hours. cbn [st_options st_config].
      rewrite dict_get_set_same. apply py_or_int. lia.
    - split; assumption. }
  tauto.
Qed.

Lemma accepted_call_refreshes_windows_witness :
  cached (find_cheapest_time_window sample_day 3)
    (st_cheapest_window
       (set_cheapest_window_hours_service sample_store (Some (VInt 3)))).
Proof.
  apply (@accepted_call_refreshes_windows sample_store sample_day 3 5 5);
    try reflexivity; try lia; discriminate.
Defined.

(** X20.  [_fetch_data] with both window lengths integers: a non-empty
    answer and lengths of at least [1] replace data, statistics and both
    windows together, each computed from the new data, and mark the
    connection as working; an empty answer, or a length below [1], leaves
    data, statistics and windows as they were and marks the connection as
    failed. *)
Theorem fetch_data_outcome (st : Store) (fetched : list PriceRecord)
    (lo hi : Z) :
  _get_min_window_hours st = VInt lo -> _get_max_window_hours st = VInt hi ->
  (fetched <> [] -> (1 <= lo)%Z -> (1 <= hi)%Z ->
   exists statistics cheapest most_expensive,
     calculate_price_statistics fetched = Ret statistics
     /\ find_cheapest_time_window fetched lo = Ret cheapest
     /\ find_most_expensive_time_window fetched hi = Ret most_expensive
     /\ _fetch_data st fetched
        = mkStore (st_config st) (st_options st) (st_entry_options st)
            (Some fetched) (Some statistics) (Some cheapest)
            (Some most_expensive) true)
  /\ (fetched = [] \/ (lo < 1)%Z \/ (hi < 1)%Z ->
      _fetch_data st fetched = set_connection_status st false).
Proof.
  intros Hlo Hhi. split.
  - intros Hne L H.
    destruct (window_search_returns fetched L) as (c & _ & Hc & _).
    destruct (window_search_returns fetched H) as (_ & e & _ & He).
    assert (Hs : exists s, calculate_price_statistics fetched = Ret s).
    { destruct (known_prices fetched) as [|p ps] eqn:E.
      - eexists. now apply calculate_price_statistics_none.
      - destruct (@calculate_price_statistics_some fetched)
          as (a1 & a2 & a3 & a4 & Hs & _); [congruence|].
        eexists. exact Hs. }
    destruct Hs as (s & Hs).
    exists s, c, e. repeat split; try assumption.
    unfold _fetch_data. rewrite Hlo, Hhi. cbv zeta.
    destruct fetched as [|r data']; [congruence|].
    rewrite Hs. cbn [bind search_with]. rewrite Hc, He. reflexivity.
  - intros Hbad. unfold _fetch_data. rewrite Hlo, Hhi. cbv zeta.
    destruct fetched as [|r data'] eqn:Ef; [reflexivity|].
    destruct Hbad as [Hbad | Hbad]; [discriminate|].
    destruct (calculate_price_statistics (r :: data')); [|reflexivity].
    cbn [bind search_with].
    destruct (Z.lt_ge_cases lo 1) as [Hl | Hl].
    + unfold find_cheapest_time_window.
      rewrite nonpositive_window_raises by (congruence || assumption).
      reflexivity.
    + destruct Hbad as [Hbad | Hbad]; [lia|].
      destruct (find_cheapest_time_window (r :: data') lo); [|reflexivity].
      cbn [bind]. unfold find_most_expensive_time_window.
      rewrite nonpositive_window_raises by (congruence || assumption).
      reflexivity.
Qed.

Lemma fetch_data_outcome_witness :
  st_connection_status (_fetch_data sample_store sample_day) = true.
Proof.
  destruct (@fetch_data_outcome sample_store sample_day 5 5 eq_refl eq_refl)
    as [H _].
  destruct H as (s & c & e & _ & _ & _ & ->);
    [discriminate | lia | lia | reflexivity].
Defined.

(** ** Binary64: the order of the comparisons *)

Lemma SFcompare_antisym (a b : spec_float) (c : comparison) :
  SFcompare a b = Some c -> SFcompare b a = Some (CompOpp c).
Proof.
  destruct a as [sa|sa| |sa ma ea], b as [sb|sb| |sb mb eb]; cbn;
    try discriminate;
    try (destruct sa; intros H; inversion H; reflexivity);
    try (destruct sb; intros H; inversion H; reflexivity);
    try (destruct sa, sb; intros H; inversion H; reflexivity).
  change (Pos.compare_cont Eq ma mb) with (Pos.compare ma mb).
  change (Pos.compare_cont Eq mb ma) with (Pos.compare mb ma).
  rewrite (Z.compare_antisym ea eb), (Pos.compare_antisym ma mb).
  destruct sa, sb; intros H; inversion H; try reflexivity;
    destruct (ea ?= eb)%Z; cbn; try reflexivity;
    destruct (ma ?= mb)%positive; reflexivity.
Qed.

Lemma SFcompare_defined (a b : spec_float) :
  Binary64.is_nan a = false -> Binary64.is_nan b = false ->
  exists c, SFcompare a b = Some c.
Proof.
  destruct a, b; cbn; try discriminate; intros _ _; eexists; reflexivity.
Qed.

(** Rank of a float that is not NaN: sign class, then exponent and
    mantissa, compared lexicographically. *)
Lemma SFcompare_trans (a b c : spec_float) (x : comparison) :
  SFcompare a b = Some x -> SFcompare b c = Some x ->
  SFcompare a c = Some x.
Proof.
  destruct a as [sa|sa| |sa ma ea], b as [sb|sb| |sb mb eb],
    c as [sc|sc| |sc mc ec]; cbn; try discriminate;
    try (destruct sa; try destruct sb; try destruct sc; congruence);
    try (destruct sb; try destruct sc; congruence);
    try (destruct sa, sb; try destruct sc; congruence).
  change (Pos.compare_cont Eq ma mb) with (Pos.compare ma mb).
  change (Pos.compare_cont Eq mb mc) with (Pos.compare mb mc).
  change (Pos.compare_cont Eq ma mc) with (Pos.compare ma mc).
  destruct sa, sb, sc; try congruence;
    destruct (Z.compare_spec ea eb), (Z.compare_spec eb ec),
      (Z.compare_spec ea ec); try lia; try congruence;
    destruct (Pos.compare_spec ma mb), (Pos.compare_spec mb mc),
      (Pos.compare_spec ma mc); cbn; try lia; congruence.
Qed.

Lemma SFcompare_Eq_l (a b c : spec_float) (x : comparison) :
  SFcompare a b = Some Eq -> SFcompare b c = Some x ->
  SFcompare a c = Some x.
Proof.
  destruct a as [sa|sa| |sa ma ea], b as [sb|sb| |sb mb eb],
    c as [sc|sc| |sc mc ec]; cbn; try discriminate;
    try (destruct sa; try destruct sb; try destruct sc; congruence);
    try (destruct sb; try destruct sc; congruence);
    try (destruct sa, sb; try destruct sc; congruence).
  change (Pos.compare_cont Eq ma mb) with (Pos.compare ma mb).
  change (Pos.compare_cont Eq mb mc) with (Pos.compare mb mc).
  change (Pos.compare_cont Eq ma mc) with (Pos.compare ma mc).
  destruct sa, sb, sc; try congruence;
    destruct (Z.compare_spec ea eb); try discriminate;
    destruct (Pos.compare_spec ma mb); try discriminate; subst;
    intros _ H; exact H.
Qed.

Lemma SFcompare_Eq_r (a b c : spec_float) (x : comparison) :
  SFcompare a b = Some x -> SFcompare b c = Some Eq ->
  SFcompare a c = Some x.
Proof.
  intros H1 H2.
  apply SFcompare_antisym in H1, H2. cbn in H2.
  pose proof (SFcompare_Eq_l _ _ _ H2 H1) as H.
  apply SFcompare_antisym in H. now rewrite CompOpp_involutive in H.
Qed.

Module B64.

Import Binary64.

Lemma ltb_irrefl (a : float) : ltb a a = false.
Proof.
  unfold ltb, SFltb. destruct (SFcompare a a) as [[]|] eqn:E;
    try reflexivity.
  pose proof (SFcompare_antisym _ _ E) as E'. cbn in E'. congruence.
Qed.

Lemma ltb_trans (a b c : float) :
  ltb a b = true -> ltb b c = true -> ltb a c = true.
Proof.
  unfold ltb, SFltb.
  destruct (SFcompare a b) as [[]|] eqn:E1; try discriminate.
  destruct (SFcompare b c) as [[]|] eqn:E2; try discriminate.
  now rewrite (SFcompare_trans _ _ _ E1 E2).
Qed.

Lemma ltb_asym (a b : float) : ltb a b = true -> ltb b a = false.
Proof.
  intros H. destruct (ltb b a) eqn:E; [|reflexivity].
  pose proof (ltb_trans _ _ _ H E) as H'. now rewrite ltb_irrefl in H'.
Qed.

(** For floats that are not NaN, [a <= b] is the negation of [b < a]. *)
Lemma leb_not_ltb (a b : float) :
  is_nan a = false -> is_nan b = false ->
  leb a b = negb (ltb b a).
Proof.
  intros Ha Hb. destruct (SFcompare_defined a b Ha Hb) as (c & E).
  unfold leb, ltb, SFleb, SFltb.
  rewrite E, (SFcompare_antisym _ _ E). now destruct c.
Qed.

Lemma ltb_leb (a b : float) : ltb a b = true -> leb a b = true.
Proof.
  unfold ltb, leb, SFltb, SFleb. now destruct (SFcompare a b) as [[]|].
Qed.

(** [<] is a strict weak order on the floats that are not NaN. *)
Lemma ltb_cotrans (a b c : float) :
  is_nan b = false ->
  ltb a c = true -> ltb a b = true \/ ltb b c = true.
Proof.
  intros Hb H. unfold ltb, SFltb in *.
  destruct (SFcompare a c) as [[]|] eqn:Eac; try discriminate.
  assert (Ha : is_nan a = false) by (destruct a; cbn in *; congruence).
  destruct (SFcompare_defined a b Ha Hb) as (x & Eab).
  rewrite Eab. destruct x; auto; right.
  - apply SFcompare_antisym in Eab. cbn in Eab.
    now rewrite (SFcompare_Eq_l _ _ _ Eab Eac).
  - apply SFcompare_antisym in Eab. cbn in Eab.
    now rewrite (SFcompare_trans _ _ _ Eab Eac).
Qed.

Lemma leb_trans (a b c : float) :
  leb a b = true -> leb b c = true -> leb a c = true.
Proof.
  unfold leb, SFleb.
  destruct (SFcompare a b) as [[]|] eqn:E1; try discriminate;
    destruct (SFcompare b c) as [[]|] eqn:E2; try discriminate; intros _ _.
  - now rewrite (SFcompare_trans _ _ _ E1 E2).
  - now rewrite (SFcompare_Eq_l _ _ _ E1 E2).
  - now rewrite (SFcompare_Eq_r _ _ _ E1 E2).
  - now rewrite (SFcompare_trans _ _ _ E1 E2).
Qed.

Lemma ltb_not_nan (a b : float) :
  ltb a b = true -> is_nan a = false /\ is_nan b = false.
Proof. destruct a, b; cbn; intros H; try discriminate H; auto. Qed.

Lemma finite_not_nan (a : float) : is_finite a = true -> is_nan a = false.
Proof. now destruct a. Qed.

Lemma finite_below_inf (a : float) : is_finite a = true -> ltb a inf = true.
Proof. destruct a as [s|s| |s m e]; try discriminate; now destruct s. Qed.

Lemma finite_above_neg_inf (a : float) :
  is_finite a = true -> ltb neg_inf a = true.
Proof. destruct a as [s|s| |s m e]; try discriminate; now destruct s. Qed.

End B64.

(** ** Binary64: one iteration of the search loop *)

Section B64Window.

Import Binary64.

Variable py_sum : list float -> float.

Lemma b64_py_map_get_price (l : list PriceRecord) :
  Forall valid l -> py_map get_price l = Ret (float_prices l).
Proof.
  induction 1 as [|r l Hr _ IH]; [reflexivity|].
  cbn [py_map]. rewrite IH. apply valid_fields in Hr.
  unfold get_price, float_prices. cbn [map].
  destruct (price r); [reflexivity|intuition congruence].
Qed.

Lemma len_float_prices (w : list PriceRecord) : len (float_prices w) = len w.
Proof. apply len_map. Qed.

Lemma b64_py_min_cons (l : list float) :
  l <> [] -> exists x, py_min l = Ret x.
Proof. destruct l; [congruence|]. intros _. eexists. reflexivity. Qed.

Lemma b64_py_max_cons (l : list float) :
  l <> [] -> exists x, py_max l = Ret x.
Proof. destruct l; [congruence|]. intros _. eexists. reflexivity. Qed.

Lemma b64_window_step_run (better : float -> float -> bool)
    (sv : list PriceRecord) (W : Z) (st : float * option Window) (i : Z) :
  Forall valid sv -> (1 <= W)%Z -> (0 <= i)%Z -> (i + W <= len sv)%Z ->
  exists win,
    describes py_sum win (window_at sv W i)
    /\ window_step py_sum better sv W st i =
       Ret (if better (computed_average py_sum (window_at sv W i)) (fst st)
            then (computed_average py_sum (window_at sv W i), Some win)
            else st).
Proof.
  intros Hv HW Hi Hn. unfold window_step. fold (window_at sv W i).
  set (w := window_at sv W i).
  assert (Hlen : len w = W) by (apply window_at_len; assumption).
  assert (Hne : w <> []) by (apply len_pos_nonempty; lia).
  assert (Hpne : float_prices w <> []).
  { intro E. apply Hne. now apply map_eq_nil in E. }
  rewrite (b64_py_map_get_price (l := w))
    by (apply Forall_py_slice; assumption).
  cbn [bind]. unfold py_div. rewrite len_float_prices, Hlen.
  destruct (Z.eqb_spec W 0); [lia|]. cbn [bind].
  destruct (py_first_cons Hne) as [r1 E1].
  destruct (py_last_cons Hne) as [r2 E2].
  destruct (b64_py_min_cons Hpne) as [lo Elo].
  destruct (b64_py_max_cons Hpne) as [hi Ehi].
  rewrite E1, E2, Elo, Ehi. cbn [bind].
  eexists. split; cycle 1.
  - unfold computed_average. rewrite Hlen.
    destruct (better _ (fst st)); reflexivity.
  - unfold describes, computed_average; cbn. rewrite Hlen.
    repeat split; try assumption.
    + symmetry. now apply py_first_start.
    + symmetry. now apply py_last_end.
Qed.

(** ** Binary64: the search loop

    [better a b = true] reads "[a] is strictly better than [b]": [a < b]
    for the cheapest window, [a > b] for the most expensive one.  The
    averages the loop meets are assumed finite. *)

Section SearchLoop.

Variable better : float -> float -> bool.
Variable initial : float.

Hypothesis better_initial :
  forall a, is_finite a = true -> better a initial = true.
Hypothesis better_irrefl : forall a, better a a = false.
Hypothesis better_trans :
  forall a b c, better a b = true -> better b c = true -> better a c = true.
Hypothesis better_cotrans :
  forall a b c, is_finite b = true ->
    better a c = true -> better a b = true \/ better b c = true.

Variable sv : list PriceRecord.
Variable W : Z.
Hypothesis sv_valid : Forall valid sv.
Hypothesis W_pos : (1 <= W)%Z.

Let average (i : Z) : float := computed_average py_sum (window_at sv W i).

Hypothesis averages_finite :
  forall i, (0 <= i <= len sv - W)%Z -> is_finite (average i) = true.

(** After [m] iterations the state holds the first best window among the
    offsets [0 .. m-1]. *)
Lemma b64_search_loop_invariant (k : nat) :
  (Z.of_nat (S k) <= len sv - W + 1)%Z ->
  exists b win,
    (0 <= b < Z.of_nat (S k))%Z
    /\ py_for (py_range (Z.of_nat (S k))) (window_step py_sum better sv W)
         (initial, None)
       = Ret (average b, Some win)
    /\ describes py_sum win (window_at sv W b)
    /\ (forall j, (0 <= j < Z.of_nat (S k))%Z ->
          better (average j) (average b) = false)
    /\ (forall j, (0 <= j < b)%Z ->
          better (average b) (average j) = true).
Proof.
  induction k as [|k IH]; intros Hk.
  - destruct (b64_window_step_run better (initial, None) sv_valid W_pos
                (Z.le_refl 0)) as (win & Hd & Hs); [lia|].
    exists 0%Z, win. cbn [fst] in Hs.
    fold (average 0) in Hs.
    rewrite better_initial in Hs by (apply averages_finite; lia).
    change (py_range (Z.of_nat 1)) with [0%Z]. cbn [py_for]. rewrite Hs.
    cbn [bind]. split; [lia|]. split; [reflexivity|]. split; [exact Hd|].
    split; [|lia].
    intros j Hj. replace j with 0%Z by lia. apply better_irrefl.
  - destruct IH as (b & win & Hb & Hrun & Hd & Hmin & Hfirst); [lia|].
    set (m := Z.of_nat (S k)) in *.
    replace (Z.of_nat (S (S k))) with (m + 1)%Z by lia.
    rewrite py_range_succ, py_for_app, Hrun by lia. cbn [bind py_for].
    destruct (b64_window_step_run better (average b, Some win)
                sv_valid W_pos (i := m)) as (win' & Hd' & Hs); [lia|lia|].
    rewrite Hs. cbn [fst bind]. fold (average m).
    destruct (better (average m) (average b)) eqn:E.
    + exists m, win'.
      split; [lia|]. split; [reflexivity|]. split; [exact Hd'|]. split.
      * intros j Hj. destruct (Z.eq_dec j m) as [->|Hne].
        -- apply better_irrefl.
        -- destruct (better (average j) (average m)) eqn:Ej;
             [|reflexivity].
           rewrite <- (Hmin j) by lia. symmetry.
           eapply better_trans; eauto.
      * intros j Hj.
        destruct (@better_cotrans (average m) (average j) (average b))
          as [H|H]; [apply averages_finite; lia|exact E|exact H|].
        rewrite Hmin in H by lia. discriminate H.
    + exists b, win.
      split; [lia|]. split; [reflexivity|]. split; [exact Hd|].
      split; [|exact Hfirst].
      intros j Hj. destruct (Z.eq_dec j m) as [->|Hne].
      * exact E.
      * apply Hmin. lia.
Qed.

End SearchLoop.

(** The whole search, for a series with enough valid records and finite
    window averages. *)
Lemma b64_find_time_window_run (better : float -> float -> bool)
    (initial : float) (data : list PriceRecord) (W : Z) :
  (forall a, is_finite a = true -> better a initial = true) ->
  (forall a, better a a = false) ->
  (forall a b c,
     better a b = true -> better b c = true -> better a c = true) ->
  (forall a b c, is_finite b = true ->
     better a c = true -> better a b = true \/ better b c = true) ->
  (1 <= W)%Z -> (W <= len (valid_records data))%Z ->
  let sv := sorted_valid data in
  let average i := computed_average py_sum (window_at sv W i) in
  (forall i, (0 <= i <= len sv - W)%Z -> is_finite (average i) = true) ->
  exists i win,
    (0 <= i <= len sv - W)%Z
    /\ find_time_window py_sum better initial data W = Ret (Found W win)
    /\ describes py_sum win (window_at sv W i)
    /\ (forall j, (0 <= j <= len sv - W)%Z ->
          better (average j) (average i) = false)
    /\ (forall j, (0 <= j < i)%Z -> better (average i) (average j) = true).
Proof.
  intros H1 H2 H3 H4 HW Hn sv average Hfin.
  pose proof (len_valid_records_le data) as Hle.
  pose proof (len_sorted_valid data) as Hsv. fold sv in Hsv.
  unfold find_time_window.
  rewrite nonempty_match by (apply len_pos_nonempty; lia).
  destruct (Z.ltb_spec (len data) W); [lia|].
  destruct (Z.ltb_spec (len (valid_records data)) W); [lia|].
  rewrite (sort_by_deliveryStart_valid (valid_records_Forall data)).
  fold (sorted_valid data). fold sv.
  set (k := Z.to_nat (len sv - W)).
  replace (len sv - W + 1)%Z with (Z.of_nat (S k)) by lia.
  destruct (@b64_search_loop_invariant better initial H1 H2 H3 H4 sv W
              (sorted_valid_Forall data) HW Hfin k)
    as (b & win & Hb & Hrun & Hd & Hmin & Hfirst); [lia|].
  exists b, win. rewrite Hrun. cbn [bind snd].
  split; [lia|]. split; [reflexivity|]. split; [exact Hd|].
  split; [|exact Hfirst].
  intros j Hj. apply Hmin. lia.
Qed.

End B64Window.

(** ** Binary64: the single-best window search *)

Section B64Best.

Import Binary64.

Variable py_sum : list float -> float.

Lemma averages_finite_at (sv : list PriceRecord) (W i : Z) :
  averages_finite py_sum sv W = true ->
  (0 <= i <= len sv - W)%Z ->
  is_finite (computed_average py_sum (window_at sv W i)) = true.
Proof.
  unfold averages_finite. rewrite forallb_forall. intros H Hi.
  apply H, In_py_range. lia.
Qed.

Lemma b64_cheapest_window_run (data : list PriceRecord) (W : Z) :
  (1 <= W)%Z -> (W <= len (valid_records data))%Z ->
  averages_finite py_sum (sorted_valid data) W = true ->
  let average := computed_average py_sum in
  exists i win,
    find_cheapest_time_window py_sum data W = Ret (Found W win)
    /\ contiguous_run (sorted_valid data) W i (records win)
    /\ describes py_sum win (records win)
    /\ (forall j run, contiguous_run (sorted_valid data) W j run ->
          leb (average (records win)) (average run) = true)
    /\ (forall j run, contiguous_run (sorted_valid data) W j run ->
          (j < i)%Z ->
          ltb (average (records win)) (average run) = true).
Proof.
  intros HW Hn Hfin average.
  pose proof (len_sorted_valid data) as Hsv.
  destruct (@b64_find_time_window_run py_sum ltb inf data W)
    as (i & win & Hi & Hrun & Hd & Hbest & Hfirst); auto.
  - apply B64.finite_below_inf.
  - apply B64.ltb_irrefl.
  - apply B64.ltb_trans.
  - intros a b c Hb. apply B64.ltb_cotrans. now apply B64.finite_not_nan.
  - intros j Hj. now apply averages_finite_at.
  - assert (Hrec : records win = window_at (sorted_valid data) W i)
      by apply Hd.
    exists i, win. rewrite Hrec.
    split; [exact Hrun|].
    split; [apply window_at_contiguous_run; lia|].
    split; [exact Hd|]. split.
    + intros j run Hj. rewrite <- (contiguous_run_window_at Hj).
      pose proof (contiguous_run_offset Hj) as Hoff.
      unfold average. rewrite B64.leb_not_ltb.
      * now rewrite Hbest.
      * apply B64.finite_not_nan. now apply averages_finite_at.
      * apply B64.finite_not_nan. now apply averages_finite_at.
    + intros j run Hj Hlt. rewrite <- (contiguous_run_window_at Hj).
      apply Hfirst. pose proof (contiguous_run_offset Hj). lia.
Qed.

Lemma b64_most_expensive_window_run (data : list PriceRecord) (W : Z) :
  (1 <= W)%Z -> (W <= len (valid_records data))%Z ->
  averages_finite py_sum (sorted_valid data) W = true ->
  let average := computed_average py_sum in
  exists i win,
    find_most_expensive_time_window py_sum data W = Ret (Found W win)
    /\ contiguous_run (sorted_valid data) W i (records win)
    /\ describes py_sum win (records win)
    /\ (forall j run, contiguous_run (sorted_valid data) W j run ->
          leb (average run) (average (records win)) = true)
    /\ (forall j run, contiguous_run (sorted_valid data) W j run ->
          (j < i)%Z ->
          ltb (average run) (average (records win)) = true).
Proof.
  intros HW Hn Hfin average.
  pose proof (len_sorted_valid data) as Hsv.
  destruct (@b64_find_time_window_run py_sum
              (fun avg best_avg => ltb best_avg avg) neg_inf data W)
    as (i & win & Hi & Hrun & Hd & Hbest & Hfirst); auto.
  - apply B64.finite_above_neg_inf.
  - apply B64.ltb_irrefl.
  - intros a b c H1 H2. eapply B64.ltb_trans; eauto.
  - intros a b c Hb H.
    destruct (B64.ltb_cotrans c b a (B64.finite_not_nan _ Hb) H); auto.
  - intros j Hj. now apply averages_finite_at.
  - assert (Hrec : records win = window_at (sorted_valid data) W i)
      by apply Hd.
    exists i, win. rewrite Hrec.
    split; [exact Hrun|].
    split; [apply window_at_contiguous_run; lia|].
    split; [exact Hd|]. split.
    + intros j run Hj. rewrite <- (contiguous_run_window_at Hj).
      pose proof (contiguous_run_offset Hj) as Hoff.
      unfold average. rewrite B64.leb_not_ltb.
      * now rewrite Hbest.
      * apply B64.finite_not_nan. now apply averages_finite_at.
      * apply B64.finite_not_nan. now apply averages_finite_at.
    + intros j run Hj Hlt. rewrite <- (contiguous_run_window_at Hj).
      apply Hfirst. pose proof (contiguous_run_offset Hj). lia.
Qed.

(** C1 (amended).  When at least [W >= 1] valid records remain after
    filtering and the average of every window, as the code computes it in
    binary64 ([sum(window_prices) / len(window_prices)]), is finite,
    [find_cheapest_time_window] returns a found window whose computed
    average is at most the computed average of every contiguous run of [W]
    consecutive entries of the sorted valid data, and strictly below that
    of every run that starts earlier, so the earliest window with the best
    computed average is the one returned;
    [find_most_expensive_time_window] does the same with the order
    reversed.  This holds whatever summation the interpreter uses. *)
Theorem best_window_is_optimal (data : list PriceRecord) (W : Z) :
  (1 <= W)%Z -> (W <= len (valid_records data))%Z ->
  averages_finite py_sum (sorted_valid data) W = true ->
  let average := computed_average py_sum in
  (exists i r win,
     find_cheapest_time_window py_sum data W = Ret r
     /\ found r = true /\ r = Found W win
     /\ contiguous_run (sorted_valid data) W i (records win)
     /\ (forall j run, contiguous_run (sorted_valid data) W j run ->
           leb (average (records win)) (average run) = true)
     /\ (forall j run, contiguous_run (sorted_valid data) W j run ->
           (j < i)%Z ->
           ltb (average (records win)) (average run) = true))
  /\
  (exists i r win,
     find_most_expensive_time_window py_sum data W = Ret r
     /\ found r = true /\ r = Found W win
     /\ contiguous_run (sorted_valid data) W i (records win)
     /\ (forall j run, contiguous_run (sorted_valid data) W j run ->
           leb (average run) (average (records win)) = true)
     /\ (forall j run, contiguous_run (sorted_valid data) W j run ->
           (j < i)%Z ->
           ltb (average run) (average (records win)) = true)).
Proof.
  intros HW Hn Hfin average. split.
  - destruct (b64_cheapest_window_run data HW Hn Hfin)
      as (i & win & Hrun & Hc & Hd & Hbest & Hfirst).
    exists i, (Found W win), win. repeat split; auto.
  - destruct (b64_most_expensive_window_run data HW Hn Hfin)
      as (i & win & Hrun & Hc & Hd & Hbest & Hfirst).
    exists i, (Found W win), win. repeat split; auto.
Qed.

(** C10 (amended).  The winning window is chosen by the unrounded averages
    as the code computes them in binary64, and only the reported
    [avg_price] and [total_cost_per_mwh] are rounded: they are
    [round(_, 2)] of the computed average and of the computed sum of the
    selected window.  A run whose computed average is strictly worse than
    that of another run is never the one returned, whatever their rounded
    values. *)
Theorem selection_uses_unrounded_average (data : list PriceRecord) (W : Z) :
  (1 <= W)%Z -> (W <= len (valid_records data))%Z ->
  averages_finite py_sum (sorted_valid data) W = true ->
  let average := computed_average py_sum in
  (exists win,
     find_cheapest_time_window py_sum data W = Ret (Found W win)
     /\ avg_price win = py_round2 (average (records win))
     /\ total_cost_per_mwh win
        = py_round2 (py_sum (float_prices (records win)))
     /\ forall j1 run1 j2 run2,
          contiguous_run (sorted_valid data) W j1 run1 ->
          contiguous_run (sorted_valid data) W j2 run2 ->
          ltb (average run1) (average run2) = true ->
          records win <> run2)
  /\
  (exists win,
     find_most_expensive_time_window py_sum data W = Ret (Found W win)
     /\ avg_price win = py_round2 (average (records win))
     /\ total_cost_per_mwh win
        = py_round2 (py_sum (float_prices (records win)))
     /\ forall j1 run1 j2 run2,
          contiguous_run (sorted_valid data) W j1 run1 ->
          contiguous_run (sorted_valid data) W j2 run2 ->
          ltb (average run2) (average run1) = true ->
          records win <> run2).
Proof.
  intros HW Hn Hfin average. split.
  - destruct (b64_cheapest_window_run data HW Hn Hfin)
      as (i & win & Hrun & Hc & Hd & Hbest & Hfirst).
    exists win. split; [exact Hrun|].
    split; [apply Hd|]. split; [apply Hd|].
    intros j1 run1 j2 run2 H1 H2 Hlt E. subst run2.
    specialize (Hbest _ _ H1). fold average in Hbest.
    destruct (B64.ltb_not_nan _ _ Hlt) as [N1 N2].
    rewrite B64.leb_not_ltb, Hlt in Hbest by assumption.
    discriminate Hbest.
  - destruct (b64_most_expensive_window_run data HW Hn Hfin)
      as (i & win & Hrun & Hc & Hd & Hbest & Hfirst).
    exists win. split; [exact Hrun|].
    split; [apply Hd|]. split; [apply Hd|].
    intros j1 run1 j2 run2 H1 H2 Hlt E. subst run2.
    specialize (Hbest _ _ H1). fold average in Hbest.
    destruct (B64.ltb_not_nan _ _ Hlt) as [N1 N2].
    rewrite B64.leb_not_ltb, Hlt in Hbest by assumption.
    discriminate Hbest.
Qed.

End B64Best.

Lemma best_window_is_optimal_witness :
  exists win,
    Binary64.find_cheapest_time_window Binary64.sum_left_to_right
      sample_day 2 = Ret (Binary64.Found 2 win).
Proof.
  assert (H1 : (1 <= 2)%Z) by lia.
  assert (H2 : (2 <= len (valid_records sample_day))%Z)
    by (apply Z.leb_le; reflexivity).
  assert (H3 : Binary64.averages_finite Binary64.sum_left_to_right
                 (sorted_valid sample_day) 2 = true) by reflexivity.
  destruct (best_window_is_optimal Binary64.sum_left_to_right
              sample_day H1 H2 H3)
    as [(i & r & win & Hr & _ & -> & _) _].
  exists win. exact Hr.
Defined.

(** C1, as stated, fails in binary64.  Two valid records priced [1e308]
    give no window of two hours at all: their sum overflows to [inf], which
    is not below the initial [float('inf')].  And on the prices
    [0.4, 0.4, 5, 0.1, 0.7] the pairs at offsets [0] and [3] both average
    [0.4], the least average, yet the search returns the pair at offset
    [3]: its computed average is [0.39999999999999997]. *)
Lemma best_window_fails_in_binary64 :
  (len (valid_records huge_pair) = 2%Z
   /\ Binary64.find_cheapest_time_window Binary64.sum_left_to_right
        huge_pair 2
      = Ret (Binary64.NotFound NoSuitableWindow)
   /\ Binary64.found (Binary64.NotFound NoSuitableWindow) = false)
  /\
  (map (fun i => Qred (window_average (window_at (sorted_valid tied_pairs)
                                         2 i)))
     [0; 1; 2; 3]%Z
   = [2 # 5; 27 # 10; 51 # 20; 2 # 5]
   /\ exists win,
        Binary64.find_cheapest_time_window Binary64.sum_left_to_right
          tied_pairs 2 = Ret (Binary64.Found 2 win)
        /\ Binary64.records win = window_at (sorted_valid tied_pairs) 2 3
        /\ Binary64.records win <> window_at (sorted_valid tied_pairs) 2 0).
Proof.
  split; [|split].
  - split; [reflexivity|]. split; [vm_compute; reflexivity|reflexivity].
  - vm_compute. reflexivity.
  - eexists. split; [vm_compute; reflexivity|].
    split; [reflexivity|]. vm_compute. discriminate.
Qed.

Lemma selection_uses_unrounded_average_witness :
  exists win,
    Binary64.find_most_expensive_time_window Binary64.sum_left_to_right
      sample_day 2 = Ret (Binary64.Found 2 win)
    /\ Binary64.avg_price win
       = Binary64.py_round2
           (Binary64.computed_average Binary64.sum_left_to_right
              (Binary64.records win)).
Proof.
  assert (H1 : (1 <= 2)%Z) by lia.
  assert (H2 : (2 <= len (valid_records sample_day))%Z)
    by (apply Z.leb_le; reflexivity).
  assert (H3 : Binary64.averages_finite Binary64.sum_left_to_right
                 (sorted_valid sample_day) 2 = true) by reflexivity.
  destruct (selection_uses_unrounded_average Binary64.sum_left_to_right
              sample_day H1 H2 H3)
    as [_ (win & Hr & Ha & _)].
  exists win. split; assumption.
Defined.

(** C10, as stated, fails in binary64: the reported [avg_price] is not the
    average of the selected window rounded to two decimals.  For the prices
    [2.67] and [2.68] the average is [2.675], which rounds to [2.68], both
    for the prices as written and for the floats Python holds for them
    (their exact mean lies just above [2.675]); the code adds the two
    floats to [5.35], halves that to a float just below [2.675], and
    reports [2.67]. *)
Lemma avg_price_is_not_the_rounded_mean :
  exists win,
    Binary64.find_cheapest_time_window Binary64.sum_left_to_right
      half_cent_pair 2 = Ret (Binary64.Found 2 win)
    /\ Binary64.records win = half_cent_pair
    /\ Binary64.avg_price win = Binary64.of_Q (267 # 100)
    /\ Qred (window_average half_cent_pair) = 107 # 40
    /\ Qred (py_round2 (window_average half_cent_pair)) = 67 # 25
    /\ round_half_even (Binary64.exact_average half_cent_pair * 100) = 268%Z
    /\ Binary64.of_Q (267 # 100) <> Binary64.of_Q (268 # 100).
Proof.
  eexists. split; [vm_compute; reflexivity|].
  repeat split; try (vm_compute; reflexivity). vm_compute. discriminate.
Qed.

(** Selection by the unrounded average: in [near_tie_falling] and
    [near_tie_rising] the two one-hour windows round to the same
    [avg_price], and the search still returns the later window, whose
    computed average is strictly better. *)
Example near_tie_selection :
  (exists early late win,
     near_tie_falling = [early; late]
     /\ Binary64.py_round2
          (Binary64.computed_average Binary64.sum_left_to_right [early])
        = Binary64.py_round2
            (Binary64.computed_average Binary64.sum_left_to_right [late])
     /\ Binary64.ltb
          (Binary64.computed_average Binary64.sum_left_to_right [late])
          (Binary64.computed_average Binary64.sum_left_to_right [early])
        = true
     /\ Binary64.find_cheapest_time_window Binary64.sum_left_to_right
          near_tie_falling 1 = Ret (Binary64.Found 1 win)
     /\ Binary64.records win = [late])
  /\
  (exists early late win,
     near_tie_rising = [early; late]
     /\ Binary64.py_round2
          (Binary64.computed_average Binary64.sum_left_to_right [early])
        = Binary64.py_round2
            (Binary64.computed_average Binary64.sum_left_to_right [late])
     /\ Binary64.ltb
          (Binary64.computed_average Binary64.sum_left_to_right [early])
          (Binary64.computed_average Binary64.sum_left_to_right [late])
        = true
     /\ Binary64.find_most_expensive_time_window Binary64.sum_left_to_right
          near_tie_rising 1 = Ret (Binary64.Found 1 win)
     /\ Binary64.records win = [late]).
Proof.
  split.
  - do 3 eexists. split; [reflexivity|].
    split; [vm_compute; reflexivity|]. split; [vm_compute; reflexivity|].
    split; [vm_compute; reflexivity|reflexivity].
  - do 3 eexists. split; [reflexivity|].
    split; [vm_compute; reflexivity|]. split; [vm_compute; reflexivity|].
    split; [vm_compute; reflexivity|reflexivity].
Qed.

(** ** Binary64: enumerating and ranking windows *)

Section B64Rank.

Import Binary64.

Variable py_sum : list float -> float.

Lemma b64_ranked_window_at_run (sv : list PriceRecord) (W i : Z) :
  Forall valid sv -> (1 <= W)%Z -> (0 <= i)%Z -> (i + W <= len sv)%Z ->
  ranked_window_at py_sum sv W i
  = Ret (ranked_window py_sum (window_at sv W i)).
Proof.
  intros Hv HW Hi Hn. unfold ranked_window_at, ranked_window.
  fold (window_at sv W i). set (w := window_at sv W i).
  assert (Hlen : len w = W) by (apply window_at_len; assumption).
  assert (Hne : w <> []) by (apply len_pos_nonempty; lia).
  rewrite (b64_py_map_get_price (l := w))
    by (apply Forall_py_slice; assumption).
  cbn [bind]. unfold py_div. rewrite len_float_prices, Hlen.
  destruct (Z.eqb_spec W 0); [lia|]. cbn [bind].
  unfold computed_average, first_start, last_end, py_first, py_last.
  rewrite Hlen. destruct w as [|r w']; [congruence|].
  destruct (rev (r :: w')) eqn:E; [|reflexivity].
  apply (f_equal (@rev PriceRecord)) in E. rewrite rev_involutive in E.
  discriminate E.
Qed.

Lemma b64_enumerate_windows_run (sv : list PriceRecord) (W : Z) :
  Forall valid sv -> (1 <= W)%Z ->
  enumerate_windows py_sum sv W = Ret (candidate_windows py_sum sv W).
Proof.
  intros Hv HW. unfold enumerate_windows, candidate_windows.
  apply py_map_pure. intros i Hi. apply In_py_range in Hi.
  apply b64_ranked_window_at_run; try assumption; lia.
Qed.

Lemma b64_find_multiple_windows_run
    (before : RankedWindow -> RankedWindow -> bool)
    (data : list PriceRecord) (W k : Z) :
  (1 <= W)%Z -> (W <= len (valid_records data))%Z ->
  find_multiple_windows py_sum before data W k =
  Ret (py_prefix
         (stable_sort before
            (candidate_windows py_sum (sorted_valid data) W)) k).
Proof.
  intros HW Hn. pose proof (len_valid_records_le data) as Hle.
  unfold find_multiple_windows.
  rewrite nonempty_match by (apply len_pos_nonempty; lia).
  destruct (Z.ltb_spec (len data) W); [lia|].
  destruct (Z.ltb_spec (len (valid_records data)) W); [lia|].
  rewrite (sort_by_deliveryStart_valid (valid_records_Forall data)).
  fold (sorted_valid data).
  rewrite b64_enumerate_windows_run
    by (assumption || apply sorted_valid_Forall).
  reflexivity.
Qed.

Lemma b64_find_multiple_windows_short
    (before : RankedWindow -> RankedWindow -> bool)
    (data : list PriceRecord) (W k : Z) :
  data = [] \/ (len (valid_records data) < W)%Z ->
  find_multiple_windows py_sum before data W k = Ret [].
Proof.
  unfold find_multiple_windows. intros [-> | Hn]; [reflexivity|].
  destruct data as [|r data']; [reflexivity|].
  destruct (Z.ltb_spec (len (r :: data')) W); [reflexivity|].
  destruct (Z.ltb_spec (len (valid_records (r :: data'))) W);
    [reflexivity|lia].
Qed.

Lemma b64_len_candidate_windows (data : list PriceRecord) (W : Z) :
  len (candidate_windows py_sum (sorted_valid data) W)
  = number_of_windows data W.
Proof.
  unfold candidate_windows, number_of_windows, len at 1, py_range.
  rewrite !length_map, length_seq, len_sorted_valid. lia.
Qed.

Lemma b64_In_candidate_windows (sv : list PriceRecord) (W : Z)
    (w : RankedWindow) :
  In w (candidate_windows py_sum sv W) <->
  exists i,
    (0 <= i <= len sv - W)%Z /\ w = ranked_window py_sum (window_at sv W i).
Proof.
  unfold candidate_windows. rewrite in_map_iff. split.
  - intros (i & <- & Hi). apply In_py_range in Hi. exists i.
    split; [lia|auto].
  - intros (i & Hi & ->). exists i. split; [reflexivity|].
    apply In_py_range. lia.
Qed.

(** The ranking of a call, for a window length of at least [1]: what the
    call returns is a slice of it. *)
Lemma b64_ranking (before : RankedWindow -> RankedWindow -> bool)
    (data : list PriceRecord) (W : Z) :
  (1 <= W)%Z ->
  exists ranked,
    len ranked = number_of_windows data W
    /\ (forall k,
          find_multiple_windows py_sum before data W k
          = Ret (py_prefix ranked k))
    /\ (forall w, In w ranked ->
          In w (candidate_windows py_sum (sorted_valid data) W)).
Proof.
  intros HW.
  destruct (Z.lt_ge_cases (len (valid_records data)) W) as [Hs | Hs].
  - exists []. split; [|split].
    + unfold number_of_windows. unfold len at 1. cbn. lia.
    + intros k. rewrite b64_find_multiple_windows_short by (now right).
      unfold py_prefix, py_slice. cbn. now rewrite firstn_nil.
    + intros w [].
  - exists (stable_sort before
              (candidate_windows py_sum (sorted_valid data) W)).
    split; [|split].
    + rewrite len_stable_sort. apply b64_len_candidate_windows.
    + intros k. now apply b64_find_multiple_windows_run.
    + intros w Hw.
      now apply (Permutation_in _ (stable_sort_perm before _)) in Hw.
Qed.

Lemma len_py_prefix_nonneg {A : Type} (l : list A) (k : Z) :
  (0 <= k)%Z -> len (py_prefix l k) = Z.min k (len l).
Proof.
  intros Hk. rewrite py_prefix_nonneg by assumption.
  unfold len. rewrite length_firstn. lia.
Qed.

Lemma b64_prefix_property
    (before : RankedWindow -> RankedWindow -> bool)
    (data : list PriceRecord) (W k : Z) :
  (0 <= k)%Z ->
  match find_multiple_windows py_sum before data W (k + 1) with
  | Ret more =>
    find_multiple_windows py_sum before data W k
    = Ret (firstn (Z.to_nat (Z.min k (number_of_windows data W))) more)
  | Raise e => find_multiple_windows py_sum before data W k = Raise e
  end.
Proof.
  intros Hk. unfold find_multiple_windows.
  destruct data as [|r data']; [now rewrite firstn_nil|].
  set (data := r :: data').
  destruct (Z.ltb_spec (len data) W); [now rewrite firstn_nil|].
  destruct (Z.ltb_spec (len (valid_records data)) W);
    [now rewrite firstn_nil|].
  destruct (sort_by_deliveryStart (valid_records data)) as [sv|] eqn:Es;
    [|now rewrite firstn_nil].
  assert (Hsv : len sv = len (valid_records data)).
  { unfold sort_by_deliveryStart in Es.
    destruct (forallb _ _); inversion Es. apply len_stable_sort. }
  destruct (enumerate_windows py_sum sv W) as [ws|e] eqn:Ew; [|reflexivity].
  cbn [bind]. f_equal.
  rewrite py_prefix_succ by assumption. do 2 f_equal.
  rewrite len_stable_sort. unfold number_of_windows.
  apply py_map_length in Ew. unfold len at 1. rewrite Ew.
  unfold py_range. rewrite length_map, length_seq, Hsv. lia.
Qed.

(** C8.  For every [k >= 0] the top-[k] result is made of the first
    [min(k, N)] elements, in the same order, of the top-[k+1] result, [N]
    being the number of windows (and when the larger call raises, which a
    window length below [1] causes, so does the smaller one).  For a
    window length of at least [1] both calls return, with exactly
    [min(k, N)] and [min(k+1, N)] windows. *)
Theorem top_k_is_prefix_of_next (data : list PriceRecord) (W k : Z) :
  (0 <= k)%Z ->
  let N := number_of_windows data W in
  let prefix_of_next
        (top : Z -> py (list RankedWindow)) : Prop :=
    match top (k + 1)%Z with
    | Ret more => top k = Ret (firstn (Z.to_nat (Z.min k N)) more)
    | Raise e => top k = Raise e
    end
    /\ ((1 <= W)%Z ->
        exists less more,
          top k = Ret less /\ top (k + 1)%Z = Ret more
          /\ len less = Z.min k N /\ len more = Z.min (k + 1) N) in
  prefix_of_next (find_multiple_cheap_windows py_sum data W)
  /\ prefix_of_next (find_multiple_expensive_windows py_sum data W).
Proof.
  intros Hk N prefix_of_next.
  assert (H : forall before,
            prefix_of_next (find_multiple_windows py_sum before data W)).
  { intros before. split; [now apply b64_prefix_property|].
    intros HW. destruct (b64_ranking before data HW) as (ranked & L & R & _).
    exists (py_prefix ranked k), (py_prefix ranked (k + 1)).
    rewrite !R, !len_py_prefix_nonneg, L by lia. auto. }
  split; apply H.
Qed.

(** X4.  For [W >= 1] and [k >= 0] each ranker returns exactly
    [min(k, N)] windows, [N] being the number of windows, and every
    returned window is one of the contiguous runs of [W] sorted valid
    records, reported with the bounds of its first and last record and
    with [round(_, 2)] of its average as the code computes it; overlapping
    runs are not removed. *)
Theorem top_k_length_and_members (data : list PriceRecord) (W k : Z) :
  (1 <= W)%Z -> (0 <= k)%Z ->
  let shape (top : py (list RankedWindow)) : Prop :=
    exists ws,
      top = Ret ws
      /\ len ws = Z.min k (number_of_windows data W)
      /\ forall w, In w ws ->
           exists i,
             (0 <= i <= len (sorted_valid data) - W)%Z
             /\ r_records w = window_at (sorted_valid data) W i
             /\ len (r_records w) = W
             /\ r_start_time w = first_start (r_records w)
             /\ r_end_time w = last_end (r_records w)
             /\ r_avg_price w
                = py_round2 (computed_average py_sum (r_records w)) in
  shape (find_multiple_cheap_windows py_sum data W k)
  /\ shape (find_multiple_expensive_windows py_sum data W k).
Proof.
  intros HW Hk shape.
  assert (H : forall before,
            shape (find_multiple_windows py_sum before data W k)).
  { intros before.
    destruct (b64_ranking before data HW) as (ranked & L & R & M).
    exists (py_prefix ranked k). split; [apply R|]. split.
    - now rewrite len_py_prefix_nonneg, L.
    - intros w Hw. rewrite py_prefix_nonneg in Hw by assumption.
      apply In_firstn, M, b64_In_candidate_windows in Hw.
      destruct Hw as (i & Hi & ->). exists i. cbn.
      repeat split; try reflexivity; try lia.
      apply window_at_len; lia. }
  split; apply H.
Qed.

(** X7.  With a negative [count] the rankers do not return an empty list:
    the slice [windows[:count]] is the ranking without its last [|count|]
    windows.  For [W >= 1] and [N] windows the call returns the first
    [max(0, N - |count|)] windows of what the call with [count = N]
    returns, which is the whole ranking. *)
Theorem negative_count_drops_last (data : list PriceRecord) (W k : Z) :
  (1 <= W)%Z -> (k < 0)%Z ->
  let N := number_of_windows data W in
  let drops_last (top : Z -> py (list RankedWindow)) : Prop :=
    exists whole,
      top N = Ret whole /\ len whole = N
      /\ top k = Ret (firstn (Z.to_nat (N + k)) whole)
      /\ len (firstn (Z.to_nat (N + k)) whole) = Z.max 0 (N + k) in
  drops_last (find_multiple_cheap_windows py_sum data W)
  /\ drops_last (find_multiple_expensive_windows py_sum data W).
Proof.
  intros HW Hk N drops_last.
  assert (HN : (0 <= N)%Z) by (unfold N, number_of_windows; lia).
  assert (H : forall before,
            drops_last (find_multiple_windows py_sum before data W)).
  { intros before.
    destruct (b64_ranking before data HW) as (ranked & L & R & _).
    fold N in L. exists ranked. rewrite !R.
    assert (E : py_prefix ranked N = ranked).
    { rewrite py_prefix_nonneg by assumption. apply firstn_all2.
      unfold len in L. lia. }
    rewrite E. split; [reflexivity|]. split; [exact L|].
    rewrite py_prefix_negative, L by assumption.
    split; [reflexivity|]. unfold len in *. rewrite length_firstn. lia. }
  split; apply H.
Qed.

End B64Rank.

Lemma top_k_is_prefix_of_next_witness :
  exists less more,
    Binary64.find_multiple_cheap_windows Binary64.sum_left_to_right
      sample_day 2 1 = Ret less
    /\ Binary64.find_multiple_cheap_windows Binary64.sum_left_to_right
         sample_day 2 (1 + 1) = Ret more
    /\ len less = 1%Z /\ len more = 2%Z.
Proof.
  assert (Hk : (0 <= 1)%Z) by lia.
  assert (HW : (1 <= 2)%Z) by lia.
  destruct (top_k_is_prefix_of_next Binary64.sum_left_to_right
              sample_day 2 Hk) as [[_ H] _].
  destruct (H HW) as (less & more & E1 & E2 & L1 & L2).
  exists less, more. repeat split; assumption.
Defined.

Lemma top_k_length_and_members_witness :
  exists ws,
    Binary64.find_multiple_cheap_windows Binary64.sum_left_to_right
      sample_day 2 3 = Ret ws
    /\ len ws = 3%Z.
Proof.
  assert (H1 : (1 <= 2)%Z) by lia.
  assert (H3 : (0 <= 3)%Z) by lia.
  destruct (top_k_length_and_members Binary64.sum_left_to_right
              sample_day H1 H3) as [(ws & Hr & Hl & _) _].
  exists ws. split; [exact Hr|exact Hl].
Defined.

Lemma negative_count_drops_last_witness :
  exists whole,
    Binary64.find_multiple_cheap_windows Binary64.sum_left_to_right
      sample_day 2 (-1) = Ret (firstn 3 whole)
    /\ len whole = 4%Z.
Proof.
  assert (H1 : (1 <= 2)%Z) by lia.
  assert (H2 : (-1 < 0)%Z) by lia.
  destruct (negative_count_drops_last Binary64.sum_left_to_right
              sample_day H1 H2) as [(whole & _ & L & E & _) _].
  exists whole. split; [exact E|exact L].
Defined.

(** ** Binary64: rounding never produces NaN *)

Lemma iter_pos_invariant {A : Type} (P : A -> Prop) (f : A -> A) :
  (forall x, P x -> P (f x)) ->
  forall (n : positive) (x : A), P x -> P (iter_pos f n x).
Proof.
  intros Hf. induction n as [n IH|n IH|]; intros x Hx; cbn; auto.
Qed.

Lemma shr_1_nonneg (mrs : shr_record) :
  (0 <= shr_m mrs)%Z -> (0 <= shr_m (shr_1 mrs))%Z.
Proof.
  destruct mrs as [m r s]. cbn. destruct m as [|p|p]; cbn; [lia| |lia].
  intros _. destruct p; cbn; lia.
Qed.

Lemma shr_fexp_nonneg (prec emax m e : Z) (l : location) :
  (0 <= m)%Z -> (0 <= shr_m (fst (shr_fexp prec emax m e l)))%Z.
Proof.
  intros Hm. unfold shr_fexp, shr.
  assert (H0 : (0 <= shr_m (shr_record_of_loc m l))%Z)
    by (destruct l as [|[]]; exact Hm).
  destruct (fexp prec emax (Zdigits2 m + e) - e)%Z; cbn [fst]; auto.
  now apply iter_pos_invariant with (P := fun x => (0 <= shr_m x)%Z);
    [apply shr_1_nonneg|].
Qed.

Lemma round_nearest_even_nonneg (m : Z) (l : location) :
  (0 <= m)%Z -> (0 <= round_nearest_even m l)%Z.
Proof.
  intros Hm. destruct l as [|[]]; cbn; try lia.
  destruct (Z.even m); lia.
Qed.

Lemma binary_round_aux_not_nan (prec emax : Z) (s : bool) (m e : Z)
    (l : location) :
  (0 <= m)%Z ->
  Binary64.is_nan (binary_round_aux prec emax s m e l) = false.
Proof.
  intros Hm. unfold binary_round_aux.
  pose proof (shr_fexp_nonneg prec emax e l Hm) as H1.
  destruct (shr_fexp prec emax m e l) as [mrs' e'] eqn:E1. cbn [fst] in H1.
  pose proof (shr_fexp_nonneg prec emax e' loc_Exact
                (round_nearest_even_nonneg (loc_of_shr_record mrs') H1))
    as H2.
  destruct (shr_fexp prec emax _ e' loc_Exact) as [mrs'' e''].
  cbn [fst] in H2.
  destruct (shr_m mrs'') as [|p|p]; [reflexivity| |lia].
  now destruct (e'' <=? emax - prec)%Z.
Qed.

Lemma div_not_nan (s1 s2 : bool) (m1 m2 : positive) (e1 e2 : Z) :
  Binary64.is_nan
    (Binary64.div (S754_finite s1 m1 e1) (S754_finite s2 m2 e2)) = false.
Proof.
  unfold Binary64.div, SFdiv, SFdiv_core_binary. cbv zeta.
  match goal with
  | |- context [Z.div_eucl ?a ?b] =>
    pose proof (Z_div_mod a b ltac:(lia)) as Hdm;
      assert (Ha : (0 <= a)%Z);
      [|destruct (Z.div_eucl a b) as [q r] eqn:E]
  end.
  - match goal with
    | |- (0 <= match ?s with _ => _ end)%Z => destruct s
    end; try lia. apply Z.shiftl_nonneg. lia.
  - apply binary_round_aux_not_nan. destruct Hdm as [Hq Hr]. nia.
Qed.

Lemma of_Q_not_nan (q : Q) : Binary64.is_nan (Binary64.of_Q q) = false.
Proof.
  unfold Binary64.of_Q. destruct (Qnum q); [reflexivity| |];
    apply div_not_nan.
Qed.

Lemma py_round2_not_nan (x : Binary64.float) :
  Binary64.is_nan x = false -> Binary64.is_nan (Binary64.py_round2 x) = false.
Proof.
  destruct x as [s|s| |s m e]; cbn [Binary64.py_round2]; auto.
  intros _. destruct (round_half_even _); [reflexivity| |];
    apply of_Q_not_nan.
Qed.

(** ** Binary64: the order of the ranking *)

Lemma StronglySorted_impl_on {A : Type} (P : A -> Prop)
    (R R' : A -> A -> Prop) (l : list A) :
  (forall a b, P a -> P b -> R a b -> R' a b) ->
  Forall P l -> StronglySorted R l -> StronglySorted R' l.
Proof.
  intros H HP. induction 1 as [|x l Hs IH Hall]; [constructor|].
  inversion HP as [|? ? Px Pl]; subst.
  constructor; [auto|].
  rewrite Forall_forall in *. intros y Hy. apply H; auto.
Qed.

Section B64Order.

Import Binary64.

Variable py_sum : list float -> float.

Lemma eqb_not_ltb (x a b : float) :
  eqb a x = true -> ltb b a = true -> eqb b x = false.
Proof.
  unfold eqb, ltb, SFeqb, SFltb.
  destruct (SFcompare a x) as [[]|] eqn:Ea; try discriminate.
  destruct (SFcompare b a) as [[]|] eqn:Eb; try discriminate.
  intros _ _.
  now rewrite (SFcompare_Eq_r _ _ _ Eb Ea).
Qed.

Lemma candidate_keys_not_nan (sv : list PriceRecord) (W : Z) :
  averages_finite py_sum sv W = true ->
  Forall (fun c => is_nan (r_avg_price c) = false)
    (candidate_windows py_sum sv W).
Proof.
  intros H. apply Forall_forall. intros c Hc.
  apply b64_In_candidate_windows in Hc. destruct Hc as (i & Hi & ->).
  cbn. apply py_round2_not_nan, B64.finite_not_nan.
  now apply averages_finite_at.
Qed.

Lemma b64_cheaper_ranking (ws : list RankedWindow) :
  Forall (fun c => is_nan (r_avg_price c) = false) ws ->
  let ranked := stable_sort cheaper ws in
  Permutation ranked ws
  /\ StronglySorted
       (fun a b => leb (r_avg_price a) (r_avg_price b) = true) ranked
  /\ forall x, filter (ties_with x) ranked = filter (ties_with x) ws.
Proof.
  intros Hk ranked. split; [apply stable_sort_perm|]. split.
  - apply StronglySorted_impl_on
      with (P := fun c => is_nan (r_avg_price c) = false)
           (R := fun a b => cheaper b a = false).
    + intros a b Ha Hb H. unfold cheaper in H.
      now rewrite B64.leb_not_ltb, H.
    + now apply Forall_stable_sort.
    + apply stable_sort_sorted
        with (P := fun c => is_nan (r_avg_price c) = false); auto.
      * unfold cheaper. intros a b c Ha Hb Hc H1 H2.
        destruct (ltb (r_avg_price c) (r_avg_price a)) eqn:E;
          [|reflexivity].
        destruct (B64.ltb_cotrans _ (r_avg_price b) _ Hb E); congruence.
      * unfold cheaper. intros a b _ _. apply B64.ltb_asym.
  - intros x. apply stable_sort_filter.
    unfold ties_with, cheaper. intros a b. apply eqb_not_ltb.
Qed.

Lemma b64_dearer_ranking (ws : list RankedWindow) :
  Forall (fun c => is_nan (r_avg_price c) = false) ws ->
  let ranked := stable_sort dearer ws in
  Permutation ranked ws
  /\ StronglySorted
       (fun a b => leb (r_avg_price b) (r_avg_price a) = true) ranked
  /\ forall x, filter (ties_with x) ranked = filter (ties_with x) ws.
Proof.
  intros Hk ranked. split; [apply stable_sort_perm|]. split.
  - apply StronglySorted_impl_on
      with (P := fun c => is_nan (r_avg_price c) = false)
           (R := fun a b => dearer b a = false).
    + intros a b Ha Hb H. unfold dearer in H.
      now rewrite B64.leb_not_ltb, H.
    + now apply Forall_stable_sort.
    + apply stable_sort_sorted
        with (P := fun c => is_nan (r_avg_price c) = false); auto.
      * unfold dearer. intros a b c Ha Hb Hc H1 H2.
        destruct (ltb (r_avg_price a) (r_avg_price c)) eqn:E;
          [|reflexivity].
        destruct (B64.ltb_cotrans _ (r_avg_price b) _ Hb E); congruence.
      * unfold dearer. intros a b _ _. apply B64.ltb_asym.
  - intros x. apply stable_sort_filter.
    unfold ties_with, dearer. intros a b Ha Hb.
    destruct (eqb (r_avg_price b) x) eqn:E; [|reflexivity].
    unfold eqb, ltb, SFeqb, SFltb in *.
    destruct (SFcompare (r_avg_price a) x) as [[]|] eqn:Ea;
      try discriminate.
    destruct (SFcompare (r_avg_price b) x) as [[]|] eqn:Eb;
      try discriminate.
    apply SFcompare_antisym in Eb. cbn in Eb.
    now rewrite (SFcompare_Eq_l _ _ _ Ea Eb) in Hb.
Qed.

(** C9 (amended).  The rankers order the candidate windows by
    [avg_price], which is [round(_, 2)] of the average as the code
    computes it in binary64.  When the computed averages are finite the
    ranking is a permutation of the candidates, sorted on that rounded
    value, and windows whose rounded values compare equal stay in
    chronological order, whatever their unrounded averages. *)
Theorem top_k_ranks_rounded_averages (data : list PriceRecord) (W k : Z) :
  (1 <= W)%Z -> (W <= len (valid_records data))%Z ->
  averages_finite py_sum (sorted_valid data) W = true ->
  let candidates := candidate_windows py_sum (sorted_valid data) W in
  (forall c, In c candidates ->
     r_avg_price c = py_round2 (computed_average py_sum (r_records c)))
  /\ (exists ranked,
        find_multiple_cheap_windows py_sum data W k
        = Ret (py_prefix ranked k)
        /\ Permutation ranked candidates
        /\ StronglySorted
             (fun a b => leb (r_avg_price a) (r_avg_price b) = true) ranked
        /\ forall x,
             filter (ties_with x) ranked = filter (ties_with x) candidates)
  /\ (exists ranked,
        find_multiple_expensive_windows py_sum data W k
        = Ret (py_prefix ranked k)
        /\ Permutation ranked candidates
        /\ StronglySorted
             (fun a b => leb (r_avg_price b) (r_avg_price a) = true) ranked
        /\ forall x,
             filter (ties_with x) ranked = filter (ties_with x) candidates).
Proof.
  intros HW Hn Hfin candidates.
  pose proof (candidate_keys_not_nan _ _ Hfin) as Hkeys.
  split; [|split].
  - intros c Hc. apply b64_In_candidate_windows in Hc.
    destruct Hc as (i & _ & ->). reflexivity.
  - exists (stable_sort cheaper candidates). split.
    + now apply b64_find_multiple_windows_run.
    + now apply b64_cheaper_ranking.
  - exists (stable_sort dearer candidates). split.
    + now apply b64_find_multiple_windows_run.
    + now apply b64_dearer_ranking.
Qed.

End B64Order.

Lemma top_k_ranks_rounded_averages_witness :
  exists ranked,
    Binary64.find_multiple_cheap_windows Binary64.sum_left_to_right
      sample_day 2 3 = Ret (py_prefix ranked 3)
    /\ Permutation ranked
         (Binary64.candidate_windows Binary64.sum_left_to_right
            (sorted_valid sample_day) 2).
Proof.
  assert (H1 : (1 <= 2)%Z) by lia.
  assert (H2 : (2 <= len (valid_records sample_day))%Z)
    by (apply Z.leb_le; reflexivity).
  assert (H3 : Binary64.averages_finite Binary64.sum_left_to_right
                 (sorted_valid sample_day) 2 = true) by reflexivity.
  destruct (top_k_ranks_rounded_averages Binary64.sum_left_to_right
              sample_day 3 H1 H2 H3) as (_ & (ranked & Hr & Hp & _) & _).
  exists ranked. split; assumption.
Defined.

(** C9, as stated, fails in binary64: two windows whose averages differ
    and round to the same two decimals need not compare as tied.  For the
    prices [2.69, 2.67, 2.68] the two pairs average [2.68] and [2.675],
    which both round to [2.68], for the prices as written and for the
    floats Python holds for them; the code computes the second average to
    a float just below [2.675], rounds it to [2.67], and ranks the later
    pair first. *)
Lemma rounded_tie_is_not_a_tie_in_binary64 :
  let early := window_at (sorted_valid half_cent_triple) 2 0 in
  let late := window_at (sorted_valid half_cent_triple) 2 1 in
  Qred (window_average early) = 67 # 25
  /\ Qred (window_average late) = 107 # 40
  /\ Qred (py_round2 (window_average early)) = 67 # 25
  /\ Qred (py_round2 (window_average late)) = 67 # 25
  /\ round_half_even (Binary64.exact_average early * 100) = 268%Z
  /\ round_half_even (Binary64.exact_average late * 100) = 268%Z
  /\ Binary64.find_multiple_cheap_windows Binary64.sum_left_to_right
       half_cent_triple 2 1
     = Ret [Binary64.ranked_window Binary64.sum_left_to_right late]
  /\ Binary64.r_avg_price
       (Binary64.ranked_window Binary64.sum_left_to_right late)
     = Binary64.of_Q (267 # 100)
  /\ Binary64.r_avg_price
       (Binary64.ranked_window Binary64.sum_left_to_right early)
     = Binary64.of_Q (268 # 100).
Proof.
  cbv zeta. repeat split; vm_compute; reflexivity.
Qed.

(** Ranking by the rounded average: in [near_tie_falling] the top-1
    cheapest list holds the earlier window, whose computed average is
    strictly worse, and in [near_tie_rising] the top-1 most expensive list
    holds the earlier, cheaper one. *)
Example near_tie_ranking :
  (exists early late,
     near_tie_falling = [early; late]
     /\ Binary64.ltb
          (Binary64.computed_average Binary64.sum_left_to_right [late])
          (Binary64.computed_average Binary64.sum_left_to_right [early])
        = true
     /\ Binary64.find_multiple_cheap_windows Binary64.sum_left_to_right
          near_tie_falling 1 1
        = Ret [Binary64.ranked_window Binary64.sum_left_to_right [early]]
     /\ Binary64.find_multiple_cheap_windows Binary64.sum_left_to_right
          near_tie_falling 1 2
        = Ret [Binary64.ranked_window Binary64.sum_left_to_right [early];
               Binary64.ranked_window Binary64.sum_left_to_right [late]])
  /\
  (exists early late,
     near_tie_rising = [early; late]
     /\ Binary64.ltb
          (Binary64.computed_average Binary64.sum_left_to_right [early])
          (Binary64.computed_average Binary64.sum_left_to_right [late])
        = true
     /\ Binary64.find_multiple_expensive_windows Binary64.sum_left_to_right
          near_tie_rising 1 1
        = Ret [Binary64.ranked_window Binary64.sum_left_to_right [early]]
     /\ Binary64.find_multiple_expensive_windows Binary64.sum_left_to_right
          near_tie_rising 1 2
        = Ret [Binary64.ranked_window Binary64.sum_left_to_right [early];
               Binary64.ranked_window Binary64.sum_left_to_right [late]]).
Proof.
  split.
  - do 2 eexists. split; [reflexivity|]. split; [vm_compute; reflexivity|].
    split; vm_compute; reflexivity.
  - do 2 eexists. split; [reflexivity|]. split; [vm_compute; reflexivity|].
    split; vm_compute; reflexivity.
Qed.

(** ** Binary64: [calculate_price_statistics] *)

Section B64Statistics.

Import Binary64.

Variable py_sum : list float -> float.

Lemma leb_refl (a : float) : is_nan a = false -> leb a a = true.
Proof.
  intros H. now rewrite B64.leb_not_ltb, B64.ltb_irrefl.
Qed.

Lemma b64_fold_min_spec (xs : list float) (x : float) :
  Forall (fun y => is_nan y = false) (x :: xs) ->
  let m := fold_left (fun m y => if ltb y m then y else m) xs x in
  In m (x :: xs) /\ forall y, In y (x :: xs) -> leb m y = true.
Proof.
  revert x. induction xs as [|z xs IH]; intros x Hn; cbn [fold_left].
  - inversion Hn; subst. split; [now left|].
    intros y [<-|[]]. now apply leb_refl.
  - inversion Hn as [|? ? Hx Hn']; subst.
    inversion Hn' as [|? ? Hz Hxs]; subst.
    destruct (ltb z x) eqn:E.
    + destruct (IH z Hn') as [Hin Hle]. split.
      * right. exact Hin.
      * intros y [<-|Hy]; [|now apply Hle].
        apply B64.leb_trans with (b := z);
          [apply Hle; now left | now apply B64.ltb_leb].
    + destruct (IH x (Forall_cons _ Hx Hxs)) as [Hin Hle]. split.
      * destruct Hin as [<-|Hin]; [now left|right; now right].
      * intros y [<-|[<-|Hy]].
        -- apply Hle. now left.
        -- apply B64.leb_trans with (b := x); [apply Hle; now left|].
           now rewrite B64.leb_not_ltb, E.
        -- apply Hle. now right.
Qed.

Lemma b64_fold_max_spec (xs : list float) (x : float) :
  Forall (fun y => is_nan y = false) (x :: xs) ->
  let m := fold_left (fun m y => if ltb m y then y else m) xs x in
  In m (x :: xs) /\ forall y, In y (x :: xs) -> leb y m = true.
Proof.
  revert x. induction xs as [|z xs IH]; intros x Hn; cbn [fold_left].
  - inversion Hn; subst. split; [now left|].
    intros y [<-|[]]. now apply leb_refl.
  - inversion Hn as [|? ? Hx Hn']; subst.
    inversion Hn' as [|? ? Hz Hxs]; subst.
    destruct (ltb x z) eqn:E.
    + destruct (IH z Hn') as [Hin Hle]. split.
      * right. exact Hin.
      * intros y [<-|Hy]; [|now apply Hle].
        apply B64.leb_trans with (b := z);
          [now apply B64.ltb_leb | apply Hle; now left].
    + destruct (IH x (Forall_cons _ Hx Hxs)) as [Hin Hle]. split.
      * destruct Hin as [<-|Hin]; [now left|right; now right].
      * intros y [<-|[<-|Hy]].
        -- apply Hle. now left.
        -- apply B64.leb_trans with (b := x); [|apply Hle; now left].
           now rewrite B64.leb_not_ltb, E.
        -- apply Hle. now right.
Qed.

Lemma known_float_prices_not_nan (data : list PriceRecord) :
  Forall (fun y => is_nan y = false) (known_float_prices data).
Proof.
  apply Forall_forall. intros y Hy. unfold known_float_prices in Hy.
  apply in_map_iff in Hy. destruct Hy as (q & <- & _).
  apply of_Q_not_nan.
Qed.

Lemma b64_py_map_get_price_known (data : list PriceRecord) :
  py_map get_price (filter (fun record => is_some (price record)) data)
  = Ret (known_float_prices data).
Proof.
  unfold known_float_prices.
  induction data as [|r data IH]; [reflexivity|].
  unfold known_prices. cbn [filter flat_map]. fold (known_prices data).
  destruct (price r) as [p|] eqn:E; cbn [is_some]; [|exact IH].
  cbn [py_map]. rewrite IH. unfold get_price. rewrite E. reflexivity.
Qed.

Lemma In_known_float_prices (data : list PriceRecord) (x : float) :
  In x (known_float_prices data) <->
  exists r p, In r data /\ price r = Some p /\ x = of_Q p.
Proof.
  unfold known_float_prices. rewrite in_map_iff. split.
  - intros (p & <- & Hp). apply In_known_prices in Hp.
    destruct Hp as (r & Hr & Ep). now exists r, p.
  - intros (r & p & Hr & Ep & ->). exists p. split; [reflexivity|].
    apply In_known_prices. now exists r.
Qed.

Lemma eqb_refl (a : float) : is_nan a = false -> eqb a a = true.
Proof.
  intros H. destruct (SFcompare_defined a a H H) as (c & E).
  unfold eqb, SFeqb. rewrite E. destruct c; [reflexivity| |];
    pose proof (SFcompare_antisym _ _ E) as E'; cbn in E'; congruence.
Qed.

Lemma b64_py_next_price (data : list PriceRecord) (x : float) :
  In x (known_float_prices data) ->
  exists r,
    py_next (price_is x) (filter (fun record => is_some (price record)) data)
    = Ret r
    /\ first_priced data x r.
Proof.
  intros Hx. unfold py_next. rewrite find_filter.
  - destruct (find (price_is x) data) as [r|] eqn:E.
    + exists r. split; [reflexivity|].
      destruct (find_first _ _ E) as (l1 & l2 & -> & Hr & Hl1).
      exists l1, l2. auto.
    + exfalso. apply In_known_float_prices in Hx.
      destruct Hx as (r & p & Hr & Ep & ->).
      pose proof (find_none _ _ E r Hr) as Hf. unfold price_is in Hf.
      rewrite Ep, eqb_refl in Hf by apply of_Q_not_nan. discriminate Hf.
  - intros r. unfold price_is. destruct (price r); [reflexivity|discriminate].
Qed.

Lemma known_float_prices_nonempty (data : list PriceRecord) :
  Exists (fun r => price r <> None) data -> known_float_prices data <> [].
Proof.
  intros H. apply Exists_exists in H. destruct H as (r & Hr & Hp).
  destruct (price r) as [p|] eqn:E; [|congruence].
  intros E0.
  assert (Hin : In (of_Q p) (known_float_prices data))
    by (apply In_known_float_prices; now exists r, p).
  rewrite E0 in Hin. exact Hin.
Qed.

Lemma len_known_float_prices (data : list PriceRecord) :
  len (known_float_prices data)
  = len (filter (fun record => is_some (price record)) data).
Proof.
  unfold known_float_prices. now rewrite len_map, len_filter_known.
Qed.

(** The result of [calculate_price_statistics] when prices exist. *)
Lemma b64_statistics_some (data : list PriceRecord) :
  Exists (fun r => price r <> None) data ->
  let prices := known_float_prices data in
  let mean := div (py_sum prices) (of_int (len prices)) in
  exists lo hi rlo rhi,
    calculate_price_statistics py_sum data
    = Ret (mkStatistics (Some lo) (Some hi) (Some (py_round2 mean))
             (len prices) (Some rlo) (Some rhi))
    /\ In lo prices /\ (forall p, In p prices -> leb lo p = true)
    /\ In hi prices /\ (forall p, In p prices -> leb p hi = true)
    /\ first_priced data lo rlo
    /\ first_priced data hi rhi.
Proof.
  intros H prices mean.
  pose proof (known_float_prices_nonempty H) as Hne. fold prices in Hne.
  pose proof (known_float_prices_not_nan data) as Hnan. fold prices in Hnan.
  assert (Hlen : (len prices =? 0)%Z = false).
  { apply Z.eqb_neq. intros E. apply Hne.
    destruct prices; [reflexivity|unfold len in E; cbn in E; lia]. }
  assert (Hmin : exists lo, py_min prices = Ret lo /\ In lo prices
                   /\ forall p, In p prices -> leb lo p = true).
  { destruct prices as [|x xs]; [congruence|].
    eexists. split; [reflexivity|]. now apply b64_fold_min_spec. }
  assert (Hmax : exists hi, py_max prices = Ret hi /\ In hi prices
                   /\ forall p, In p prices -> leb p hi = true).
  { destruct prices as [|x xs]; [congruence|].
    eexists. split; [reflexivity|]. now apply b64_fold_max_spec. }
  destruct Hmin as (lo & Elo & Hlo_in & Hlo).
  destruct Hmax as (hi & Ehi & Hhi_in & Hhi).
  destruct (b64_py_next_price data lo Hlo_in) as (rlo & Erlo & Hrlo).
  destruct (b64_py_next_price data hi Hhi_in) as (rhi & Erhi & Hrhi).
  exists lo, hi, rlo, rhi. split; [|repeat split; assumption].
  assert (Hd : data <> []) by (intros ->; inversion H).
  assert (Hf : filter (fun record => is_some (price record)) data <> []).
  { intros E. pose proof (len_known_float_prices data) as L.
    fold prices in L. rewrite E in L. rewrite L in Hlen.
    discriminate Hlen. }
  unfold calculate_price_statistics.
  rewrite nonempty_match by exact Hd. cbv zeta.
  rewrite nonempty_match by exact Hf.
  rewrite b64_py_map_get_price_known. cbn [bind].
  fold prices. rewrite Elo, Ehi. cbn [bind].
  unfold py_div. rewrite Hlen. cbn [bind].
  rewrite Erlo, Erhi. cbn [bind].
  unfold mean. now rewrite <- len_known_float_prices.
Qed.

Lemma b64_statistics_none (data : list PriceRecord) :
  Forall (fun r => price r = None) data ->
  calculate_price_statistics py_sum data = Ret empty_statistics.
Proof.
  intros H. unfold calculate_price_statistics.
  destruct data as [|r0 data0]; [reflexivity|].
  replace (filter _ (r0 :: data0)) with (@nil PriceRecord); [reflexivity|].
  symmetry. induction H as [|r l Hr _ IH]; [reflexivity|].
  cbn [filter]. now rewrite Hr.
Qed.

(** C6 (amended).  When no record has a price (in particular on the empty
    series) the result has [count = 0] and every price and record field
    [None].  Otherwise the result holds the least and the greatest present
    price, the count of the present prices, [round(_, 2)] of their mean as
    the code computes it in binary64 (the interpreter's [sum] of the
    prices divided by their count), and the first record in input order
    whose price equals the least price and the first whose price equals
    the greatest.  The function returns in both cases. *)
Theorem statistics_of_series (data : list PriceRecord) :
  (Forall (fun r => price r = None) data ->
     calculate_price_statistics py_sum data
     = Ret (mkStatistics None None None 0 None None))
  /\ (Exists (fun r => price r <> None) data ->
      let prices := known_float_prices data in
      let mean := div (py_sum prices) (of_int (len prices)) in
      exists lo hi rlo rhi,
        calculate_price_statistics py_sum data
        = Ret (mkStatistics (Some lo) (Some hi) (Some (py_round2 mean))
                 (len prices) (Some rlo) (Some rhi))
        /\ In lo prices /\ (forall p, In p prices -> leb lo p = true)
        /\ In hi prices /\ (forall p, In p prices -> leb p hi = true)
        /\ first_priced data lo rlo
        /\ first_priced data hi rhi).
Proof.
  split; [apply b64_statistics_none | apply b64_statistics_some].
Qed.

Lemma price_dichotomy (data : list PriceRecord) :
  Forall (fun r => price r = None) data
  \/ Exists (fun r => price r <> None) data.
Proof.
  induction data as [|r data [IH|IH]]; [left; constructor| |].
  - destruct (price r) eqn:E.
    + right. apply Exists_cons_hd. congruence.
    + left. now constructor.
  - right. now apply Exists_cons_tl.
Qed.

Lemma first_priced_In (data : list PriceRecord) (x : float)
    (r : PriceRecord) :
  first_priced data x r -> In r data /\ price_is x r = true.
Proof.
  intros (l1 & l2 & -> & H & _). split; [|exact H].
  apply in_or_app. right. now left.
Qed.

(** X1.  [calculate_price_statistics] always returns.  Its [count] lies
    between [0] and the number of records and is [0] exactly when no record
    has a price, and then every other field is [None].  When prices exist,
    [min_price <= max_price], and the two reported records belong to the
    input and carry a price equal to [min_price] and to [max_price]. *)
Theorem statistics_are_consistent (data : list PriceRecord) :
  exists s,
    calculate_price_statistics py_sum data = Ret s
    /\ (0 <= stat_count s <= len data)%Z
    /\ (stat_count s = 0%Z <-> forall r, In r data -> price r = None)
    /\ (stat_count s = 0%Z -> s = empty_statistics)
    /\ (stat_count s <> 0%Z ->
        exists lo hi avg rlo rhi,
          stat_min_price s = Some lo /\ stat_max_price s = Some hi
          /\ stat_avg_price s = Some avg
          /\ stat_min_record s = Some rlo /\ stat_max_record s = Some rhi
          /\ In rlo data /\ price_is lo rlo = true
          /\ In rhi data /\ price_is hi rhi = true
          /\ leb lo hi = true).
Proof.
  destruct (price_dichotomy data) as [Hnone | Hsome].
  - exists empty_statistics. split; [now apply b64_statistics_none|].
    cbn. pose proof (len_nonneg data). split; [lia|]. split; [|split].
    + split; auto. intros _. now apply Forall_forall.
    + reflexivity.
    + congruence.
  - destruct (b64_statistics_some Hsome)
      as (lo & hi & rlo & rhi & E & Hlo & Hmin & Hhi & Hmax & Frlo & Frhi).
    eexists. split; [exact E|]. cbn.
    pose proof (known_float_prices_nonempty Hsome) as Hne.
    assert (Hpos : (0 < len (known_float_prices data))%Z).
    { destruct (known_float_prices data); [congruence|].
      unfold len. cbn. lia. }
    assert (Hle : (len (known_float_prices data) <= len data)%Z).
    { rewrite len_known_float_prices. unfold len.
      pose proof (filter_length_le
                    (fun record => is_some (price record)) data). lia. }
    split; [lia|]. split; [|split].
    + split; [lia|]. intros Hall. exfalso.
      apply Exists_exists in Hsome. destruct Hsome as (r & Hr & Hp).
      now apply Hp, Hall.
    + lia.
    + intros _. exists lo, hi. eexists. exists rlo, rhi.
      destruct (first_priced_In Frlo) as [? ?].
      destruct (first_priced_In Frhi) as [? ?].
      repeat split; auto.
Qed.

End B64Statistics.

Lemma statistics_of_series_witness :
  exists lo hi rlo rhi avg,
    Binary64.calculate_price_statistics Binary64.sum_left_to_right sample_day
    = Ret (Binary64.mkStatistics (Some lo) (Some hi) (Some avg) 5
             (Some rlo) (Some rhi))
    /\ Binary64.first_priced sample_day lo rlo.
Proof.
  assert (H : Exists (fun r => price r <> None) sample_day)
    by (apply Exists_cons_hd; discriminate).
  destruct (proj2 (statistics_of_series Binary64.sum_left_to_right
                     sample_day) H)
    as (lo & hi & rlo & rhi & Hs & _ & _ & _ & _ & Hlo & _).
  exists lo, hi, rlo, rhi. eexists. split; [exact Hs|exact Hlo].
Defined.

(** C6, as stated, fails in binary64: the reported [avg_price] is not the
    arithmetic mean rounded to two decimals.  The mean of [2.67] and [2.68]
    is [2.675] and rounds to [2.68], for the prices as written and for the
    floats Python holds for them; the code adds the two floats to [5.35],
    halves that to a float just below [2.675], and reports [2.67]. *)
Lemma statistics_mean_is_rounded_in_binary64 :
  (exists s,
     Binary64.calculate_price_statistics Binary64.sum_left_to_right
       half_cent_pair = Ret s
     /\ Binary64.stat_avg_price s = Some (Binary64.of_Q (267 # 100)))
  /\ Qred (window_average half_cent_pair) = 107 # 40
  /\ Qred (py_round2 (window_average half_cent_pair)) = 67 # 25
  /\ round_half_even (Binary64.exact_average half_cent_pair * 100) = 268%Z
  /\ Binary64.of_Q (267 # 100) <> Binary64.of_Q (268 # 100).
Proof.
  split; [eexists; split; vm_compute; reflexivity|].
  repeat split; try (vm_compute; reflexivity). vm_compute. discriminate.
Qed.
